(** * Pendulum chain: the event handlers of [src/main.py] and their properties

    The program keeps an ordered list of balls (one static pin followed by
    dynamic balls) joined pairwise by pymunk pin joints, and edits that chain
    from mouse handlers.  This file embeds the handlers of [MyView] and the
    [Ball] class as functions on an explicit program state, and states the
    chain properties over that embedding.

    Python objects are shared and mutated in place, so every [Ball] lives in
    an object store and is referred to by its identity (a [nat]); the sprite
    list, [center_pin], [attached_sprite] and the physics engine all hold
    identities.  A handler that raises ends the program ([arcade.run] does
    not catch), so a raise is a final result carrying no state. *)

From Stdlib Require Import ZArith Lia.
From stdpp Require Import gmap list.

#[local] Open Scope Z_scope.

(** ** Constants of the module *)

Definition WINDOW_HEIGHT : Z := 600.
Definition WINDOW_WIDTH : Z := 800.
Definition TRACE_LENGTH : nat := 4000.
#[global] Arguments TRACE_LENGTH : simpl never.

(** Coordinates are only stored and copied by the code embedded here, never
    computed on; they are integers here ([800/2] and [600/2] are exact). *)
Definition pos : Type := Z * Z.

(** ** Exceptions *)

Inductive exn : Type :=
| ValueError | IndexError | KeyError | AssertionError | UnsupportedType
| OverflowError.

Inductive result (A : Type) : Type :=
| Ok (x : A)
| Raise (e : exn).
Arguments Ok {A} x.
Arguments Raise {A} e.

Definition bind {A B : Type} (m : result A) (k : A -> result B) : result B :=
  match m with
  | Ok x => k x
  | Raise e => Raise e
  end.

Notation "'let!' x ':=' m 'in' k" := (bind m (fun x => k))
  (at level 10, x name, m at level 100, k at level 200,
   format "'[v' 'let!'  x  ':='  m  'in' '/' k ']'").

Definition is_ok {A : Type} (m : result A) : bool :=
  match m with Ok _ => true | Raise _ => false end.

(** ** Python list operations used on [self.balls] *)

Module pylist.

(** [l[i]], with Python's negative indices. *)
Definition getitem {A : Type} (l : list A) (i : Z) : result A :=
  let j := if i <? 0 then i + Z.of_nat (length l) else i in
  if j <? 0 then Raise IndexError
  else match l !! Z.to_nat j with
       | Some x => Ok x
       | None => Raise IndexError
       end.

(** [l.index(x)]: position of the first occurrence. *)
Fixpoint index (x : nat) (l : list nat) : result Z :=
  match l with
  | [] => Raise ValueError
  | y :: l' => if Nat.eqb y x then Ok 0
               else let! i := index x l' in Ok (i + 1)
  end.

(** [l.remove(x)]: drops the first occurrence. *)
Fixpoint remove (x : nat) (l : list nat) : result (list nat) :=
  match l with
  | [] => Raise ValueError
  | y :: l' => if Nat.eqb y x then Ok l'
               else let! r := remove x l' in Ok (y :: r)
  end.

End pylist.

(** ** The part of pymunk the handlers use

    A body is identified with the sprite it was created for (arcade creates
    exactly one body and one shape per sprite in [add_sprite]).  A constraint
    is an object with its own identity [cid] and its two bodies [a] and [b].
    [Space.remove] takes out exactly the object it is given: removing a body
    leaves the constraints attached to it in the space, removing an object
    that is not in the space fails, and so does removing [None]. *)

Module pymunk.

Inductive BodyType : Type := DYNAMIC | KINEMATIC | STATIC.

Record Constraint : Type := PinJoint { cid : nat; a : nat; b : nat }.

Record Space : Type := {
  bodies : list nat;
  shapes : list nat;
  constraints : list Constraint
}.

Definition has_constraint (c : Constraint) (sp : Space) : bool :=
  existsb (fun c' => Nat.eqb (cid c') (cid c)) (constraints sp).

Definition has_body (bd : nat) (sp : Space) : bool :=
  existsb (Nat.eqb bd) (bodies sp).

Definition has_shape (sh : nat) (sp : Space) : bool :=
  existsb (Nat.eqb sh) (shapes sp).

Definition add_body_shape (bd : nat) (sp : Space) : Space :=
  {| bodies := bodies sp ++ [bd];
     shapes := shapes sp ++ [bd];
     constraints := constraints sp |}.

Definition add_constraint (c : Constraint) (sp : Space) : Space :=
  {| bodies := bodies sp;
     shapes := shapes sp;
     constraints := constraints sp ++ [c] |}.

(** [space.remove(x)] where [x] is a constraint attribute, possibly [None]. *)
Definition remove_constraint (o : option Constraint) (sp : Space)
  : result Space :=
  match o with
  | None => Raise UnsupportedType
  | Some c =>
      if has_constraint c sp
      then Ok {| bodies := bodies sp;
                 shapes := shapes sp;
                 constraints :=
                   filter (fun c' => cid c' ≠ cid c) (constraints sp) |}
      else Raise AssertionError
  end.

Definition remove_body (bd : nat) (sp : Space) : result Space :=
  if has_body bd sp
  then Ok {| bodies := filter (fun x => x ≠ bd) (bodies sp);
             shapes := shapes sp;
             constraints := constraints sp |}
  else Raise AssertionError.

Definition remove_shape (sh : nat) (sp : Space) : result Space :=
  if has_shape sh sp
  then Ok {| bodies := bodies sp;
             shapes := filter (fun x => x ≠ sh) (shapes sp);
             constraints := constraints sp |}
  else Raise AssertionError.

(** The two bodies a constraint joins. *)
Definition endpoints (c : Constraint) : nat * nat := (a c, b c).

End pymunk.

(** ** The part of arcade the handlers use *)

Module arcade.

Definition MOUSE_BUTTON_LEFT : Z := 1.
Definition MOUSE_BUTTON_MIDDLE : Z := 2.
Definition MOUSE_BUTTON_RIGHT : Z := 4.
Definition key_SPACE : Z := 32.

(** [PymunkPhysicsEngine]: the space and the dictionary [sprites] (its keys,
    in insertion order; the physics object of sprite [s] holds body [s]). *)
Record PymunkPhysicsEngine : Type := {
  space : pymunk.Space;
  sprites : list nat
}.

Definition registered (s : nat) (pe : PymunkPhysicsEngine) : bool :=
  existsb (Nat.eqb s) (sprites pe).

Definition add_sprite (s : nat) (pe : PymunkPhysicsEngine)
  : PymunkPhysicsEngine :=
  {| space := pymunk.add_body_shape s (space pe);
     sprites := sprites pe ++ [s] |}.

(** [get_physics_object(sprite).body] *)
Definition get_physics_object_body (s : nat) (pe : PymunkPhysicsEngine)
  : result nat :=
  if registered s pe then Ok s else Raise KeyError.

Definition remove_sprite (s : nat) (pe : PymunkPhysicsEngine)
  : result PymunkPhysicsEngine :=
  if registered s pe then
    let! sp1 := pymunk.remove_body s (space pe) in
    let! sp2 := pymunk.remove_shape s sp1 in
    Ok {| space := sp2; sprites := filter (fun x => x ≠ s) (sprites pe) |}
  else Raise KeyError.

(** [check_for_collision_with_list(sprite, sprite_list)]: the sprites of the
    list that collide, in list order.  Which sprites the cursor circle
    overlaps is geometry, given here by [collides]. *)
Definition check_for_collision_with_list
  (collides : nat -> bool) (sprite_list : list nat) : list nat :=
  filter (fun s => collides s = true) sprite_list.

End arcade.

(** ** class Ball *)

(** A [Ball] together with the state of the body [add_sprite] creates for it
    ([mass], [body_type], [body_position]).  Radius, colour and friction only
    feed rendering and the solver and are left out. *)
Record Ball : Type := {
  mass : Z;
  position : pos;
  constraint : option pymunk.Constraint;
  traces : list pos;
  body_type : pymunk.BodyType;
  body_position : pos
}.

#[global] Instance Ball_inhabited : Inhabited Ball :=
  populate {| mass := 0; position := (0, 0); constraint := None;
              traces := []; body_type := pymunk.DYNAMIC;
              body_position := (0, 0) |}.

Definition set_constraint (c : option pymunk.Constraint) (bl : Ball) : Ball :=
  {| mass := mass bl; position := position bl; constraint := c;
     traces := traces bl; body_type := body_type bl;
     body_position := body_position bl |}.

Definition set_position (p : pos) (bl : Ball) : Ball :=
  {| mass := mass bl; position := p; constraint := constraint bl;
     traces := traces bl; body_type := body_type bl;
     body_position := body_position bl |}.

Definition set_body_position (p : pos) (bl : Ball) : Ball :=
  {| mass := mass bl; position := position bl; constraint := constraint bl;
     traces := traces bl; body_type := body_type bl;
     body_position := p |}.

Definition set_traces (t : list pos) (bl : Ball) : Ball :=
  {| mass := mass bl; position := position bl; constraint := constraint bl;
     traces := t; body_type := body_type bl;
     body_position := body_position bl |}.

(** The integers of this magnitude or more do not convert to a float
    (the largest float is [2^1024 - 2^971] and conversion rounds to
    nearest): [math.sqrt(mass)] and [0.2 * mass**2] convert an integer. *)
Definition FLOAT_LIMIT : Z := 2 ^ 1024 - 2 ^ 970.
#[global] Arguments FLOAT_LIMIT : simpl never.

(** The masses that pass the arithmetic of [Ball.__init__] and give a circle
    of a radius other than 0. *)
Definition mass_in_range (m : Z) : bool :=
  (0 <? m) && (m * m <? FLOAT_LIMIT).

(** [Ball.__init__], the object it builds.  [math.sqrt(mass)] raises
    [OverflowError] on an integer that does not convert to a float and
    [ValueError] on a negative one; arcade raises [IndexError] on a circle of
    radius 0, which is what mass 0 gives; [0.2 * mass**2] raises
    [OverflowError] when the square does not convert.  Between these, arcade
    may still fail to build the texture of a circle too large for it (its
    side is [4 * int(sqrt(mass))] pixels): where that starts depends on the
    imaging library and the machine and is not decided here, the ball being
    returned.  So what is constructed here includes all that the code
    constructs: [mass_in_range] is necessary for the code to construct a
    ball, not sufficient.  Registering the new object with the engine needs
    its identity and is done in [new_Ball] below. *)
Definition Ball_init (m : Z) (p : pos) (bt : pymunk.BodyType) : result Ball :=
  if FLOAT_LIMIT <=? Z.abs m then Raise OverflowError
  else if m <? 0 then Raise ValueError
  else if m =? 0 then Raise IndexError
  else if FLOAT_LIMIT <=? m * m then Raise OverflowError
  else Ok {| mass := m; position := p; constraint := None;
             traces := repeat p TRACE_LENGTH;
             body_type := bt; body_position := p |}.

(** [Ball.pymunk_moved]: the inherited hook does nothing. *)
Definition pymunk_moved (bl : Ball) : Ball :=
  set_traces (drop 1 (traces bl) ++ [position bl]) bl.

(** ** class MyView *)

Record MyView : Type := {
  objects : gmap nat Ball;
  fresh : nat;
  physics_engine : arcade.PymunkPhysicsEngine;
  balls : list nat;
  col_detector : pos;
  attached : option nat;
  attached_sprite : option nat;
  current_ball_mass : Z;
  running : bool;
  center_pin : nat
}.

Definition set_objects (o : gmap nat Ball) (v : MyView) : MyView :=
  {| objects := o; fresh := fresh v; physics_engine := physics_engine v;
     balls := balls v; col_detector := col_detector v;
     attached := attached v; attached_sprite := attached_sprite v;
     current_ball_mass := current_ball_mass v; running := running v;
     center_pin := center_pin v |}.

Definition set_fresh (n : nat) (v : MyView) : MyView :=
  {| objects := objects v; fresh := n; physics_engine := physics_engine v;
     balls := balls v; col_detector := col_detector v;
     attached := attached v; attached_sprite := attached_sprite v;
     current_ball_mass := current_ball_mass v; running := running v;
     center_pin := center_pin v |}.

Definition set_physics_engine (pe : arcade.PymunkPhysicsEngine) (v : MyView)
  : MyView :=
  {| objects := objects v; fresh := fresh v; physics_engine := pe;
     balls := balls v; col_detector := col_detector v;
     attached := attached v; attached_sprite := attached_sprite v;
     current_ball_mass := current_ball_mass v; running := running v;
     center_pin := center_pin v |}.

Definition set_space (sp : pymunk.Space) (v : MyView) : MyView :=
  set_physics_engine
    {| arcade.space := sp;
       arcade.sprites := arcade.sprites (physics_engine v) |} v.

Definition set_balls (l : list nat) (v : MyView) : MyView :=
  {| objects := objects v; fresh := fresh v;
     physics_engine := physics_engine v;
     balls := l; col_detector := col_detector v;
     attached := attached v; attached_sprite := attached_sprite v;
     current_ball_mass := current_ball_mass v; running := running v;
     center_pin := center_pin v |}.

Definition set_col_detector (p : pos) (v : MyView) : MyView :=
  {| objects := objects v; fresh := fresh v;
     physics_engine := physics_engine v;
     balls := balls v; col_detector := p;
     attached := attached v; attached_sprite := attached_sprite v;
     current_ball_mass := current_ball_mass v; running := running v;
     center_pin := center_pin v |}.

Definition set_attached (bd sp : option nat) (v : MyView) : MyView :=
  {| objects := objects v; fresh := fresh v;
     physics_engine := physics_engine v;
     balls := balls v; col_detector := col_detector v;
     attached := bd; attached_sprite := sp;
     current_ball_mass := current_ball_mass v; running := running v;
     center_pin := center_pin v |}.

Definition set_current_ball_mass (m : Z) (v : MyView) : MyView :=
  {| objects := objects v; fresh := fresh v;
     physics_engine := physics_engine v;
     balls := balls v; col_detector := col_detector v;
     attached := attached v; attached_sprite := attached_sprite v;
     current_ball_mass := m; running := running v;
     center_pin := center_pin v |}.

Definition set_running (r : bool) (v : MyView) : MyView :=
  {| objects := objects v; fresh := fresh v;
     physics_engine := physics_engine v;
     balls := balls v; col_detector := col_detector v;
     attached := attached v; attached_sprite := attached_sprite v;
     current_ball_mass := current_ball_mass v; running := r;
     center_pin := center_pin v |}.

(** The object behind an identity, and the space of the view's engine. *)
Definition obj (v : MyView) (s : nat) : Ball := objects v !!! s.
Definition the_space (v : MyView) : pymunk.Space :=
  arcade.space (physics_engine v).

(** In-place mutation of the object [s]. *)
Definition mutate (s : nat) (f : Ball -> Ball) (v : MyView) : MyView :=
  set_objects (<[s := f (obj v s)]> (objects v)) v.

(** [Ball(mass, self.physics_engine, position, body_type=bt)]: a new object,
    registered with the engine by its constructor. *)
Definition new_Ball (m : Z) (p : pos) (bt : pymunk.BodyType) (v : MyView)
  : result (nat * MyView) :=
  let! bl := Ball_init m p bt in
  let s := fresh v in
  Ok (s, set_physics_engine (arcade.add_sprite s (physics_engine v))
           (set_fresh (S s) (set_objects (<[s := bl]> (objects v)) v))).

(** The second argument of [join_balls] is a [Ball] or already a body. *)
Inductive BallOrBody : Type :=
| IsBall (s : nat)
| IsBody (bd : nat).

Definition join_balls (ball_a : nat) (ball_b : BallOrBody) (v : MyView)
  : result MyView :=
  let! body_a := arcade.get_physics_object_body ball_a (physics_engine v) in
  let! body_b :=
    match ball_b with
    | IsBall s => arcade.get_physics_object_body s (physics_engine v)
    | IsBody bd => Ok bd
    end in
  let constraint := pymunk.PinJoint (fresh v) body_a body_b in
  let v1 := set_fresh (S (fresh v)) v in
  let v2 := mutate ball_a (set_constraint (Some constraint)) v1 in
  Ok (set_space (pymunk.add_constraint constraint (the_space v2)) v2).

Definition create_ball (m : Z) (p : pos) (bt : pymunk.BodyType) (v : MyView)
  : result MyView :=
  let! sv := new_Ball m p bt v in
  let '(s, v1) := sv in
  Ok (set_balls (balls v1 ++ [s]) v1).

(** The comprehension of [create_balls]: one [create_ball] per index. *)
Fixpoint create_each (mps : list (Z * pos)) (bt : pymunk.BodyType)
  (v : MyView) : result MyView :=
  match mps with
  | [] => Ok v
  | (m, p) :: rest =>
      let! v1 := create_ball m p bt v in create_each rest bt v1
  end.

(** The joining loop of [create_balls], over the sprite list. *)
Fixpoint join_loop (l : list nat) (last_ball : nat) (v : MyView)
  : result MyView :=
  match l with
  | [] => Ok v
  | ball :: rest =>
      if Nat.eqb ball (center_pin v) then join_loop rest last_ball v
      else let! v1 := join_balls last_ball (IsBall ball) v in
           join_loop rest ball v1
  end.

Definition create_balls (masses : list Z) (positions : list pos)
  (bt : pymunk.BodyType) (v : MyView) : result MyView :=
  if negb (Nat.eqb (length masses) (length positions))
  then Raise AssertionError
  else
    let! v1 := create_each (zip masses positions) bt v in
    join_loop (balls v1) (center_pin v1) v1.

(** The fields [MyView.__init__] sets before it creates the pin. *)
Definition MyView_blank : MyView :=
  {| objects := ∅; fresh := 0%nat;
     physics_engine :=
       {| arcade.space := {| pymunk.bodies := []; pymunk.shapes := [];
                             pymunk.constraints := [] |};
          arcade.sprites := [] |};
     balls := []; col_detector := (0, 0);
     attached := None; attached_sprite := None;
     current_ball_mass := 10; running := false;
     center_pin := 0%nat |}.

Definition set_center_pin (s : nat) (v : MyView) : MyView :=
  {| objects := objects v; fresh := fresh v;
     physics_engine := physics_engine v;
     balls := balls v; col_detector := col_detector v;
     attached := attached v; attached_sprite := attached_sprite v;
     current_ball_mass := current_ball_mass v; running := running v;
     center_pin := s |}.

(** [MyView.__init__] up to and including [self.balls.append(center_pin)]. *)
Definition MyView_anchor_only : result MyView :=
  let! sv :=
    new_Ball 1 (WINDOW_WIDTH / 2, WINDOW_HEIGHT / 2) pymunk.STATIC
      MyView_blank in
  let '(s, v1) := sv in
  let v2 := set_center_pin s v1 in
  Ok (set_balls (balls v2 ++ [s]) v2).

(** [MyView.__init__] *)
Definition MyView_init : result MyView :=
  let! v := MyView_anchor_only in
  let ball_masses := [10; 15; 20] in
  let ball_positions := [(500, 300); (600, 300); (650, 300)] in
  create_balls ball_masses ball_positions pymunk.DYNAMIC v.

(** ** The handlers

    A handler takes the arguments of the Python method.  The two that test
    what is under the cursor also take [collides], the outcome of arcade's
    collision test of the cursor circle against each sprite. *)

Definition on_mouse_motion (x y dx dy : Z) (v : MyView) : MyView :=
  let v1 := set_col_detector (x, y) v in
  match attached_sprite v1 with
  | Some s => mutate s (set_position (x, y)) v1
  | None => v1
  end.

(** The three branches of [on_mouse_press], in source order. *)

Definition press_left (x y : Z) (collides : nat -> bool) (v : MyView)
  : result MyView :=
  let v1 := set_col_detector (x, y) v in
  let clicked_sprites :=
    arcade.check_for_collision_with_list collides (balls v1) in
  match clicked_sprites with
  | s :: _ =>
      let! bd := arcade.get_physics_object_body s (physics_engine v1) in
      Ok (set_attached (Some bd) (Some s) v1)
  | [] => Ok v1
  end.

Definition press_right (x y : Z) (v : MyView) : result MyView :=
  let! v1 := create_ball (current_ball_mass v) (x, y) pymunk.DYNAMIC v in
  let! ball_a := pylist.getitem (balls v1) (-2) in
  let! ball_b := pylist.getitem (balls v1) (-1) in
  join_balls ball_a (IsBall ball_b) v1.

Definition press_middle (x y : Z) (collides : nat -> bool) (v : MyView)
  : result MyView :=
  let v1 := set_col_detector (x, y) v in
  match arcade.check_for_collision_with_list collides (balls v1) with
  | clicked_sprite :: _ =>
      let! index := pylist.index clicked_sprite (balls v1) in
      if negb (index =? 0) then
        let! v2 :=
          match constraint (obj v1 clicked_sprite) with
          | Some c =>
              let! previous := pylist.getitem (balls v1) (index - 1) in
              let! v' := join_balls previous (IsBody (pymunk.b c)) v1 in
              let! sp :=
                pymunk.remove_constraint
                  (constraint (obj v' clicked_sprite)) (the_space v') in
              Ok (set_space sp v')
          | None => Ok v1
          end in
        let! l := pylist.remove clicked_sprite (balls v2) in
        let v3 := set_balls l v2 in
        let! pe := arcade.remove_sprite clicked_sprite (physics_engine v3) in
        Ok (set_physics_engine pe v3)
      else Ok v1
  | [] => Ok v1
  end.

Definition on_mouse_press (x y button modifiers : Z)
  (collides : nat -> bool) (v : MyView) : result MyView :=
  if button =? arcade.MOUSE_BUTTON_LEFT then press_left x y collides v
  else if button =? arcade.MOUSE_BUTTON_RIGHT then press_right x y v
  else if button =? arcade.MOUSE_BUTTON_MIDDLE then press_middle x y collides v
  else Ok v.

Definition on_mouse_scroll (x y scroll_x scroll_y : Z) (v : MyView) : MyView :=
  let v1 := set_current_ball_mass (current_ball_mass v + scroll_y) v in
  set_current_ball_mass (Z.max (current_ball_mass v1) 1) v1.

(** [on_mouse_release], for any button.  [attached] and [attached_sprite]
    are set and cleared together; were the sprite [None], [index] would
    raise. *)
Definition on_mouse_release (x y button modifiers : Z) (v : MyView)
  : result MyView :=
  match attached v with
  | Some _ =>
      match attached_sprite v with
      | None => Raise ValueError
      | Some sprite =>
          let! index := pylist.index sprite (balls v) in
          let! previous_ball := pylist.getitem (balls v) (index - 1) in
          let! sp :=
            pymunk.remove_constraint
              (constraint (obj v previous_ball)) (the_space v) in
          let! v1 :=
            join_balls previous_ball (IsBall sprite) (set_space sp v) in
          let next_constraint := constraint (obj v1 sprite) in
          let! v2 :=
            match next_constraint with
            | Some c =>
                let! sp' :=
                  pymunk.remove_constraint next_constraint (the_space v1) in
                join_balls sprite (IsBody (pymunk.b c)) (set_space sp' v1)
            | None => Ok v1
            end in
          Ok (set_attached None None v2)
      end
  | None => Ok v
  end.

Definition on_key_release (symbol modifiers : Z) (v : MyView) : MyView :=
  if symbol =? arcade.key_SPACE then set_running (negb (running v)) v else v.

(** [physics_engine.step]: the solver moves the dynamic bodies ([solve] gives
    the new place of each body; the solver is external), then the engine
    resynchronises its sprites: a resynchronised sprite is put where its body
    is and told so.  Which registered sprites the engine visits (all of them,
    or those that are neither static nor asleep) is the engine's business and
    given by [resynced]. *)
Definition resync_sprite (solve : nat -> pos) (v : MyView) (s : nat)
  : MyView :=
  let bp :=
    match body_type (obj v s) with
    | pymunk.DYNAMIC => solve s
    | _ => body_position (obj v s)
    end in
  mutate s (fun bl => pymunk_moved (set_position bp (set_body_position bp bl)))
    v.

Definition engine_step (solve : nat -> pos) (resynced : nat -> bool)
  (v : MyView) : MyView :=
  foldl (λ w s, if resynced s then resync_sprite solve w s else w) v
    (arcade.sprites (physics_engine v)).

(** [on_update]: [update_position] integrates the grabbed body, whose
    position is then overwritten with the cursor's. *)
Definition on_update (solve : nat -> pos) (resynced : nat -> bool)
  (v : MyView) : MyView :=
  let v1 :=
    match attached v with
    | Some bd => mutate bd (set_body_position (col_detector v)) v
    | None => v
    end in
  if running v1 then engine_step solve resynced v1 else v1.

(** ** Event sequences *)

Inductive Event : Type :=
| MouseMotion (x y dx dy : Z)
| MousePress (x y button modifiers : Z) (collides : nat -> bool)
| MouseScroll (x y scroll_x scroll_y : Z)
| MouseRelease (x y button modifiers : Z)
| KeyRelease (symbol modifiers : Z)
| Update (solve : nat -> pos) (resynced : nat -> bool).

Definition dispatch (e : Event) (v : MyView) : result MyView :=
  match e with
  | MouseMotion x y dx dy => Ok (on_mouse_motion x y dx dy v)
  | MousePress x y button modifiers collides =>
      on_mouse_press x y button modifiers collides v
  | MouseScroll x y sx sy => Ok (on_mouse_scroll x y sx sy v)
  | MouseRelease x y button modifiers => on_mouse_release x y button modifiers v
  | KeyRelease symbol modifiers => Ok (on_key_release symbol modifiers v)
  | Update solve resynced => Ok (on_update solve resynced v)
  end.

Fixpoint run (es : list Event) (v : MyView) : result MyView :=
  match es with
  | [] => Ok v
  | e :: es' => let! v1 := dispatch e v in run es' v1
  end.

(** What is observed of a state: the sprite list, the endpoints of the
    constraints in the space, and the endpoints of each ball's own
    constraint attribute. *)
Definition links (v : MyView) : list (nat * nat) :=
  map pymunk.endpoints (pymunk.constraints (the_space v)).

Definition own_link (v : MyView) (s : nat) : option (nat * nat) :=
  option_map pymunk.endpoints (constraint (obj v s)).

(** The links a chain with this sprite list is meant to have: one per pair of
    consecutive indices. *)
Definition chain_links (v : MyView) : list (nat * nat) :=
  zip (balls v) (tail (balls v)).

(** A cursor that overlaps exactly the sprite [s]. *)
Definition only (s : nat) : nat -> bool := Nat.eqb s.

(** ** Predicates on states *)

Definition allocated (v : MyView) (s : nat) : Prop :=
  is_Some (objects v !! s).

Definition registered_in (v : MyView) (s : nat) : Prop :=
  s ∈ arcade.sprites (physics_engine v).

(** What every state reached from [MyView_init] satisfies: the pin stays
    first, static and in the engine; identities in use are allocated (so the
    default of [obj] is never read) and below [fresh]; the configured mass is
    at least 1; every trace buffer has [TRACE_LENGTH] entries; every other
    ball is dynamic; the listed balls are distinct and in the engine. *)
Record Inv (v : MyView) : Prop := {
  inv_pin_first : head (balls v) = Some (center_pin v);
  inv_pin_static : body_type (obj v (center_pin v)) = pymunk.STATIC;
  inv_pin_registered : registered_in v (center_pin v);
  inv_pin_body : center_pin v ∈ pymunk.bodies (the_space v);
  inv_store : ∀ s, allocated v s → (s < fresh v)%nat;
  inv_sprites : ∀ s, registered_in v s → allocated v s;
  inv_attached : ∀ s, attached v = Some s → allocated v s;
  inv_attached_sprite : ∀ s, attached_sprite v = Some s → allocated v s;
  inv_mass : 1 ≤ current_ball_mass v;
  inv_traces :
    ∀ s bl, objects v !! s = Some bl → length (traces bl) = TRACE_LENGTH;
  inv_dynamic :
    ∀ s bl, objects v !! s = Some bl → s ≠ center_pin v →
            body_type bl = pymunk.DYNAMIC;
  inv_balls_nodup : NoDup (balls v);
  inv_balls_registered : ∀ s, s ∈ balls v → registered_in v s
}.

(** The code's ownership of links: [join_balls] stores the joint on its
    first argument, so a ball holds the link to its successor (a live
    constraint of the space, from the ball to the next one) and the tail
    holds none. *)
Definition successor_links (v : MyView) : Prop :=
  ∀ i s, balls v !! i = Some s →
    match balls v !! S i with
    | Some t =>
        ∃ c, constraint (obj v s) = Some c
             ∧ pymunk.a c = s ∧ pymunk.b c = t
             ∧ c ∈ pymunk.constraints (the_space v)
    | None => constraint (obj v s) = None
    end.

(** A valid chain. *)
Record valid (v : MyView) : Prop := {
  valid_anchor : head (balls v) = Some (center_pin v);
  valid_nodup : NoDup (balls v);
  valid_registered : ∀ s, s ∈ balls v → registered_in v s;
  valid_ball_ids : ∀ s, s ∈ balls v → (s < fresh v)%nat;
  valid_links : successor_links v;
  valid_cids : NoDup (map pymunk.cid (pymunk.constraints (the_space v)));
  valid_cid_ids :
    ∀ c, c ∈ pymunk.constraints (the_space v) → (pymunk.cid c < fresh v)%nat
}.

(** A chain holding only the anchor, with an empty set of constraints. *)
Record anchor_only (v : MyView) : Prop := {
  ao_balls : balls v = [center_pin v];
  ao_links : pymunk.constraints (the_space v) = [];
  ao_registered : registered_in v (center_pin v);
  ao_fresh : (center_pin v < fresh v)%nat
}.

(** A chain that can be appended to and whose space holds exactly one link
    per pair of consecutive balls, in order. *)
Record appendable (v : MyView) : Prop := {
  ap_last : ∃ t, last (balls v) = Some t ∧ registered_in v t;
  ap_links : links v = chain_links v
}.

(** The claim on appends, for bulk creation: on every valid chain a bulk
    creation that returns has added one node and one link per mass given. *)
Definition bulk_creation_adds_one_link_each : Prop :=
  ∀ (v v' : MyView) (masses : list Z) (positions : list pos),
    valid v →
    create_balls masses positions pymunk.DYNAMIC v = Ok v' →
    length (balls v') = (length (balls v) + length masses)%nat
    ∧ length (links v') = (length (links v) + length masses)%nat.

(** The ownership the data model describes: the node at index [i > 0] holds
    the link to the node at index [i - 1]. *)
Definition owned_by_later (v : MyView) : Prop :=
  ∀ i s p, balls v !! S i = Some s → balls v !! i = Some p →
    ∃ c, constraint (obj v s) = Some c
         ∧ ((pymunk.a c = p ∧ pymunk.b c = s)
            ∨ (pymunk.a c = s ∧ pymunk.b c = p)).

(** A left press that detaches: once the ball [s] at index [i + 1] is
    grabbed, no constraint of the space joins it to the ball at index [i]. *)
Definition press_detaches (x y modifiers : Z) (collides : nat -> bool)
  (v : MyView) : Prop :=
  ∀ v1 i p s,
    on_mouse_press x y arcade.MOUSE_BUTTON_LEFT modifiers collides v = Ok v1 →
    attached_sprite v1 = Some s →
    balls v !! i = Some p → balls v !! S i = Some s →
    ∀ c, c ∈ pymunk.constraints (the_space v1) →
         pymunk.endpoints c ≠ (p, s) ∧ pymunk.endpoints c ≠ (s, p).

(** Events that happen while a button is held: the cursor moves and frames
    are updated. *)
Definition is_drag (e : Event) : bool :=
  match e with
  | MouseMotion _ _ _ _ | Update _ _ => true
  | _ => false
  end.

Definition is_right_press (e : Event) : bool :=
  match e with
  | MousePress _ _ button _ _ => button =? arcade.MOUSE_BUTTON_RIGHT
  | _ => false
  end.

(** Two states with the same chain: same sprite list, same engine and space,
    same links stored on the balls, same grabbed ball. *)
Record same_chain (v v' : MyView) : Prop := {
  sc_balls : balls v' = balls v;
  sc_engine : physics_engine v' = physics_engine v;
  sc_fresh : fresh v' = fresh v;
  sc_center_pin : center_pin v' = center_pin v;
  sc_attached : attached v' = attached v;
  sc_attached_sprite : attached_sprite v' = attached_sprite v;
  sc_constraint : ∀ s, constraint (obj v' s) = constraint (obj v s)
}.

(** The states after construction, as values. *)
Definition anchor_view : MyView :=
  match MyView_anchor_only with Ok v => v | Raise _ => MyView_blank end.

Definition init_view : MyView :=
  match MyView_init with Ok v => v | Raise _ => MyView_blank end.

(** What is compared when a scenario is evaluated: the sprite list, the
    endpoints of the constraints in the space, each listed ball's own link,
    and the sprites and bodies the engine holds. *)
Definition observe (v : MyView) :=
  (balls v, links v, map (own_link v) (balls v),
   arcade.sprites (physics_engine v), pymunk.bodies (the_space v)).

Definition observed (r : result MyView) :=
  match r with
  | Ok v => Ok (observe v)
  | Raise e => Raise e
  end.

(** What is seen of the pin: whether it is first, its body type, where its
    sprite is and where its body is. *)
Definition pin_observed (r : result MyView) :=
  match r with
  | Ok v =>
      Ok (head (balls v), body_type (obj v (center_pin v)),
          position (obj v (center_pin v)),
          body_position (obj v (center_pin v)))
  | Raise e => Raise e
  end.

(** A checker for [valid], to evaluate on given states. *)
#[global] Instance Constraint_eq_dec : EqDecision pymunk.Constraint.
Proof. solve_decision. Defined.

Fixpoint links_ok (v : MyView) (l : list nat) : bool :=
  match l with
  | [] => true
  | s :: l' =>
      match l', constraint (obj v s) with
      | [], None => true
      | t :: _, Some c =>
          Nat.eqb (pymunk.a c) s && Nat.eqb (pymunk.b c) t
          && bool_decide (c ∈ pymunk.constraints (the_space v))
      | _, _ => false
      end && links_ok v l'
  end.

Definition valid_b (v : MyView) : bool :=
  bool_decide (head (balls v) = Some (center_pin v))
  && bool_decide (NoDup (balls v))
  && forallb (λ s, arcade.registered s (physics_engine v)) (balls v)
  && forallb (λ s, Nat.ltb s (fresh v)) (balls v)
  && links_ok v (balls v)
  && bool_decide (NoDup (map pymunk.cid (pymunk.constraints (the_space v))))
  && forallb (λ c, Nat.ltb (pymunk.cid c) (fresh v))
       (pymunk.constraints (the_space v)).

(** Every allocated ball keeps the trace buffer it has. *)
Definition keeps_traces (v v' : MyView) : Prop :=
  ∀ s bl, objects v !! s = Some bl →
    ∃ bl', objects v' !! s = Some bl' ∧ traces bl' = traces bl.

(** ** Further definitions: sequences of callbacks and events, drawing *)

(** The movement callback run once per physics step, the sprite being put at
    the places [ps] in turn (arcade's [Sprite.pymunk_moved] sets the position
    before [Ball.pymunk_moved] records it). *)
Definition moved_through (ps : list pos) (bl : Ball) : Ball :=
  foldl (λ b p, pymunk_moved (set_position p b)) bl ps.

(** Releases of the space bar among the events. *)
Definition is_space_release (e : Event) : bool :=
  match e with
  | KeyRelease symbol _ => symbol =? arcade.key_SPACE
  | _ => false
  end.

Fixpoint space_toggles (es : list Event) : bool :=
  match es with
  | [] => false
  | e :: es' => xorb (is_space_release e) (space_toggles es')
  end.

(** Events other than presses and releases of a mouse button. *)
Definition is_passive (e : Event) : bool :=
  match e with
  | MousePress _ _ _ _ _ | MouseRelease _ _ _ _ => false
  | _ => true
  end.

(** The loop of [on_draw]: the [draw_line] calls as pairs of end points,
    [pos] being the place of the previous ball (first the anchor's). *)
Fixpoint draw_loop (v : MyView) (pos_ : pos) (l : list nat)
  : list (pos * pos) :=
  match l with
  | [] => []
  | ball :: rest =>
      (pos_, position (obj v ball))
      :: draw_loop v (position (obj v ball)) rest
  end.

Definition on_draw_lines (v : MyView) : list (pos * pos) :=
  draw_loop v (position (obj v (center_pin v))) (balls v).

(** The two places a pair of balls is at. *)
Definition segment (v : MyView) (ab : nat * nat) : pos * pos :=
  (position (obj v ab.1), position (obj v ab.2)).

(** Where the physics step leaves the body of [s] (the [bp] of
    [resync_sprite]). *)
Definition stepped_position (solve : nat -> pos) (v : MyView) (s : nat)
  : pos :=
  match body_type (obj v s) with
  | pymunk.DYNAMIC => solve s
  | _ => body_position (obj v s)
  end.

(** A ball whose sprite and body are at [p] and whose trace ends there. *)
Definition recorded_at (p : pos) (bl : Ball) : Prop :=
  position bl = p ∧ body_position bl = p ∧ last (traces bl) = Some p.

(** The engine's sprites, the bodies and the shapes of the space go
    together. *)
Definition synced (v : MyView) : Prop :=
  arcade.sprites (physics_engine v) = pymunk.bodies (the_space v)
  ∧ arcade.sprites (physics_engine v) = pymunk.shapes (the_space v).

(** ** Basic facts: the error monad and the list operations *)

Lemma bind_Ok {A B : Type} (m : result A) (k : A -> result B) (y : B) :
  bind m k = Ok y → ∃ x, m = Ok x ∧ k x = Ok y.
Proof. destruct m as [x|e]; simpl; [eauto | discriminate]. Qed.

Tactic Notation "inv_bind" hyp(H) "as" ident(x) ident(Hx) :=
  apply bind_Ok in H; destruct H as (x & Hx & H).

Lemma existsb_eqb_elem (s : nat) (l : list nat) :
  existsb (Nat.eqb s) l = true ↔ s ∈ l.
Proof.
  rewrite existsb_exists. split.
  - intros (x & Hin & Heq). apply Nat.eqb_eq in Heq. subst.
    by apply list_elem_of_In.
  - intros Hin. exists s.
    split; [by apply list_elem_of_In | apply Nat.eqb_refl].
Qed.

Lemma registered_elem (s : nat) (pe : arcade.PymunkPhysicsEngine) :
  arcade.registered s pe = true ↔ s ∈ arcade.sprites pe.
Proof. apply existsb_eqb_elem. Qed.

Lemma get_body_Ok (s bd : nat) (pe : arcade.PymunkPhysicsEngine) :
  arcade.get_physics_object_body s pe = Ok bd ↔
  bd = s ∧ s ∈ arcade.sprites pe.
Proof.
  unfold arcade.get_physics_object_body.
  destruct (arcade.registered s pe) eqn:E.
  - apply registered_elem in E.
    split; [intros [= <-]; done | intros [-> _]; done].
  - split; [discriminate|]. intros [_ Hin].
    apply registered_elem in Hin. congruence.
Qed.

Lemma index_head (x : nat) (l : list nat) :
  head l = Some x → pylist.index x l = Ok 0.
Proof.
  destruct l as [|y l]; simpl; [discriminate|]. intros [= ->].
  by rewrite Nat.eqb_refl.
Qed.

Lemma index_nonneg (x : nat) (l : list nat) (i : Z) :
  pylist.index x l = Ok i → 0 ≤ i.
Proof.
  revert i. induction l as [|y l IH]; simpl; intros i H; [discriminate|].
  destruct (Nat.eqb y x).
  - injection H as <-. lia.
  - inv_bind H as j Hj. injection H as <-. specialize (IH _ Hj). lia.
Qed.

Lemma index_lookup (x : nat) (l : list nat) (i : Z) :
  pylist.index x l = Ok i →
  l !! Z.to_nat i = Some x ∧ ∀ j, (j < Z.to_nat i)%nat → l !! j ≠ Some x.
Proof.
  revert i. induction l as [|y l IH]; simpl; intros i H; [discriminate|].
  destruct (Nat.eqb y x) eqn:E.
  - injection H as <-. apply Nat.eqb_eq in E. subst. split; [done|]. simpl. lia.
  - inv_bind H as k Hk. injection H as <-.
    pose proof (index_nonneg _ _ _ Hk) as Hnn.
    destruct (IH _ Hk) as [Hl Hmin].
    replace (Z.to_nat (k + 1)) with (S (Z.to_nat k)) by lia.
    split; [done|]. intros [|j] Hj; simpl.
    + apply Nat.eqb_neq in E. congruence.
    + apply Hmin. lia.
Qed.

Lemma index_of_elem (x : nat) (l : list nat) :
  x ∈ l → ∃ i, pylist.index x l = Ok i.
Proof.
  induction l as [|y l IH]; simpl; intros Hin.
  - by apply elem_of_nil in Hin.
  - destruct (Nat.eqb y x) eqn:E; [eauto|].
    apply Nat.eqb_neq in E. apply elem_of_cons in Hin as [->|Hin]; [done|].
    destruct (IH Hin) as [i ->]. simpl. eauto.
Qed.

Lemma index_nodup_lookup (x : nat) (l : list nat) (i : nat) :
  NoDup l → l !! i = Some x → pylist.index x l = Ok (Z.of_nat i).
Proof.
  intros Hnd Hl.
  destruct (index_of_elem x l) as [j Hj].
  { apply list_elem_of_lookup. eauto. }
  destruct (index_lookup _ _ _ Hj) as [Hl' _].
  pose proof (index_nonneg _ _ _ Hj).
  assert (Z.to_nat j = i) by (eapply NoDup_lookup; eauto).
  rewrite Hj. f_equal. lia.
Qed.

Lemma remove_head_ne (x y : nat) (l r : list nat) :
  x ≠ y → pylist.remove x (y :: l) = Ok r → head r = Some y.
Proof.
  intros Hne. simpl. destruct (Nat.eqb y x) eqn:E.
  - apply Nat.eqb_eq in E. congruence.
  - intros H. inv_bind H as r' Hr'. by injection H as <-.
Qed.

Lemma remove_nodup (x : nat) (l r : list nat) :
  NoDup l → pylist.remove x l = Ok r →
  NoDup r ∧ ∀ t, t ∈ r ↔ t ∈ l ∧ t ≠ x.
Proof.
  revert r. induction l as [|y l IH]; simpl; intros r Hnd H; [discriminate|].
  apply NoDup_cons in Hnd as [Hy Hnd].
  destruct (Nat.eqb_spec y x) as [->|Hne].
  - injection H as <-. split; [done|]. intros t. rewrite elem_of_cons.
    split.
    + intros Ht. split; [by right|]. by intros ->.
    + intros [[->|Ht] Hne]; done.
  - inv_bind H as r' Hr'. injection H as <-.
    destruct (IH _ Hnd Hr') as [Hnd' Hmem]. split.
    + apply NoDup_cons. split; [|done]. rewrite Hmem. tauto.
    + intros t. rewrite !elem_of_cons, Hmem. split.
      * intros [->|[Ht Hne']]; [split; [by left | done] | split; [by right | done]].
      * intros [[->|Ht] Hne']; [by left | by right].
Qed.

Lemma remove_length (x : nat) (l r : list nat) :
  pylist.remove x l = Ok r → length l = S (length r).
Proof.
  revert r. induction l as [|y l IH]; simpl; intros r H; [discriminate|].
  destruct (Nat.eqb y x).
  - by injection H as <-.
  - inv_bind H as r' Hr'. injection H as <-. simpl. f_equal. by apply IH.
Qed.

Lemma getitem_nonneg {A : Type} (l : list A) (i : nat) (x : A) :
  l !! i = Some x → pylist.getitem l (Z.of_nat i) = Ok x.
Proof.
  intros H. unfold pylist.getitem.
  destruct (Z.ltb_spec (Z.of_nat i) 0) as [?|_]; [lia|].
  destruct (Z.ltb_spec (Z.of_nat i) 0) as [?|_]; [lia|].
  by rewrite Nat2Z.id, H.
Qed.

Lemma getitem_last {A : Type} (l : list A) (x : A) :
  pylist.getitem (l ++ [x]) (-1) = Ok x.
Proof.
  unfold pylist.getitem. simpl. rewrite length_app. simpl.
  destruct (Z.ltb_spec (-1 + Z.of_nat (length l + 1)) 0) as [?|_]; [lia|].
  replace (Z.to_nat (-1 + Z.of_nat (length l + 1))) with (length l + 0)%nat by lia.
  by rewrite lookup_app_r, Nat.add_comm, Nat.add_sub by lia.
Qed.

Lemma getitem_last_but_one {A : Type} (l : list A) (x y : A) :
  pylist.getitem (l ++ [x; y]) (-2) = Ok x.
Proof.
  unfold pylist.getitem. simpl. rewrite length_app. simpl.
  destruct (Z.ltb_spec (-2 + Z.of_nat (length l + 2)) 0) as [?|_]; [lia|].
  replace (Z.to_nat (-2 + Z.of_nat (length l + 2))) with (length l + 0)%nat by lia.
  by rewrite lookup_app_r, Nat.add_comm, Nat.add_sub by lia.
Qed.

(** ** The object store *)

Lemma objects_mutate (s t : nat) (f : Ball -> Ball) (v : MyView) :
  objects (mutate s f v) !! t =
  if decide (s = t) then Some (f (obj v s)) else objects v !! t.
Proof. unfold mutate. simpl. by rewrite lookup_insert. Qed.

Lemma obj_mutate (s t : nat) (f : Ball -> Ball) (v : MyView) :
  obj (mutate s f v) t = if decide (s = t) then f (obj v s) else obj v t.
Proof.
  unfold obj at 1. unfold mutate. simpl.
  destruct (decide (s = t)) as [->|Hne].
  - by rewrite lookup_total_insert_eq.
  - by rewrite lookup_total_insert_ne.
Qed.

Lemma obj_allocated (v : MyView) (s : nat) (bl : Ball) :
  objects v !! s = Some bl → obj v s = bl.
Proof. intros H. unfold obj. by apply lookup_total_correct. Qed.

Lemma allocated_mutate (s t : nat) (f : Ball -> Ball) (v : MyView) :
  allocated v s → (allocated (mutate s f v) t ↔ allocated v t).
Proof.
  intros Hs. unfold allocated. rewrite objects_mutate.
  destruct (decide (s = t)) as [->|]; [|done].
  split; [done | eauto].
Qed.

Ltac join_inv H :=
  let bd := fresh "bd" in
  let Hbd := fresh "Hbd" in
  let bd' := fresh "bd" in
  let Hbd' := fresh "Hbd" in
  unfold join_balls in H;
  apply bind_Ok in H; destruct H as (bd & Hbd & H);
  apply bind_Ok in H; destruct H as (bd' & Hbd' & H);
  apply get_body_Ok in Hbd; destruct Hbd as [-> Hbd];
  injection H as <-.

Lemma Ball_init_Ok (m : Z) (p : pos) (bt : pymunk.BodyType) (bl : Ball) :
  Ball_init m p bt = Ok bl →
  mass_in_range m = true ∧ mass bl = m ∧ position bl = p
  ∧ constraint bl = None
  ∧ traces bl = repeat p TRACE_LENGTH ∧ body_type bl = bt
  ∧ body_position bl = p.
Proof.
  unfold Ball_init, mass_in_range.
  destruct (FLOAT_LIMIT <=? Z.abs m); [discriminate|].
  destruct (Z.ltb_spec m 0); [discriminate|].
  destruct (Z.eqb_spec m 0); [discriminate|].
  destruct (Z.leb_spec FLOAT_LIMIT (m * m)); [discriminate|].
  intros [= <-]. cbn [mass position constraint traces body_type body_position].
  split; [|done]. apply andb_true_iff. split; [apply Z.ltb_lt | apply Z.ltb_lt];
    lia.
Qed.

Lemma Ball_init_record (m : Z) (p : pos) (bt : pymunk.BodyType) (bl : Ball) :
  Ball_init m p bt = Ok bl →
  bl = {| mass := m; position := p; constraint := None;
          traces := repeat p TRACE_LENGTH;
          body_type := bt; body_position := p |}.
Proof.
  unfold Ball_init.
  destruct (FLOAT_LIMIT <=? Z.abs m); [discriminate|].
  destruct (m <? 0); [discriminate|].
  destruct (m =? 0); [discriminate|].
  destruct (FLOAT_LIMIT <=? m * m); [discriminate|].
  by intros [= <-].
Qed.

Lemma Ball_init_in_range (m : Z) (p : pos) (bt : pymunk.BodyType) :
  mass_in_range m = true → ∃ bl, Ball_init m p bt = Ok bl.
Proof.
  unfold mass_in_range. intros Hm. apply andb_true_iff in Hm as [H0 Hsq].
  apply Z.ltb_lt in H0. apply Z.ltb_lt in Hsq.
  unfold Ball_init.
  destruct (Z.leb_spec FLOAT_LIMIT (Z.abs m)); [nia|].
  destruct (Z.ltb_spec m 0); [lia|].
  destruct (Z.eqb_spec m 0); [lia|].
  destruct (Z.leb_spec FLOAT_LIMIT (m * m)); [lia|]. eauto.
Qed.

(** ** The invariant of reachable states, step by step *)

Section InvSteps.
Context (v : MyView) (HI : Inv v).

Lemma Inv_mutate (s : nat) (f : Ball -> Ball) :
  allocated v s →
  (∀ bl, body_type (f bl) = body_type bl) →
  (∀ bl, length (traces bl) = TRACE_LENGTH →
         length (traces (f bl)) = TRACE_LENGTH) →
  Inv (mutate s f v).
Proof.
  intros Hs Hbt Htr. destruct HI.
  split; try done.
  - change (body_type (obj (mutate s f v) (center_pin v)) = pymunk.STATIC).
    rewrite obj_mutate. case_decide; [subst; by rewrite Hbt | done].
  - intros t Ht. apply allocated_mutate in Ht; auto.
  - intros t Ht. apply allocated_mutate; auto.
  - intros t Ht. apply allocated_mutate; auto.
  - intros t Ht. apply allocated_mutate; auto.
  - intros t bl. rewrite objects_mutate. case_decide.
    + intros [= <-]. apply Htr. destruct Hs as [bl0 Hbl0].
      rewrite (obj_allocated _ _ _ Hbl0). eauto.
    + eauto.
  - intros t bl. rewrite objects_mutate. case_decide.
    + intros [= <-] Hne. rewrite Hbt. destruct Hs as [bl0 Hbl0].
      rewrite (obj_allocated _ _ _ Hbl0). subst t. eauto.
    + eauto.
Qed.

Lemma Inv_set_col_detector (p : pos) : Inv (set_col_detector p v).
Proof. destruct HI. by split. Qed.

Lemma Inv_set_running (r : bool) : Inv (set_running r v).
Proof. destruct HI. by split. Qed.

Lemma Inv_set_current_ball_mass (m : Z) :
  1 ≤ m → Inv (set_current_ball_mass m v).
Proof. intros Hm. destruct HI. by split. Qed.

Lemma Inv_set_attached (bd sp : option nat) :
  (∀ s, bd = Some s → allocated v s) →
  (∀ s, sp = Some s → allocated v s) →
  Inv (set_attached bd sp v).
Proof. intros H1 H2. destruct HI. by split. Qed.

Lemma Inv_set_balls (l : list nat) :
  head l = Some (center_pin v) → NoDup l →
  (∀ s, s ∈ l → registered_in v s) →
  Inv (set_balls l v).
Proof. intros Hl Hnd Hreg. destruct HI. by split. Qed.

Lemma Inv_set_physics_engine (pe : arcade.PymunkPhysicsEngine) :
  center_pin v ∈ arcade.sprites pe →
  center_pin v ∈ pymunk.bodies (arcade.space pe) →
  (∀ s, s ∈ arcade.sprites pe → registered_in v s) →
  (∀ s, s ∈ balls v → s ∈ arcade.sprites pe) →
  Inv (set_physics_engine pe v).
Proof.
  intros H1 H2 H3 H4. destruct HI. split; try done.
  intros s Hs. apply inv_sprites0, H3, Hs.
Qed.

Lemma Inv_set_space (sp : pymunk.Space) :
  pymunk.bodies sp = pymunk.bodies (the_space v) → Inv (set_space sp v).
Proof.
  intros Hb. apply Inv_set_physics_engine; simpl.
  - apply HI.
  - rewrite Hb. apply HI.
  - done.
  - apply HI.
Qed.

Lemma Inv_join_balls (ball_a : nat) (ball_b : BallOrBody) (v' : MyView) :
  join_balls ball_a ball_b v = Ok v' → Inv v'.
Proof.
  intros H. join_inv H.
  assert (Inv (mutate ball_a
                 (set_constraint
                    (Some (pymunk.PinJoint (fresh v) ball_a bd0)))
                 (set_fresh (S (fresh v)) v))) as HI'.
  { destruct HI. split; try done.
    - change (body_type (obj (mutate ball_a
                 (set_constraint
                    (Some (pymunk.PinJoint (fresh v) ball_a bd0)))
                 (set_fresh (S (fresh v)) v)) (center_pin v)) = pymunk.STATIC).
      rewrite obj_mutate. case_decide; [by subst | done].
    - intros t Ht. simpl. unfold allocated in Ht.
      rewrite objects_mutate in Ht. case_decide.
      + subst. specialize (inv_store0 _ (inv_sprites0 _ Hbd)). lia.
      + specialize (inv_store0 _ Ht). lia.
    - intros t Ht. unfold allocated. rewrite objects_mutate.
      case_decide; [eauto | by apply inv_sprites0].
    - intros t Ht. unfold allocated. rewrite objects_mutate.
      case_decide; [eauto | by apply inv_attached0].
    - intros t Ht. unfold allocated. rewrite objects_mutate.
      case_decide; [eauto | by apply inv_attached_sprite0].
    - intros t bl. rewrite objects_mutate. case_decide.
      + intros [= <-]. simpl. destruct (inv_sprites0 _ Hbd) as [bl0 Hbl0].
        change (obj (set_fresh (S (fresh v)) v) ball_a) with (obj v ball_a).
        rewrite (obj_allocated _ _ _ Hbl0). eauto.
      + apply inv_traces0.
    - intros t bl. rewrite objects_mutate. case_decide.
      + intros [= <-] Hne. simpl. destruct (inv_sprites0 _ Hbd) as [bl0 Hbl0].
        change (obj (set_fresh (S (fresh v)) v) ball_a) with (obj v ball_a).
        rewrite (obj_allocated _ _ _ Hbl0). subst t. eauto.
      + apply inv_dynamic0. }
  destruct HI'. split; try done.
Qed.

Lemma Inv_new_Ball (m : Z) (p : pos) (s : nat) (v' : MyView) :
  new_Ball m p pymunk.DYNAMIC v = Ok (s, v') →
  Inv v' ∧ s = fresh v ∧ allocated v' s ∧ registered_in v' s
  ∧ balls v' = balls v ∧ center_pin v' = center_pin v.
Proof.
  intros H. unfold new_Ball in H. inv_bind H as bl Hbl.
  injection H as <- <-.
  apply Ball_init_Ok in Hbl as (_ & _ & _ & _ & Htr & Hbt & _).
  assert (objects v !! fresh v = None) as Hnone.
  { destruct (objects v !! fresh v) eqn:E; [|done].
    assert (allocated v (fresh v)) as Ha by (unfold allocated; eauto).
    apply HI in Ha. lia. }
  assert (center_pin v ≠ fresh v) as Hne.
  { intros Heq. pose proof (inv_sprites _ HI _ (inv_pin_registered _ HI)) as Ha.
    apply HI in Ha. lia. }
  split; [|split; [done|split; [|split; [|done]]]].
  - destruct HI. split; simpl; try done.
    + unfold obj. simpl. by rewrite lookup_total_insert_ne.
    + unfold registered_in. simpl. apply elem_of_app. by left.
    + apply elem_of_app. by left.
    + intros t [bt' Ht]. simpl in Ht. rewrite lookup_insert in Ht.
      case_decide; [lia|]. assert (t < fresh v)%nat; [|lia].
      apply inv_store0. unfold allocated. eauto.
    + intros t Ht. unfold registered_in in Ht. simpl in Ht.
      unfold allocated. simpl. rewrite lookup_insert.
      case_decide; [eauto|]. apply elem_of_app in Ht as [Ht|Ht].
      * by apply inv_sprites0.
      * apply list_elem_of_singleton in Ht. congruence.
    + intros t Ht. unfold allocated. simpl. rewrite lookup_insert.
      case_decide; [eauto | by apply inv_attached0].
    + intros t Ht. unfold allocated. simpl. rewrite lookup_insert.
      case_decide; [eauto | by apply inv_attached_sprite0].
    + intros t bl'. rewrite lookup_insert. case_decide.
      * intros [= <-]. rewrite Htr. apply repeat_length.
      * apply inv_traces0.
    + intros t bl'. rewrite lookup_insert. case_decide.
      * by intros [= <-].
      * apply inv_dynamic0.
    + intros t Ht. unfold registered_in. simpl. apply elem_of_app. left.
      by apply inv_balls_registered0.
  - unfold allocated. simpl. rewrite lookup_insert_eq. eauto.
  - unfold registered_in. simpl. apply elem_of_app. right.
    by apply list_elem_of_singleton.
Qed.

End InvSteps.

(** What [join_balls] leaves alone. *)
Lemma join_balls_frame (ball_a : nat) (ball_b : BallOrBody) (v v' : MyView) :
  join_balls ball_a ball_b v = Ok v' →
  balls v' = balls v ∧ center_pin v' = center_pin v
  ∧ arcade.sprites (physics_engine v') = arcade.sprites (physics_engine v)
  ∧ pymunk.bodies (the_space v') = pymunk.bodies (the_space v)
  ∧ attached v' = attached v ∧ attached_sprite v' = attached_sprite v
  ∧ current_ball_mass v' = current_ball_mass v
  ∧ fresh v' = S (fresh v).
Proof. intros H. join_inv H. by repeat split. Qed.

Lemma remove_constraint_Ok (o : option pymunk.Constraint)
  (sp sp' : pymunk.Space) :
  pymunk.remove_constraint o sp = Ok sp' →
  ∃ c, o = Some c ∧ pymunk.has_constraint c sp = true
       ∧ pymunk.bodies sp' = pymunk.bodies sp
       ∧ pymunk.shapes sp' = pymunk.shapes sp
       ∧ pymunk.constraints sp' =
         filter (λ c', pymunk.cid c' ≠ pymunk.cid c) (pymunk.constraints sp).
Proof.
  destruct o as [c|]; simpl; [|discriminate].
  destruct (pymunk.has_constraint c sp) eqn:E; [|discriminate].
  intros [= <-]. exists c. by repeat split.
Qed.

Lemma remove_sprite_Ok (s : nat) (pe pe' : arcade.PymunkPhysicsEngine) :
  arcade.remove_sprite s pe = Ok pe' →
  arcade.sprites pe' = filter (λ x, x ≠ s) (arcade.sprites pe)
  ∧ pymunk.bodies (arcade.space pe') =
    filter (λ x, x ≠ s) (pymunk.bodies (arcade.space pe))
  ∧ pymunk.shapes (arcade.space pe') =
    filter (λ x, x ≠ s) (pymunk.shapes (arcade.space pe))
  ∧ pymunk.constraints (arcade.space pe') =
    pymunk.constraints (arcade.space pe).
Proof.
  unfold arcade.remove_sprite. destruct (arcade.registered s pe); [|discriminate].
  intros H. inv_bind H as sp1 Hsp1. inv_bind H as sp2 Hsp2. injection H as <-.
  unfold pymunk.remove_body in Hsp1.
  destruct (pymunk.has_body s (arcade.space pe)); [|discriminate].
  injection Hsp1 as <-.
  unfold pymunk.remove_shape in Hsp2. simpl in Hsp2.
  destruct (pymunk.has_shape _ _); [|discriminate].
  injection Hsp2 as <-. by repeat split.
Qed.

Section InvHandlers.
Context (v : MyView) (HI : Inv v).

Lemma Inv_create_ball (m : Z) (p : pos) (v' : MyView) :
  create_ball m p pymunk.DYNAMIC v = Ok v' → Inv v'.
Proof.
  intros H. unfold create_ball in H. inv_bind H as sv Hsv.
  destruct sv as [s v1]. injection H as <-.
  destruct (Inv_new_Ball v HI _ _ _ _ Hsv) as (HI1 & _ & _ & _ & Hb & Hc).
  destruct (Inv_new_Ball v HI _ _ _ _ Hsv) as (_ & -> & Hal & Hreg & _).
  apply Inv_set_balls; [done|..].
  - rewrite Hb, Hc. pose proof (inv_pin_first _ HI) as Hh.
    destruct (balls v); [discriminate | done].
  - rewrite Hb. apply NoDup_app. split; [apply HI|]. split.
    + intros t Ht Ht'. apply list_elem_of_singleton in Ht' as ->.
      pose proof (inv_store _ HI _
                    (inv_sprites _ HI _ (inv_balls_registered _ HI _ Ht))).
      lia.
    + apply NoDup_singleton.
  - intros t Ht. rewrite Hb in Ht. apply elem_of_app in Ht as [Ht|Ht].
    + by apply (inv_balls_registered _ HI1); rewrite Hb.
    + by apply list_elem_of_singleton in Ht as ->.
Qed.

Lemma Inv_press_left (x y : Z) (collides : nat -> bool) (v' : MyView) :
  press_left x y collides v = Ok v' → Inv v'.
Proof.
  unfold press_left.
  destruct (arcade.check_for_collision_with_list _ _) as [|s l].
  - intros [= <-]. by apply Inv_set_col_detector.
  - intros H. inv_bind H as bd Hbd. injection H as <-.
    apply get_body_Ok in Hbd as [-> Hs].
    apply Inv_set_attached; [by apply Inv_set_col_detector|..];
      intros ? [= <-]; by apply (inv_sprites _ HI).
Qed.

Lemma Inv_press_right (x y : Z) (v' : MyView) :
  press_right x y v = Ok v' → Inv v'.
Proof.
  unfold press_right. intros H. inv_bind H as v1 Hv1.
  inv_bind H as ball_a Ha. inv_bind H as ball_b Hb.
  eapply Inv_join_balls; [|done]. by eapply Inv_create_ball.
Qed.

Lemma Inv_press_middle (x y : Z) (collides : nat -> bool) (v' : MyView) :
  press_middle x y collides v = Ok v' → Inv v'.
Proof.
  unfold press_middle.
  pose proof (Inv_set_col_detector v HI (x, y)) as HI1.
  set (v1 := set_col_detector (x, y) v) in *.
  destruct (arcade.check_for_collision_with_list _ _) as [|s l];
    [by intros [= <-]|].
  intros H. inv_bind H as index Hindex.
  destruct (Z.eqb_spec index 0) as [->|Hidx]; simpl in H;
    [by injection H as <-|].
  inv_bind H as v2 Hv2. inv_bind H as l' Hl'.
  inv_bind H as pe Hpe. injection H as <-.
  assert (s ≠ center_pin v) as Hne.
  { intros ->. assert (pylist.index (center_pin v) (balls v1) = Ok 0) as E
      by (apply index_head; exact (inv_pin_first _ HI1)).
    congruence. }
  assert (Inv v2 ∧ balls v2 = balls v ∧ center_pin v2 = center_pin v)
    as (HI2 & Hb2 & Hc2).
  { destruct (constraint (obj v1 s)) as [c|]; [|by injection Hv2 as <-].
    inv_bind Hv2 as previous Hprev. inv_bind Hv2 as vj Hvj.
    inv_bind Hv2 as sp Hsp. injection Hv2 as <-.
    pose proof (Inv_join_balls _ HI1 _ _ _ Hvj) as HI'.
    apply join_balls_frame in Hvj as (Hb & Hc & _).
    apply remove_constraint_Ok in Hsp as (c' & _ & _ & Hbd & _).
    split; [by apply Inv_set_space|].
    change (balls vj = balls v ∧ center_pin vj = center_pin v).
    by rewrite Hb, Hc. }
  apply remove_sprite_Ok in Hpe as (Hsp & Hbd & _).
  assert (head l' = Some (center_pin v)) as Hh.
  { pose proof (inv_pin_first _ HI) as Hh. rewrite Hb2 in Hl'.
    destruct (balls v) as [|p r]; [discriminate|]. injection Hh as ->.
    by eapply remove_head_ne. }
  destruct (remove_nodup _ _ _ (inv_balls_nodup _ HI2) Hl') as [Hnd' Hmem].
  apply Inv_set_physics_engine.
  - apply Inv_set_balls; [done| by rewrite Hc2 | done |].
    intros t Ht. apply (inv_balls_registered _ HI2). by apply Hmem.
  - simpl. rewrite Hsp, Hc2. apply list_elem_of_filter. split; [done|].
    rewrite <- Hc2. apply HI2.
  - simpl. rewrite Hbd, Hc2. apply list_elem_of_filter. split; [done|].
    rewrite <- Hc2. apply HI2.
  - intros t Ht. rewrite Hsp in Ht. apply list_elem_of_filter in Ht as [_ Ht].
    done.
  - intros t Ht. cbn [balls set_balls] in Ht. rewrite Hsp.
    apply Hmem in Ht as [Ht Hts]. apply list_elem_of_filter. split; [done|].
    by apply (inv_balls_registered _ HI2).
Qed.

Lemma Inv_on_mouse_press (x y button modifiers : Z)
  (collides : nat -> bool) (v' : MyView) :
  on_mouse_press x y button modifiers collides v = Ok v' → Inv v'.
Proof.
  unfold on_mouse_press.
  destruct (button =? arcade.MOUSE_BUTTON_LEFT); [apply Inv_press_left|].
  destruct (button =? arcade.MOUSE_BUTTON_RIGHT); [apply Inv_press_right|].
  destruct (button =? arcade.MOUSE_BUTTON_MIDDLE); [apply Inv_press_middle|].
  by intros [= <-].
Qed.

Lemma Inv_on_mouse_release (x y button modifiers : Z) (v' : MyView) :
  on_mouse_release x y button modifiers v = Ok v' → Inv v'.
Proof.
  unfold on_mouse_release.
  destruct (attached v); [|by intros [= <-]].
  destruct (attached_sprite v) as [sprite|]; [|discriminate].
  intros H. inv_bind H as index Hindex. inv_bind H as previous Hprev.
  inv_bind H as sp Hsp. inv_bind H as v1 Hv1. inv_bind H as v2 Hv2.
  injection H as <-.
  apply remove_constraint_Ok in Hsp as (c & _ & _ & Hbd & _).
  pose proof (Inv_set_space v HI _ Hbd) as HI0.
  pose proof (Inv_join_balls _ HI0 _ _ _ Hv1) as HI1.
  assert (Inv v2) as HI2.
  { destruct (constraint (obj v1 sprite)) as [c'|]; [|by injection Hv2 as <-].
    inv_bind Hv2 as sp' Hsp'.
    apply remove_constraint_Ok in Hsp' as (c'' & _ & _ & Hbd' & _).
    eapply Inv_join_balls; [|done]. by apply Inv_set_space. }
  by apply Inv_set_attached.
Qed.

Lemma Inv_on_mouse_motion (x y dx dy : Z) : Inv (on_mouse_motion x y dx dy v).
Proof.
  unfold on_mouse_motion.
  pose proof (Inv_set_col_detector v HI (x, y)) as HI1.
  destruct (attached_sprite (set_col_detector (x, y) v)) as [s|] eqn:E;
    [|done].
  apply Inv_mutate; [done | exact (inv_attached_sprite _ HI1 _ E) | done | done].
Qed.

Lemma Inv_on_mouse_scroll (x y sx sy : Z) : Inv (on_mouse_scroll x y sx sy v).
Proof.
  change (on_mouse_scroll x y sx sy v)
    with (set_current_ball_mass (Z.max (current_ball_mass v + sy) 1) v).
  apply Inv_set_current_ball_mass; [done | lia].
Qed.

Lemma Inv_on_key_release (symbol modifiers : Z) :
  Inv (on_key_release symbol modifiers v).
Proof.
  unfold on_key_release. destruct (symbol =? arcade.key_SPACE); [|done].
  by apply Inv_set_running.
Qed.

End InvHandlers.

Lemma pymunk_moved_length (bl : Ball) :
  length (traces bl) = TRACE_LENGTH →
  length (traces (pymunk_moved bl)) = TRACE_LENGTH.
Proof.
  intros H. unfold pymunk_moved. cbn [traces set_traces].
  rewrite length_app, length_drop, H. unfold TRACE_LENGTH. simpl. lia.
Qed.

Lemma Inv_resync_sprite (solve : nat -> pos) (v : MyView) (s : nat) :
  Inv v → registered_in v s →
  Inv (resync_sprite solve v s)
  ∧ arcade.sprites (physics_engine (resync_sprite solve v s)) =
    arcade.sprites (physics_engine v).
Proof.
  intros HI Hs. split; [|done]. unfold resync_sprite.
  apply Inv_mutate; [done | exact (inv_sprites _ HI _ Hs) | done |].
  intros bl Hbl. by apply pymunk_moved_length.
Qed.

Lemma Inv_engine_step (solve : nat -> pos) (resynced : nat -> bool)
  (v : MyView) :
  Inv v → Inv (engine_step solve resynced v).
Proof.
  unfold engine_step. intros HI.
  assert (∀ l w, Inv w →
            (∀ s, s ∈ l → registered_in w s) →
            Inv (foldl (λ w s, if resynced s then resync_sprite solve w s
                               else w) w l)) as Hfold.
  { induction l as [|s l IH]; intros w Hw Hl; [done|]. simpl.
    destruct (resynced s).
    - destruct (Inv_resync_sprite solve w s Hw) as [Hw' Hsp].
      { apply Hl. by left. }
      apply IH; [done|]. intros t Ht. unfold registered_in. rewrite Hsp.
      apply Hl. by right.
    - apply IH; [done|]. intros t Ht. apply Hl. by right. }
  by apply Hfold.
Qed.

Lemma Inv_on_update (solve : nat -> pos) (resynced : nat -> bool)
  (v : MyView) :
  Inv v → Inv (on_update solve resynced v).
Proof.
  intros HI. unfold on_update.
  assert (Inv match attached v with
              | Some bd => mutate bd (set_body_position (col_detector v)) v
              | None => v
              end) as HI1.
  { destruct (attached v) as [bd|] eqn:E; [|done].
    apply Inv_mutate; [done | exact (inv_attached _ HI _ E) | done | done]. }
  destruct (running _); [by apply Inv_engine_step | done].
Qed.

Lemma Inv_dispatch (e : Event) (v v' : MyView) :
  Inv v → dispatch e v = Ok v' → Inv v'.
Proof.
  intros HI. destruct e; simpl.
  - intros [= <-]. by apply Inv_on_mouse_motion.
  - by apply Inv_on_mouse_press.
  - intros [= <-]. by apply Inv_on_mouse_scroll.
  - by apply Inv_on_mouse_release.
  - intros [= <-]. by apply Inv_on_key_release.
  - intros [= <-]. by apply Inv_on_update.
Qed.

Lemma Inv_run (es : list Event) (v v' : MyView) :
  Inv v → run es v = Ok v' → Inv v'.
Proof.
  revert v. induction es as [|e es IH]; simpl; intros v HI H.
  - by injection H as <-.
  - inv_bind H as v1 Hv1. eapply IH; [|done]. by eapply Inv_dispatch.
Qed.

(** ** Construction establishes the invariant *)

Lemma Inv_anchor_only (v : MyView) : MyView_anchor_only = Ok v → Inv v.
Proof.
  unfold MyView_anchor_only, new_Ball. intros H.
  inv_bind H as sv Hsv. inv_bind Hsv as bl Hbl. injection Hsv as <-.
  injection H as <-.
  apply Ball_init_Ok in Hbl as (_ & _ & _ & _ & Htr & Hbt & _).
  split; cbn [balls center_pin set_balls set_center_pin set_physics_engine
              set_fresh set_objects fresh MyView_blank objects attached
              attached_sprite current_ball_mass app head].
  - done.
  - unfold obj. cbn [objects set_balls set_center_pin set_physics_engine
                     set_fresh set_objects].
    by rewrite lookup_total_insert_eq.
  - unfold registered_in. cbn. by apply list_elem_of_singleton.
  - cbn. by apply list_elem_of_singleton.
  - intros s [bl' Hs]. cbn in Hs. rewrite lookup_insert in Hs.
    case_decide; [lia|]. by rewrite lookup_empty in Hs.
  - intros s Hs. unfold registered_in in Hs. cbn in Hs.
    apply list_elem_of_singleton in Hs as ->.
    unfold allocated. cbn. rewrite lookup_insert_eq. eauto.
  - done.
  - done.
  - lia.
  - intros s bl'. rewrite lookup_insert. case_decide.
    + intros [= <-]. rewrite Htr. apply repeat_length.
    + by rewrite lookup_empty.
  - intros s bl'. rewrite lookup_insert. case_decide; [congruence|].
    by rewrite lookup_empty.
  - apply NoDup_singleton.
  - intros s Hs. unfold registered_in. cbn. done.
Qed.

Lemma Inv_create_each (mps : list (Z * pos)) (v v' : MyView) :
  Inv v → create_each mps pymunk.DYNAMIC v = Ok v' → Inv v'.
Proof.
  revert v. induction mps as [|[m p] mps IH]; simpl; intros v HI H.
  - by injection H as <-.
  - inv_bind H as v1 Hv1. eapply IH; [|done]. by eapply Inv_create_ball.
Qed.

Lemma Inv_join_loop (l : list nat) (last_ball : nat) (v v' : MyView) :
  Inv v → join_loop l last_ball v = Ok v' → Inv v'.
Proof.
  revert last_ball v. induction l as [|s l IH]; simpl; intros last_ball v HI H.
  - by injection H as <-.
  - destruct (Nat.eqb s (center_pin v)); [by eapply IH|].
    inv_bind H as v1 Hv1. eapply IH; [|done]. by eapply Inv_join_balls.
Qed.

Lemma Inv_create_balls (masses : list Z) (positions : list pos)
  (v v' : MyView) :
  Inv v → create_balls masses positions pymunk.DYNAMIC v = Ok v' → Inv v'.
Proof.
  unfold create_balls. intros HI H.
  destruct (negb _); [discriminate|]. inv_bind H as v1 Hv1.
  eapply Inv_join_loop; [|done]. by eapply Inv_create_each.
Qed.

Lemma Inv_init (v : MyView) : MyView_init = Ok v → Inv v.
Proof.
  unfold MyView_init. intros H. inv_bind H as v0 Hv0.
  eapply Inv_create_balls; [|done]. by apply Inv_anchor_only.
Qed.

Lemma anchor_only_Ok : MyView_anchor_only = Ok anchor_view.
Proof.
  assert (is_ok MyView_anchor_only = true) as H by (vm_compute; reflexivity).
  unfold anchor_view. by destruct MyView_anchor_only.
Qed.

Lemma init_Ok : MyView_init = Ok init_view.
Proof.
  assert (is_ok MyView_init = true) as H by (vm_compute; reflexivity).
  unfold init_view. by destruct MyView_init.
Qed.

Lemma Inv_init_view : Inv init_view.
Proof. apply Inv_init, init_Ok. Qed.

Lemma Inv_reachable (es : list Event) (v : MyView) :
  run es init_view = Ok v → Inv v.
Proof. apply Inv_run, Inv_init_view. Qed.

(** ** The physics step leaves static bodies in place *)

Lemma resync_sprite_static (solve : nat -> pos) (v : MyView) (s t : nat) :
  body_type (obj v s) = pymunk.STATIC →
  body_type (obj (resync_sprite solve v t) s) = pymunk.STATIC
  ∧ body_position (obj (resync_sprite solve v t) s) = body_position (obj v s).
Proof.
  intros Hs. unfold resync_sprite. rewrite obj_mutate. case_decide; [|done].
  subst t. rewrite Hs. done.
Qed.

Lemma engine_step_static (solve : nat -> pos) (resynced : nat -> bool)
  (v : MyView) (s : nat) :
  body_type (obj v s) = pymunk.STATIC →
  body_position (obj (engine_step solve resynced v) s)
  = body_position (obj v s).
Proof.
  unfold engine_step. generalize (arcade.sprites (physics_engine v)) as l.
  intros l. revert v. induction l as [|t l IH]; intros v Hs; [done|].
  simpl. destruct (resynced t); [|by apply IH].
  destruct (resync_sprite_static solve v s t Hs) as [Hbt Hbp].
  by rewrite IH, Hbp.
Qed.

(** ** Handlers that keep the central pin *)

Lemma create_ball_center_pin (m : Z) (p : pos) (bt : pymunk.BodyType)
  (v v' : MyView) :
  create_ball m p bt v = Ok v' → center_pin v' = center_pin v.
Proof.
  unfold create_ball, new_Ball. intros H. inv_bind H as sv Hsv.
  inv_bind Hsv as bl Hbl. injection Hsv as <-. by injection H as <-.
Qed.

Lemma engine_step_center_pin (solve : nat -> pos) (resynced : nat -> bool)
  (v : MyView) :
  center_pin (engine_step solve resynced v) = center_pin v.
Proof.
  unfold engine_step. generalize (arcade.sprites (physics_engine v)) as l.
  intros l. revert v. induction l as [|t l IH]; intros v; [done|].
  simpl. rewrite IH. by destruct (resynced t).
Qed.

Lemma dispatch_center_pin (e : Event) (v v' : MyView) :
  dispatch e v = Ok v' → center_pin v' = center_pin v.
Proof.
  destruct e; simpl.
  - intros [= <-]. unfold on_mouse_motion.
    by destruct (attached_sprite (set_col_detector (x, y) v)).
  - unfold on_mouse_press.
    destruct (button =? arcade.MOUSE_BUTTON_LEFT).
    { unfold press_left.
      destruct (arcade.check_for_collision_with_list _ _);
        [by intros [= <-]|].
      intros H. inv_bind H as bd Hbd. by injection H as <-. }
    destruct (button =? arcade.MOUSE_BUTTON_RIGHT).
    { unfold press_right. intros H. inv_bind H as v1 Hv1.
      inv_bind H as ball_a Ha. inv_bind H as ball_b Hb.
      apply join_balls_frame in H as (_ & Hc & _). rewrite Hc.
      by eapply create_ball_center_pin. }
    destruct (button =? arcade.MOUSE_BUTTON_MIDDLE); [|by intros [= <-]].
    unfold press_middle.
    destruct (arcade.check_for_collision_with_list _ _) as [|s l];
      [by intros [= <-]|].
    intros H. inv_bind H as index Hindex.
    destruct (negb (index =? 0)); [|by injection H as <-].
    inv_bind H as v2 Hv2. inv_bind H as l' Hl'. inv_bind H as pe Hpe.
    injection H as <-.
    destruct (constraint (obj _ s)); [|by injection Hv2 as <-].
    inv_bind Hv2 as previous Hprev. inv_bind Hv2 as vj Hvj.
    inv_bind Hv2 as sp Hsp. injection Hv2 as <-.
    apply join_balls_frame in Hvj as (_ & Hc & _). exact Hc.
  - by intros [= <-].
  - unfold on_mouse_release. destruct (attached v); [|by intros [= <-]].
    destruct (attached_sprite v) as [sprite|]; [|discriminate].
    intros H. inv_bind H as index Hindex. inv_bind H as previous Hprev.
    inv_bind H as sp Hsp. inv_bind H as v1 Hv1. inv_bind H as v2 Hv2.
    injection H as <-.
    apply join_balls_frame in Hv1 as (_ & Hc1 & _).
    destruct (constraint (obj v1 sprite)).
    + inv_bind Hv2 as sp' Hsp'.
      apply join_balls_frame in Hv2 as (_ & Hc2 & _).
      change (center_pin v2 = center_pin v). rewrite Hc2. exact Hc1.
    + injection Hv2 as <-. exact Hc1.
  - intros [= <-]. unfold on_key_release.
    by destruct (symbol =? arcade.key_SPACE).
  - intros [= <-]. unfold on_update.
    destruct (running _); [rewrite engine_step_center_pin|];
      by destruct (attached v).
Qed.

Lemma run_center_pin (es : list Event) (v v' : MyView) :
  run es v = Ok v' → center_pin v' = center_pin v.
Proof.
  revert v. induction es as [|e es IH]; simpl; intros v H.
  - by injection H as <-.
  - inv_bind H as v1 Hv1. rewrite (IH _ H). by eapply dispatch_center_pin.
Qed.

Lemma middle_click_on_pin (x y modifiers : Z) (collides : nat -> bool)
  (v : MyView) (rest : list nat) :
  head (balls v) = Some (center_pin v) →
  arcade.check_for_collision_with_list collides (balls v)
  = center_pin v :: rest →
  on_mouse_press x y arcade.MOUSE_BUTTON_MIDDLE modifiers collides v
  = Ok (set_col_detector (x, y) v).
Proof.
  intros Hh Hc. unfold on_mouse_press. simpl. unfold press_middle.
  cbn [balls set_col_detector]. rewrite Hc.
  by rewrite (index_head _ _ Hh).
Qed.

(** Hits are reported in list order, so a cursor over the pin has the pin
    as its first hit. *)
Lemma pin_is_first_hit (collides : nat -> bool) (v : MyView) :
  head (balls v) = Some (center_pin v) →
  collides (center_pin v) = true →
  ∃ rest,
    arcade.check_for_collision_with_list collides (balls v)
    = center_pin v :: rest.
Proof.
  intros Hh Hc. destruct (balls v) as [|p l]; [discriminate|].
  injection Hh as ->. unfold arcade.check_for_collision_with_list.
  rewrite filter_cons_True by done. eauto.
Qed.

(** ** Right click: what an append does *)

Lemma get_body_registered (s : nat) (pe : arcade.PymunkPhysicsEngine) :
  s ∈ arcade.sprites pe → arcade.get_physics_object_body s pe = Ok s.
Proof. intros H. by apply get_body_Ok. Qed.

Lemma getitem_last_of_two {A : Type} (l : list A) (x y : A) :
  pylist.getitem (l ++ [x; y]) (-1) = Ok y.
Proof.
  change [x; y] with ([x] ++ [y]). rewrite (assoc_L (++)). apply getitem_last.
Qed.

Lemma press_right_Ok (x y : Z) (v : MyView) (t : nat) :
  mass_in_range (current_ball_mass v) = true →
  last (balls v) = Some t → registered_in v t →
  ∃ bl v',
    Ball_init (current_ball_mass v) (x, y) pymunk.DYNAMIC = Ok bl
    ∧ press_right x y v = Ok v'
    ∧ balls v' = balls v ++ [fresh v]
    ∧ pymunk.constraints (the_space v') =
      pymunk.constraints (the_space v)
      ++ [pymunk.PinJoint (S (fresh v)) t (fresh v)]
    ∧ arcade.sprites (physics_engine v') =
      arcade.sprites (physics_engine v) ++ [fresh v]
    ∧ fresh v' = S (S (fresh v))
    ∧ objects v' =
      <[t := set_constraint
               (Some (pymunk.PinJoint (S (fresh v)) t (fresh v)))
               (<[fresh v := bl]> (objects v) !!! t)]>
        (<[fresh v := bl]> (objects v))
    ∧ center_pin v' = center_pin v
    ∧ current_ball_mass v' = current_ball_mass v
    ∧ attached v' = attached v ∧ attached_sprite v' = attached_sprite v.
Proof.
  intros Hm Hlast Hreg.
  destruct (Ball_init_in_range _ (x, y) pymunk.DYNAMIC Hm) as [bl Hbl].
  exists bl. unfold press_right, create_ball, new_Ball. rewrite Hbl.
  cbn [bind balls set_balls set_physics_engine set_fresh set_objects].
  apply last_Some in Hlast as [l' Hl']. rewrite Hl'.
  rewrite <- (assoc_L (++)). cbn [app].
  rewrite getitem_last_but_one. cbn [bind].
  rewrite getitem_last_of_two. cbn [bind].
  unfold join_balls.
  rewrite get_body_registered
    by (cbn; apply elem_of_app; by left).
  cbn [bind].
  rewrite get_body_registered
    by (cbn; apply elem_of_app; right; by apply list_elem_of_singleton).
  cbn [bind]. eexists. split; [done|]. split; [reflexivity|].
  by repeat split.
Qed.

Lemma press_right_mass (x y : Z) (v v' : MyView) :
  press_right x y v = Ok v' → mass_in_range (current_ball_mass v) = true.
Proof.
  unfold press_right, create_ball, new_Ball. intros H.
  inv_bind H as v1 Hv1. inv_bind Hv1 as sv Hsv. inv_bind Hsv as bl Hbl.
  by apply Ball_init_Ok in Hbl as (Hm & _).
Qed.

Lemma Inv_last (v : MyView) :
  Inv v → ∃ t, last (balls v) = Some t ∧ registered_in v t.
Proof.
  intros HI. pose proof (inv_pin_first _ HI) as Hh.
  destruct (last (balls v)) as [t|] eqn:E.
  - exists t. split; [done|]. apply (inv_balls_registered _ HI).
    apply last_Some in E as [l' ->]. apply elem_of_app. right.
    by apply list_elem_of_singleton.
  - apply last_None in E. rewrite E in Hh. discriminate.
Qed.

(** ** Trace buffers are touched by the movement callback only *)

Lemma keeps_traces_refl (v : MyView) : keeps_traces v v.
Proof. intros s bl H. eauto. Qed.

Lemma keeps_traces_trans (v1 v2 v3 : MyView) :
  keeps_traces v1 v2 → keeps_traces v2 v3 → keeps_traces v1 v3.
Proof.
  intros H12 H23 s bl H. destruct (H12 _ _ H) as (bl2 & H2 & E2).
  destruct (H23 _ _ H2) as (bl3 & H3 & E3). exists bl3. split; [done|].
  congruence.
Qed.

Lemma keeps_traces_join_balls (ball_a : nat) (ball_b : BallOrBody)
  (v v' : MyView) :
  join_balls ball_a ball_b v = Ok v' → keeps_traces v v'.
Proof.
  intros H. join_inv H. intros s bl Hs.
  cbn [objects set_space set_physics_engine]. rewrite objects_mutate.
  case_decide; [|eauto]. subst s. eexists. split; [done|].
  change (obj (set_fresh (S (fresh v)) v) ball_a) with (obj v ball_a).
  by rewrite (obj_allocated _ _ _ Hs).
Qed.

Lemma keeps_traces_create_ball (m : Z) (p : pos) (bt : pymunk.BodyType)
  (v v' : MyView) :
  Inv v → create_ball m p bt v = Ok v' → keeps_traces v v'.
Proof.
  intros HI H. unfold create_ball, new_Ball in H. inv_bind H as sv Hsv.
  inv_bind Hsv as bl Hbl. injection Hsv as <-. injection H as <-.
  intros s bl' Hs. cbn [objects set_balls set_physics_engine set_fresh
                        set_objects].
  rewrite lookup_insert. case_decide; [|eauto]. subst s.
  assert (allocated v (fresh v)) as Ha by (unfold allocated; eauto).
  apply (inv_store _ HI) in Ha. lia.
Qed.

Lemma keeps_traces_press (x y button modifiers : Z) (collides : nat -> bool)
  (v v' : MyView) :
  Inv v → on_mouse_press x y button modifiers collides v = Ok v' →
  keeps_traces v v'.
Proof.
  intros HI. unfold on_mouse_press.
  destruct (button =? arcade.MOUSE_BUTTON_LEFT).
  { unfold press_left.
    destruct (arcade.check_for_collision_with_list _ _);
      [intros [= <-]; exact (keeps_traces_refl v)|].
    intros H. inv_bind H as bd Hbd. injection H as <-.
    exact (keeps_traces_refl v). }
  destruct (button =? arcade.MOUSE_BUTTON_RIGHT).
  { unfold press_right. intros H. inv_bind H as v1 Hv1.
    inv_bind H as ball_a Ha. inv_bind H as ball_b Hb.
    eapply keeps_traces_trans; [by eapply keeps_traces_create_ball|].
    by eapply keeps_traces_join_balls. }
  destruct (button =? arcade.MOUSE_BUTTON_MIDDLE);
    [|intros [= <-]; exact (keeps_traces_refl v)].
  unfold press_middle.
  destruct (arcade.check_for_collision_with_list _ _) as [|s l];
    [intros [= <-]; exact (keeps_traces_refl v)|].
  intros H. inv_bind H as index Hindex.
  destruct (negb (index =? 0));
    [|injection H as <-; exact (keeps_traces_refl v)].
  inv_bind H as v2 Hv2. inv_bind H as l' Hl'. inv_bind H as pe Hpe.
  injection H as <-.
  destruct (constraint (obj _ s));
    [|injection Hv2 as <-; exact (keeps_traces_refl v)].
  inv_bind Hv2 as previous Hprev. inv_bind Hv2 as vj Hvj.
  inv_bind Hv2 as sp Hsp. injection Hv2 as <-.
  exact (keeps_traces_join_balls _ _ _ _ Hvj).
Qed.

Lemma keeps_traces_release (x y button modifiers : Z) (v v' : MyView) :
  on_mouse_release x y button modifiers v = Ok v' → keeps_traces v v'.
Proof.
  unfold on_mouse_release.
  destruct (attached v); [|intros [= <-]; apply keeps_traces_refl].
  destruct (attached_sprite v) as [sprite|]; [|discriminate].
  intros H. inv_bind H as index Hindex. inv_bind H as previous Hprev.
  inv_bind H as sp Hsp. inv_bind H as v1 Hv1. inv_bind H as v2 Hv2.
  injection H as <-.
  apply keeps_traces_join_balls in Hv1.
  assert (keeps_traces v1 v2) as H12.
  { destruct (constraint (obj v1 sprite));
      [|injection Hv2 as <-; apply keeps_traces_refl].
    inv_bind Hv2 as sp' Hsp'.
    exact (keeps_traces_join_balls _ _ _ _ Hv2). }
  exact (keeps_traces_trans _ _ _ Hv1 H12).
Qed.

(** ** Claims about the anchor, the configured mass and the traces *)

(** X16. In every state reached from the constructed view by any sequence of
    events, [center_pin] is the object made at construction, it is first in
    the sprite list, its body is static (and the physics step leaves a
    static body where it is) while every other ball is dynamic, and it is
    still held by the engine and the space; a middle click whose first hit
    is the pin only records the cursor position, so the sprite list and the
    physics world are unchanged.  That the pin stays where it is does not
    follow: a grabbed pin is moved like any other ball. *)
Theorem anchor_first_static_never_removed (es : list Event) (v : MyView) :
  run es init_view = Ok v →
  MyView_init = Ok init_view
  ∧ center_pin v = center_pin init_view
  ∧ head (balls v) = Some (center_pin v)
  ∧ body_type (obj v (center_pin v)) = pymunk.STATIC
  ∧ (∀ solve resynced,
       body_position (obj (engine_step solve resynced v) (center_pin v))
       = body_position (obj v (center_pin v)))
  ∧ (∀ s bl, objects v !! s = Some bl → s ≠ center_pin v →
             body_type bl = pymunk.DYNAMIC)
  ∧ registered_in v (center_pin v)
  ∧ center_pin v ∈ pymunk.bodies (the_space v)
  ∧ (∀ x y modifiers collides rest,
       arcade.check_for_collision_with_list collides (balls v)
       = center_pin v :: rest →
       on_mouse_press x y arcade.MOUSE_BUTTON_MIDDLE modifiers collides v
       = Ok (set_col_detector (x, y) v)).
Proof.
  intros Hrun. pose proof (Inv_reachable _ _ Hrun) as HI.
  split; [exact init_Ok|].
  split; [by eapply run_center_pin|].
  split; [apply HI|].
  split; [apply HI|].
  split; [intros solve resynced; apply engine_step_static, HI|].
  split; [apply HI|].
  split; [apply HI|].
  split; [apply HI|].
  intros x y modifiers collides rest Hc.
  eapply middle_click_on_pin; [apply HI | exact Hc].
Qed.

Lemma anchor_first_static_never_removed_witness :
  head (balls (set_col_detector (400, 300) init_view)) = Some 0%nat
  ∧ body_type (obj (set_col_detector (400, 300) init_view) 0%nat)
    = pymunk.STATIC.
Proof.
  assert (run [MousePress 400 300 arcade.MOUSE_BUTTON_MIDDLE 0 (only 0%nat)]
            init_view = Ok (set_col_detector (400, 300) init_view)) as Hrun
    by (vm_compute; reflexivity).
  destruct (anchor_first_static_never_removed _ _ Hrun)
    as (_ & Hc & Hh & Hs & _).
  assert (center_pin init_view = 0%nat) as E by (vm_compute; reflexivity).
  change (center_pin (set_col_detector (400, 300) init_view))
    with (center_pin init_view) in Hh, Hs.
  rewrite E in Hh, Hs. by split.
Defined.

(** C9. The configured mass is 10 after construction; a scroll event never
    fails and sets it to the maximum of the old mass plus the scroll delta
    and 1; in every state reached by any sequence of events it is at least
    1; and every right click that returns has appended a new ball whose
    mass is the configured mass, which it leaves as it is. *)
Theorem configured_mass_at_least_one (es : list Event) (v : MyView) :
  run es init_view = Ok v →
  MyView_init = Ok init_view
  ∧ current_ball_mass init_view = 10
  ∧ 1 ≤ current_ball_mass v
  ∧ (∀ x y scroll_x scroll_y,
       dispatch (MouseScroll x y scroll_x scroll_y) v
       = Ok (on_mouse_scroll x y scroll_x scroll_y v)
       ∧ current_ball_mass (on_mouse_scroll x y scroll_x scroll_y v)
         = Z.max (current_ball_mass v + scroll_y) 1
       ∧ 1 ≤ current_ball_mass (on_mouse_scroll x y scroll_x scroll_y v))
  ∧ (∀ x y modifiers collides v',
       on_mouse_press x y arcade.MOUSE_BUTTON_RIGHT modifiers collides v
       = Ok v' →
       balls v' = balls v ++ [fresh v]
       ∧ mass (obj v' (fresh v)) = current_ball_mass v
       ∧ current_ball_mass v' = current_ball_mass v).
Proof.
  intros Hrun. pose proof (Inv_reachable _ _ Hrun) as HI.
  split; [exact init_Ok|].
  split; [vm_compute; reflexivity|].
  split; [apply HI|].
  split.
  { intros x y sx sy. split; [done|]. split; [done|].
    cbn [on_mouse_scroll current_ball_mass set_current_ball_mass]. lia. }
  intros x y modifiers collides v'' Hp.
  change (on_mouse_press x y arcade.MOUSE_BUTTON_RIGHT modifiers collides v)
    with (press_right x y v) in Hp.
  destruct (Inv_last _ HI) as (t & Hlast & Hreg).
  destruct (press_right_Ok x y v t (press_right_mass _ _ _ _ Hp) Hlast Hreg)
    as (bl & v' & Hbl & Hpress & Hb & _ & _ & _ & Hobj & _ & Hmass & _).
  rewrite Hpress in Hp. injection Hp as <-.
  split; [done|]. split; [|done].
  apply Ball_init_Ok in Hbl as (_ & Hbm & _).
  unfold obj. rewrite Hobj.
  destruct (decide (t = fresh v)) as [->|Hne].
  - rewrite lookup_total_insert_eq, lookup_total_insert_eq. done.
  - by rewrite lookup_total_insert_ne, lookup_total_insert_eq.
Qed.

Lemma configured_mass_at_least_one_witness :
  1 ≤ current_ball_mass (on_mouse_scroll 0 0 0 (-25) init_view)
  ∧ ∃ v',
      on_mouse_press 70 80 arcade.MOUSE_BUTTON_RIGHT 0 (only 0%nat)
        (on_mouse_scroll 0 0 0 (-25) init_view) = Ok v'
      ∧ mass (obj v' 7%nat) = 1.
Proof.
  assert (run [MouseScroll 0 0 0 (-25)] init_view
          = Ok (on_mouse_scroll 0 0 0 (-25) init_view)) as Hrun
    by reflexivity.
  destruct (configured_mass_at_least_one _ _ Hrun)
    as (_ & _ & Hge & _ & Hclick).
  split; [exact Hge|].
  destruct (press_right_Ok 70 80 (on_mouse_scroll 0 0 0 (-25) init_view)
              3%nat) as (bl & v' & _ & Hp & _).
  { vm_compute. reflexivity. }
  { vm_compute. reflexivity. }
  { unfold registered_in. vm_compute. repeat constructor. }
  exists v'. split; [exact Hp|].
  destruct (Hclick 70 80 0 (only 0%nat) v' Hp) as (_ & Hm & _).
  assert (fresh (on_mouse_scroll 0 0 0 (-25) init_view) = 7%nat) as Hf
    by (vm_compute; reflexivity).
  assert (current_ball_mass (on_mouse_scroll 0 0 0 (-25) init_view) = 1)
    as Hc by (vm_compute; reflexivity).
  rewrite Hf, Hc in Hm. exact Hm.
Defined.

(** C10. A new ball's trace buffer is [TRACE_LENGTH] = 4000 copies of its
    position; the movement callback drops the first entry and appends the
    current position; in every state reached by any sequence of events
    every ball's buffer has exactly [TRACE_LENGTH] entries, also after one
    more callback; the callback's result does not depend on the ball's link,
    and the mouse handlers that edit the chain leave every existing buffer
    as it is. *)
Theorem trace_buffer_fixed_length (es : list Event) (v : MyView) :
  run es init_view = Ok v →
  TRACE_LENGTH = 4000%nat
  ∧ (∀ m p bt bl, Ball_init m p bt = Ok bl →
                  traces bl = repeat p TRACE_LENGTH)
  ∧ (∀ bl, traces (pymunk_moved bl) = drop 1 (traces bl) ++ [position bl])
  ∧ (∀ s bl, objects v !! s = Some bl →
             length (traces bl) = TRACE_LENGTH
             ∧ length (traces (pymunk_moved bl)) = TRACE_LENGTH)
  ∧ (∀ bl c, traces (pymunk_moved (set_constraint c bl))
             = traces (pymunk_moved bl))
  ∧ (∀ x y button modifiers collides v',
       on_mouse_press x y button modifiers collides v = Ok v' →
       keeps_traces v v')
  ∧ (∀ x y button modifiers v',
       on_mouse_release x y button modifiers v = Ok v' → keeps_traces v v').
Proof.
  intros Hrun. pose proof (Inv_reachable _ _ Hrun) as HI.
  split; [reflexivity|].
  split.
  { intros m p bt bl Hbl. by apply Ball_init_Ok in Hbl as (_ & _ & _ & _ & ? & _). }
  split; [done|].
  split.
  { intros s bl Hs. pose proof (inv_traces _ HI _ _ Hs) as Hl.
    split; [done | by apply pymunk_moved_length]. }
  split; [done|].
  split.
  - intros x y button modifiers collides v'. by apply keeps_traces_press.
  - intros x y button modifiers v'. apply keeps_traces_release.
Qed.

Lemma trace_buffer_fixed_length_witness :
  length (traces (obj init_view 2%nat)) = 4000%nat.
Proof.
  assert (run [] init_view = Ok init_view) as Hrun by reflexivity.
  assert (objects init_view !! 2%nat = Some (obj init_view 2%nat)) as Hs
    by (vm_compute; reflexivity).
  destruct (trace_buffer_fixed_length _ _ Hrun) as (E & _ & _ & Hlen & _).
  rewrite <- E. exact (proj1 (Hlen _ _ Hs)).
Defined.

(** ** The checker for valid chains is sound *)

Lemma links_ok_sound (v : MyView) (l : list nat) :
  links_ok v l = true →
  ∀ i s, l !! i = Some s →
    match l !! S i with
    | Some t =>
        ∃ c, constraint (obj v s) = Some c
             ∧ pymunk.a c = s ∧ pymunk.b c = t
             ∧ c ∈ pymunk.constraints (the_space v)
    | None => constraint (obj v s) = None
    end.
Proof.
  induction l as [|s0 l IH]; intros H i s Hi; [done|].
  cbn [links_ok] in H. apply andb_true_iff in H as [H0 Hl].
  destruct i as [|i].
  - injection Hi as <-. destruct l as [|t l']; simpl.
    + destruct (constraint (obj v s0)); [discriminate | done].
    + destruct (constraint (obj v s0)) as [c|]; [|discriminate].
      apply andb_true_iff in H0 as [H0 Hin].
      apply andb_true_iff in H0 as [Ha Hb].
      apply Nat.eqb_eq in Ha, Hb. apply bool_decide_eq_true in Hin.
      by exists c.
  - exact (IH Hl i s Hi).
Qed.

Lemma forallb_elem {A : Type} (f : A -> bool) (l : list A) :
  forallb f l = true → ∀ x, x ∈ l → f x = true.
Proof.
  intros H x Hx. rewrite forallb_forall in H. apply H.
  by apply list_elem_of_In.
Qed.

Lemma valid_b_sound (v : MyView) : valid_b v = true → valid v.
Proof.
  unfold valid_b. intros H.
  apply andb_true_iff in H as [H H7]. apply andb_true_iff in H as [H H6].
  apply andb_true_iff in H as [H H5]. apply andb_true_iff in H as [H H4].
  apply andb_true_iff in H as [H H3]. apply andb_true_iff in H as [H1 H2].
  apply bool_decide_eq_true in H1, H2, H6.
  split; try done.
  - intros s Hs. apply registered_elem.
    exact (forallb_elem _ _ H3 s Hs).
  - intros s Hs. apply Nat.ltb_lt.
    exact (forallb_elem (λ s, Nat.ltb s (fresh v)) _ H4 s Hs).
  - exact (links_ok_sound v (balls v) H5).
  - intros c Hc. apply Nat.ltb_lt.
    exact (forallb_elem (λ c, Nat.ltb (pymunk.cid c) (fresh v)) _ H7 c Hc).
Qed.

Lemma valid_init_view : valid init_view.
Proof. apply valid_b_sound. vm_compute. reflexivity. Qed.

(** ** A right click keeps a chain valid *)

Lemma valid_nonempty (v : MyView) :
  valid v → ∃ t, last (balls v) = Some t ∧ registered_in v t.
Proof.
  intros HV. pose proof (valid_anchor _ HV) as Hh.
  destruct (last (balls v)) as [t|] eqn:E.
  - exists t. split; [done|]. apply (valid_registered _ HV).
    apply last_Some in E as [l' ->]. apply elem_of_app. right.
    by apply list_elem_of_singleton.
  - apply last_None in E. rewrite E in Hh. discriminate.
Qed.

Lemma press_right_valid (x y : Z) (v : MyView) :
  valid v → mass_in_range (current_ball_mass v) = true →
  ∃ v', press_right x y v = Ok v' ∧ valid v'
        ∧ balls v' = balls v ++ [fresh v]
        ∧ (∀ t, last (balls v) = Some t →
                links v' = links v ++ [(t, fresh v)])
        ∧ current_ball_mass v' = current_ball_mass v.
Proof.
  intros HV Hm. destruct (valid_nonempty _ HV) as (t & Hlast & Hreg).
  destruct (press_right_Ok x y v t Hm Hlast Hreg)
    as (bl & v' & Hbl & Hpress & Hb & Hcs & Hsp & Hfr & Hobj & Hpin & Hmass & _).
  apply Ball_init_Ok in Hbl as (_ & _ & _ & Hnone & _).
  exists v'. split; [done|].
  destruct (proj1 (last_Some _ _) Hlast) as [l' Hl'].
  assert (∀ s, s ∈ balls v → s ≠ fresh v) as Hfresh.
  { intros s Hs ->. pose proof (valid_ball_ids _ HV _ Hs). lia. }
  assert (t ≠ fresh v) as Htn.
  { apply Hfresh. rewrite Hl'. apply elem_of_app. right.
    by apply list_elem_of_singleton. }
  assert (∀ s, s ≠ t → s ≠ fresh v → obj v' s = obj v s) as Hother.
  { intros s H1 H2. unfold obj. rewrite Hobj.
    by rewrite lookup_total_insert_ne, lookup_total_insert_ne. }
  assert (constraint (obj v' t)
          = Some (pymunk.PinJoint (S (fresh v)) t (fresh v))) as Ht.
  { unfold obj. rewrite Hobj. by rewrite lookup_total_insert_eq. }
  assert (constraint (obj v' (fresh v)) = None) as Hn.
  { unfold obj. rewrite Hobj.
    by rewrite lookup_total_insert_ne, lookup_total_insert_eq. }
  split; [|split; [done|split; [|done]]].
  - split.
    + rewrite Hb, Hpin. pose proof (valid_anchor _ HV) as Hh.
      destruct (balls v); [discriminate | done].
    + rewrite Hb. apply NoDup_app. split; [apply HV|]. split.
      * intros s Hs Hs'. apply list_elem_of_singleton in Hs'.
        by apply (Hfresh s).
      * apply NoDup_singleton.
    + intros s Hs. unfold registered_in. rewrite Hsp. rewrite Hb in Hs.
      apply elem_of_app in Hs as [Hs|Hs]; apply elem_of_app.
      * left. by apply (valid_registered _ HV).
      * by right.
    + intros s Hs. rewrite Hfr. rewrite Hb in Hs.
      apply elem_of_app in Hs as [Hs|Hs].
      * pose proof (valid_ball_ids _ HV _ Hs). lia.
      * apply list_elem_of_singleton in Hs as ->. lia.
    + intros i s Hi. rewrite Hb in Hi |- *.
      assert (length (balls v) = S (length l')) as Hlen
        by (rewrite Hl', length_app; simpl; lia).
      destruct (decide (S i < length (balls v))%nat) as [Hlt|Hge].
      * rewrite lookup_app_l in Hi by lia.
        rewrite lookup_app_l by lia.
        pose proof (valid_links _ HV i s Hi) as Hlink.
        destruct (balls v !! S i) as [t'|] eqn:E.
        -- assert (s ≠ t) as Hst.
           { intros ->. rewrite Hl' in Hi.
             assert ((l' ++ [t]) !! length l' = Some t) as Hlt'
               by (by rewrite lookup_app_r, Nat.sub_diag by lia).
             pose proof (valid_nodup _ HV) as Hnd. rewrite Hl' in Hnd.
             pose proof (NoDup_lookup _ _ _ _ Hnd Hi Hlt'). lia. }
           rewrite Hother;
             [|done|apply Hfresh; apply list_elem_of_lookup; eauto].
           destruct Hlink as (c & Hc & Ha & Hb' & Hin). exists c.
           repeat split; try done. rewrite Hcs. apply elem_of_app. by left.
        -- apply lookup_ge_None in E. lia.
      * destruct (decide (S i = length (balls v))) as [Heq|Hne].
        -- rewrite lookup_app_l in Hi by lia.
           assert (s = t) as ->.
           { rewrite Hl' in Hi. rewrite Hlen in Heq. injection Heq as ->.
             rewrite lookup_app_r, Nat.sub_diag in Hi by lia.
             by injection Hi. }
           rewrite lookup_app_r by lia.
           replace (S i - length (balls v))%nat with 0%nat by lia.
           cbn [lookup list_lookup]. eexists. split; [exact Ht|].
           split; [done|]. split; [done|]. rewrite Hcs. apply elem_of_app.
           right. by apply list_elem_of_singleton.
        -- rewrite lookup_app_r in Hi by lia.
           destruct (i - length (balls v))%nat as [|k] eqn:Ek;
             [|by destruct k].
           injection Hi as <-.
           rewrite lookup_app_r by lia.
           replace (S i - length (balls v))%nat with 1%nat by lia.
           exact Hn.
    + rewrite Hcs, map_app. apply NoDup_app. split; [apply HV|]. split.
      * intros k Hk Hk'. apply list_elem_of_singleton in Hk' as ->.
        apply list_elem_of_fmap in Hk as (c & Hc & Hin).
        pose proof (valid_cid_ids _ HV _ Hin). simpl in Hc. lia.
      * apply NoDup_singleton.
    + intros c Hc. rewrite Hfr. rewrite Hcs in Hc.
      apply elem_of_app in Hc as [Hc|Hc].
      * pose proof (valid_cid_ids _ HV _ Hc). lia.
      * apply list_elem_of_singleton in Hc as ->. simpl. lia.
  - intros t' Ht'. assert (t' = t) as -> by congruence.
    unfold links. by rewrite Hcs, map_app.
Qed.

(** ** Link ownership *)

(** C3, as stated, fails on the constructed chain: the ball at index 3 holds
    no link at all (and the ball at index 1 holds the link to index 2). *)
Lemma owned_by_later_fails_after_construction :
  MyView_init = Ok init_view ∧ ¬ owned_by_later init_view.
Proof.
  split; [exact init_Ok|]. intros H.
  destruct (H 2%nat 3%nat 2%nat) as (c & Hc & _);
    [vm_compute; reflexivity | vm_compute; reflexivity |].
  assert (constraint (obj init_view 3%nat) = None) as E
    by (vm_compute; reflexivity).
  congruence.
Qed.

(** With a mass in range, any run of right clicks on a valid chain returns
    and ends in a valid chain. *)
Lemma run_right_presses_valid (clicks : list Event) (v : MyView) :
  valid v → mass_in_range (current_ball_mass v) = true →
  forallb is_right_press clicks = true →
  ∃ v', run clicks v = Ok v' ∧ valid v'
        ∧ length (balls v') = (length (balls v) + length clicks)%nat.
Proof.
  revert v. induction clicks as [|e clicks IH]; intros v HV Hm Hall.
  - exists v. split; [done|]. split; [done|]. simpl. lia.
  - cbn [forallb] in Hall. apply andb_true_iff in Hall as [He Hall].
    destruct e; try discriminate. cbn [is_right_press] in He.
    apply Z.eqb_eq in He. subst button.
    destruct (press_right_valid x y v HV Hm)
      as (v1 & Hp & HV1 & Hb1 & _ & Hm1).
    rewrite <- Hm1 in Hm.
    destruct (IH v1 HV1 Hm Hall) as (v' & Hr & HV' & Hlen).
    exists v'. split.
    { cbn [run dispatch]. unfold on_mouse_press. cbn. rewrite Hp. done. }
    split; [done|]. rewrite Hlen, Hb1, length_app. simpl. lia.
Qed.

(** C3, amended.  Each ball holds the link to its successor: for the ball at
    index [i] with a ball at index [i + 1], the stored constraint is a live
    constraint of the space from ball [i] to ball [i + 1], and the last ball
    stores none.  This holds for the constructed chain and after any number
    of right clicks on it; more generally every right click on a valid chain
    that returns has appended one ball and left a valid chain. *)
Theorem links_owned_by_earlier_node (clicks : list Event) :
  forallb is_right_press clicks = true →
  MyView_init = Ok init_view
  ∧ successor_links init_view
  ∧ (∃ v',
       run clicks init_view = Ok v'
       ∧ length (balls v') = (4 + length clicks)%nat
       ∧ successor_links v')
  ∧ (∀ v x y modifiers collides v',
       valid v →
       on_mouse_press x y arcade.MOUSE_BUTTON_RIGHT modifiers collides v
       = Ok v' →
       balls v' = balls v ++ [fresh v]
       ∧ valid v'
       ∧ successor_links v').
Proof.
  intros Hclicks.
  split; [exact init_Ok|].
  split; [exact (valid_links _ valid_init_view)|].
  split.
  - destruct (run_right_presses_valid clicks init_view valid_init_view
                ltac:(vm_compute; reflexivity) Hclicks)
      as (v' & Hr & HV' & Hlen).
    exists v'. split; [done|]. split; [|exact (valid_links _ HV')].
    rewrite Hlen.
    by replace (length (balls init_view)) with 4%nat
      by (vm_compute; reflexivity).
  - intros v x y modifiers collides v'' HV Hp''.
    change (on_mouse_press x y arcade.MOUSE_BUTTON_RIGHT modifiers collides v)
      with (press_right x y v) in Hp''.
    destruct (press_right_valid x y v HV (press_right_mass _ _ _ _ Hp''))
      as (v' & Hp & HV' & Hb & _).
    rewrite Hp in Hp''. injection Hp'' as <-.
    split; [done|]. split; [done|].
    exact (valid_links _ HV').
Qed.

Lemma links_owned_by_earlier_node_witness :
  ∃ v',
    run [MousePress 700 300 arcade.MOUSE_BUTTON_RIGHT 0 (only 0%nat);
         MousePress 720 320 arcade.MOUSE_BUTTON_RIGHT 0 (only 0%nat)]
      init_view = Ok v'
    ∧ length (balls v') = 6%nat
    ∧ successor_links v'.
Proof.
  assert (forallb is_right_press
            [MousePress 700 300 arcade.MOUSE_BUTTON_RIGHT 0 (only 0%nat);
             MousePress 720 320 arcade.MOUSE_BUTTON_RIGHT 0 (only 0%nat)]
          = true) as Hclicks by reflexivity.
  exact (proj1 (proj2 (proj2 (links_owned_by_earlier_node _ Hclicks)))).
Defined.

(** ** Grabbing the pin *)

(** C5: a left press on the pin followed by a release raises.  The press
    takes any sprite under the cursor, the pin included; the release then
    looks at index [0 - 1], which is the last ball, and hands its constraint,
    [None], to [space.remove]. *)
Theorem release_after_grabbing_pin_raises :
  MyView_init = Ok init_view
  ∧ observed (on_mouse_press 400 300 arcade.MOUSE_BUTTON_LEFT 0
                (only 0%nat) init_view)
    = Ok (observe init_view)
  ∧ run [MousePress 400 300 arcade.MOUSE_BUTTON_LEFT 0 (only 0%nat);
         MouseRelease 400 300 arcade.MOUSE_BUTTON_LEFT 0] init_view
    = Raise UnsupportedType.
Proof. split; [exact init_Ok|]. split; vm_compute; reflexivity. Qed.

(** C8: the anchor can be moved.  The left press grabs the pin like any
    other ball (the test [index != 0] of the middle-click branch is missing
    there), the motion puts its sprite at the cursor and the next update its
    static body: after a press on the pin at (400, 300), a motion to
    (10, 20) and an update, sprite and body of the pin are at (10, 20), the
    pin still being first and static.  The release that follows raises; but
    with the tail removed before, the tail still storing its old link, the
    release returns, the pin stays at (10, 20), and the tail is linked to
    the pin: the links in the space are 1-2, 2-0 and 0-1. *)
Theorem grabbed_anchor_is_moved :
  MyView_init = Ok init_view
  ∧ pin_observed (Ok init_view)
    = Ok (Some 0%nat, pymunk.STATIC, (400, 300), (400, 300))
  ∧ pin_observed
      (run [MousePress 400 300 arcade.MOUSE_BUTTON_LEFT 0 (only 0%nat);
            MouseMotion 10 20 (-390) (-280);
            Update (λ _, (0, 0)) (λ _, true)] init_view)
    = Ok (Some 0%nat, pymunk.STATIC, (10, 20), (10, 20))
  ∧ pin_observed
      (run [MousePress 650 300 arcade.MOUSE_BUTTON_MIDDLE 0 (only 3%nat);
            MousePress 400 300 arcade.MOUSE_BUTTON_LEFT 0 (only 0%nat);
            MouseMotion 10 20 (-390) (-280);
            Update (λ _, (0, 0)) (λ _, true);
            MouseRelease 10 20 arcade.MOUSE_BUTTON_LEFT 0] init_view)
    = Ok (Some 0%nat, pymunk.STATIC, (10, 20), (10, 20))
  ∧ observed
      (run [MousePress 650 300 arcade.MOUSE_BUTTON_MIDDLE 0 (only 3%nat);
            MousePress 400 300 arcade.MOUSE_BUTTON_LEFT 0 (only 0%nat);
            MouseMotion 10 20 (-390) (-280);
            Update (λ _, (0, 0)) (λ _, true);
            MouseRelease 10 20 arcade.MOUSE_BUTTON_LEFT 0] init_view)
    = Ok ([0; 1; 2]%nat, [(1, 2); (2, 0); (0, 1)]%nat,
          [Some (0, 1); Some (1, 2); Some (2, 0)]%nat,
          [0; 1; 2]%nat, [0; 1; 2]%nat).
Proof.
  split; [exact init_Ok|]. repeat split; vm_compute; reflexivity.
Qed.

(** ** A left press destroys no link *)

(** C2, as stated, fails: after a left press on the second ball of the
    constructed chain the link from ball 1 to ball 2 is still in the space. *)
Lemma left_press_does_not_detach :
  MyView_init = Ok init_view
  ∧ ¬ press_detaches 600 300 0 (only 2%nat) init_view.
Proof.
  split; [exact init_Ok|]. intros H.
  assert (on_mouse_press 600 300 arcade.MOUSE_BUTTON_LEFT 0 (only 2%nat)
            init_view
          = Ok (set_attached (Some 2%nat) (Some 2%nat)
                  (set_col_detector (600, 300) init_view))) as Hp
    by (vm_compute; reflexivity).
  assert (balls init_view !! 1%nat = Some 1%nat) as Hi
    by (vm_compute; reflexivity).
  assert (balls init_view !! 2%nat = Some 2%nat) as HSi
    by (vm_compute; reflexivity).
  destruct (H _ 1%nat 1%nat 2%nat Hp eq_refl Hi HSi (pymunk.PinJoint 5 1 2))
    as [Hne _]; [|by apply Hne].
  apply (bool_decide_eq_true_1 _). vm_compute. reflexivity.
Qed.

(** ** Dragging changes positions only *)

Lemma same_chain_refl (v : MyView) : same_chain v v.
Proof. by split. Qed.

Lemma same_chain_trans (v1 v2 v3 : MyView) :
  same_chain v1 v2 → same_chain v2 v3 → same_chain v1 v3.
Proof.
  intros [] []. split; congruence.
Qed.

Lemma same_chain_mutate (s : nat) (f : Ball -> Ball) (v : MyView) :
  (∀ bl, constraint (f bl) = constraint bl) → same_chain v (mutate s f v).
Proof.
  intros Hf. split; try done. intros t. rewrite obj_mutate.
  case_decide; [subst; apply Hf | done].
Qed.

Lemma same_chain_on_mouse_motion (x y dx dy : Z) (v : MyView) :
  same_chain v (on_mouse_motion x y dx dy v).
Proof.
  unfold on_mouse_motion.
  destruct (attached_sprite (set_col_detector (x, y) v)) as [s|]; [|by split].
  apply (same_chain_trans _ (set_col_detector (x, y) v)); [by split|].
  by apply same_chain_mutate.
Qed.

Lemma same_chain_engine_step (solve : nat -> pos) (resynced : nat -> bool)
  (v : MyView) :
  same_chain v (engine_step solve resynced v).
Proof.
  unfold engine_step. generalize (arcade.sprites (physics_engine v)) as l.
  intros l. revert v. induction l as [|t l IH]; intros v;
    [apply same_chain_refl|].
  simpl. eapply same_chain_trans; [|apply IH].
  destruct (resynced t); [|apply same_chain_refl].
  unfold resync_sprite. by apply same_chain_mutate.
Qed.

Lemma same_chain_on_update (solve : nat -> pos) (resynced : nat -> bool)
  (v : MyView) :
  same_chain v (on_update solve resynced v).
Proof.
  unfold on_update.
  assert (same_chain v
            match attached v with
            | Some bd => mutate bd (set_body_position (col_detector v)) v
            | None => v
            end) as H1.
  { destruct (attached v); [by apply same_chain_mutate|apply same_chain_refl]. }
  destruct (running _); [|done].
  eapply same_chain_trans; [exact H1 | apply same_chain_engine_step].
Qed.

Lemma same_chain_drag (drag : list Event) (v : MyView) :
  forallb is_drag drag = true →
  ∃ v', run drag v = Ok v' ∧ same_chain v v'.
Proof.
  revert v. induction drag as [|e drag IH]; intros v H.
  - exists v. split; [done | apply same_chain_refl].
  - cbn [forallb] in H. apply andb_true_iff in H as [He H].
    destruct e; try discriminate; cbn [run dispatch bind].
    + destruct (IH (on_mouse_motion x y dx dy v) H) as (v' & Hr & Hs).
      exists v'. split; [done|].
      eapply same_chain_trans; [apply same_chain_on_mouse_motion | done].
    + destruct (IH (on_update solve resynced v) H) as (v' & Hr & Hs).
      exists v'. split; [done|].
      eapply same_chain_trans; [apply same_chain_on_update | done].
Qed.

Lemma same_chain_valid (v v' : MyView) :
  same_chain v v' → valid v → valid v'.
Proof.
  intros [Hb He Hf Hc _ _ Hcs] HV. unfold successor_links, registered_in.
  split; unfold successor_links, registered_in, the_space;
    rewrite ?Hb, ?He, ?Hf, ?Hc; try apply HV.
  intros i s Hi. rewrite Hcs. by apply (valid_links _ HV).
Qed.

Lemma same_chain_links (v v' : MyView) :
  same_chain v v' →
  links v' = links v ∧ ∀ s, own_link v' s = own_link v s.
Proof.
  intros [Hb He Hf Hc _ _ Hcs]. unfold links, own_link, the_space.
  rewrite He. split; [done|]. intros s. by rewrite Hcs.
Qed.

(** A left press only records what was grabbed. *)
Lemma press_left_Ok (x y : Z) (collides : nat -> bool) (v : MyView) :
  (∀ s, s ∈ balls v → registered_in v s) →
  ∃ v1, press_left x y collides v = Ok v1
        ∧ same_chain (set_attached (attached v1) (attached_sprite v1) v) v1
        ∧ objects v1 = objects v
        ∧ col_detector v1 = (x, y)
        ∧ match arcade.check_for_collision_with_list collides (balls v) with
          | s :: _ => attached v1 = Some s ∧ attached_sprite v1 = Some s
          | [] => attached v1 = attached v
                  ∧ attached_sprite v1 = attached_sprite v
          end.
Proof.
  intros Hreg. unfold press_left. cbn [balls set_col_detector].
  destruct (arcade.check_for_collision_with_list collides (balls v))
    as [|s l] eqn:E.
  - eexists. split; [done|]. by repeat split.
  - assert (s ∈ balls v) as Hs.
    { assert (s ∈ s :: l) as Hin by (by left). rewrite <- E in Hin.
      unfold arcade.check_for_collision_with_list in Hin.
      by apply list_elem_of_filter in Hin as [_ Hin]. }
    rewrite get_body_registered by (by apply Hreg).
    eexists. split; [done|]. by repeat split.
Qed.

(** ** Replacing the link a ball holds *)

Lemma has_constraint_elem (c : pymunk.Constraint) (sp : pymunk.Space) :
  c ∈ pymunk.constraints sp → pymunk.has_constraint c sp = true.
Proof.
  intros Hin. unfold pymunk.has_constraint. apply existsb_exists.
  exists c. split; [by apply list_elem_of_In | apply Nat.eqb_refl].
Qed.

Lemma nodup_cid_inj (l : list pymunk.Constraint) (c c' : pymunk.Constraint) :
  NoDup (map pymunk.cid l) → c ∈ l → c' ∈ l →
  pymunk.cid c = pymunk.cid c' → c = c'.
Proof.
  induction l as [|c0 l IH]; intros Hnd Hc Hc' Heq.
  - by apply elem_of_nil in Hc.
  - cbn [map] in Hnd. apply NoDup_cons in Hnd as [Hnotin Hnd].
    apply elem_of_cons in Hc as [->|Hc];
      apply elem_of_cons in Hc' as [->|Hc']; auto.
    + exfalso. apply Hnotin. rewrite Heq.
      apply list_elem_of_fmap. by exists c'.
    + exfalso. apply Hnotin. rewrite <- Heq.
      apply list_elem_of_fmap. by exists c.
Qed.

Lemma filter_all {A : Type} (P : A -> Prop) `{∀ x, Decision (P x)}
  (l : list A) :
  (∀ x, x ∈ l → P x) → filter P l = l.
Proof.
  induction l as [|x l IH]; intros Hall; [done|].
  rewrite filter_cons_True by (apply Hall; by left).
  f_equal. apply IH. intros y Hy. apply Hall. by right.
Qed.

Lemma filter_cid_perm (l : list pymunk.Constraint) (c : pymunk.Constraint) :
  NoDup (map pymunk.cid l) → c ∈ l →
  l ≡ₚ c :: filter (λ c', pymunk.cid c' ≠ pymunk.cid c) l.
Proof.
  induction l as [|c0 l IH]; intros Hnd Hc.
  - by apply elem_of_nil in Hc.
  - cbn [map] in Hnd. apply NoDup_cons in Hnd as [Hnotin Hnd].
    destruct (decide (pymunk.cid c0 = pymunk.cid c)) as [Heq|Hne].
    + assert (c0 = c) as ->.
      { apply elem_of_cons in Hc as [->|Hc]; [done|]. exfalso.
        apply Hnotin. rewrite Heq. apply list_elem_of_fmap. by exists c. }
      rewrite filter_cons_False by (intros H; by apply H).
      rewrite filter_all; [done|].
      intros c' Hc' Heq'. apply Hnotin.
      rewrite <- Heq'. apply list_elem_of_fmap. by exists c'.
    + rewrite filter_cons_True by done.
      apply elem_of_cons in Hc as [->|Hc]; [done|].
      rewrite (IH Hnd Hc) at 1. apply Permutation_swap.
Qed.

Lemma nodup_cid_filter (l : list pymunk.Constraint)
  (P : pymunk.Constraint -> Prop) `{∀ c, Decision (P c)} :
  NoDup (map pymunk.cid l) → NoDup (map pymunk.cid (filter P l)).
Proof.
  intros Hnd. eapply sublist_NoDup; [exact Hnd|].
  apply (fmap_sublist pymunk.cid), sublist_filter.
Qed.

Lemma join_balls_Ok (ball_a bd : nat) (ball_b : BallOrBody) (v : MyView) :
  registered_in v ball_a →
  match ball_b with
  | IsBall s => s = bd ∧ registered_in v s
  | IsBody b' => b' = bd
  end →
  ∃ v',
    join_balls ball_a ball_b v = Ok v'
    ∧ balls v' = balls v
    ∧ objects v' =
      <[ball_a := set_constraint
                    (Some (pymunk.PinJoint (fresh v) ball_a bd))
                    (obj v ball_a)]> (objects v)
    ∧ pymunk.constraints (the_space v') =
      pymunk.constraints (the_space v)
      ++ [pymunk.PinJoint (fresh v) ball_a bd]
    ∧ arcade.sprites (physics_engine v') = arcade.sprites (physics_engine v)
    ∧ fresh v' = S (fresh v)
    ∧ center_pin v' = center_pin v
    ∧ attached v' = attached v ∧ attached_sprite v' = attached_sprite v.
Proof.
  intros Ha Hb. unfold join_balls.
  rewrite get_body_registered by done. cbn [bind].
  assert (match ball_b with
          | IsBall s => arcade.get_physics_object_body s (physics_engine v)
          | IsBody bd => Ok bd
          end = Ok bd) as ->.
  { destruct ball_b as [s|b']; [|by subst].
    destruct Hb as [-> Hs]. by apply get_body_registered. }
  cbn [bind]. eexists. split; [reflexivity|]. by repeat split.
Qed.

(** [space.remove(ball.constraint)] followed by [join_balls(ball, next)],
    for a ball of a valid chain that has a successor: the link is replaced by
    a new one between the same two bodies. *)
Lemma relink_valid (v : MyView) (j a t : nat) (bb : BallOrBody) :
  valid v → balls v !! j = Some a → balls v !! S j = Some t →
  bb = IsBall t ∨ bb = IsBody t →
  ∃ c sp v',
    constraint (obj v a) = Some c ∧ pymunk.b c = t
    ∧ pymunk.remove_constraint (Some c) (the_space v) = Ok sp
    ∧ join_balls a bb (set_space sp v) = Ok v'
    ∧ valid v' ∧ balls v' = balls v ∧ links v' ≡ₚ links v
    ∧ (∀ u, own_link v' u = own_link v u)
    ∧ attached v' = attached v ∧ attached_sprite v' = attached_sprite v
    ∧ center_pin v' = center_pin v.
Proof.
  intros HV Hj HSj Hbb.
  pose proof (valid_links _ HV j a Hj) as Hlink. rewrite HSj in Hlink.
  destruct Hlink as (c & Hc & Ha & Hb & Hin).
  assert (a ∈ balls v) as Hain by (apply list_elem_of_lookup; eauto).
  assert (t ∈ balls v) as Htin by (apply list_elem_of_lookup; eauto).
  pose proof (valid_registered _ HV _ Hain) as Hareg.
  pose proof (valid_registered _ HV _ Htin) as Htreg.
  set (cs := pymunk.constraints (the_space v)) in *.
  set (sp := {| pymunk.bodies := pymunk.bodies (the_space v);
                pymunk.shapes := pymunk.shapes (the_space v);
                pymunk.constraints :=
                  filter (λ c', pymunk.cid c' ≠ pymunk.cid c) cs |}).
  destruct (join_balls_Ok a t bb (set_space sp v) Hareg)
    as (v' & Hjoin & Hballs & Hobj & Hcs & Hsp & Hfr & Hpin & Hatt & Hats).
  { destruct Hbb as [-> | ->]; [by split | done]. }
  cbn [fresh set_space set_physics_engine the_space physics_engine
       arcade.space pymunk.constraints sp objects arcade.sprites balls
       center_pin attached attached_sprite] in Hballs, Hobj, Hcs, Hsp, Hfr,
       Hpin, Hatt, Hats.
  change (obj (set_space sp v) a) with (obj v a) in Hobj.
  set (c' := pymunk.PinJoint (fresh v) a t) in *.
  exists c, sp, v'.
  split; [done|]. split; [done|].
  split. { cbn [pymunk.remove_constraint]. by rewrite has_constraint_elem. }
  split; [done|].
  assert (∀ u, u ≠ a → obj v' u = obj v u) as Hother.
  { intros u Hu. unfold obj. rewrite Hobj. by rewrite lookup_total_insert_ne. }
  assert (constraint (obj v' a) = Some c') as Hown.
  { unfold obj. rewrite Hobj. by rewrite lookup_total_insert_eq. }
  split; [|split; [done|split; [|split; [|done]]]].
  - split.
    + rewrite Hballs, Hpin. apply HV.
    + rewrite Hballs. apply HV.
    + unfold registered_in. rewrite Hballs, Hsp. apply HV.
    + rewrite Hballs, Hfr. intros s Hs.
      pose proof (valid_ball_ids _ HV _ Hs). lia.
    + intros i u Hi. rewrite Hballs in Hi |- *. rewrite Hcs.
      destruct (decide (u = a)) as [->|Hua].
      * assert (i = j) as ->
          by (eapply NoDup_lookup; [apply HV| |]; eauto).
        rewrite HSj. exists c'. rewrite Hown.
        split; [done|]. split; [done|]. split; [done|].
        apply elem_of_app. right. by apply list_elem_of_singleton.
      * rewrite (Hother _ Hua).
        pose proof (valid_links _ HV i u Hi) as Hl.
        destruct (balls v !! S i) as [t'|]; [|done].
        destruct Hl as (cu & Hcu & Hau & Hbu & Hinu). exists cu.
        split; [done|]. split; [done|]. split; [done|].
        apply elem_of_app. left. apply list_elem_of_filter.
        split; [|done]. intros Heq.
        assert (cu = c) by (eapply nodup_cid_inj; [apply HV|..]; done).
        congruence.
    + rewrite Hcs, map_app. apply NoDup_app. split.
      * apply nodup_cid_filter, HV.
      * split; [|apply NoDup_singleton].
        intros k Hk Hk'. apply list_elem_of_singleton in Hk' as ->.
        apply list_elem_of_fmap in Hk as (c0 & Hc0 & Hin0).
        apply list_elem_of_filter in Hin0 as [_ Hin0].
        pose proof (valid_cid_ids _ HV _ Hin0). simpl in Hc0. lia.
    + intros c0 Hc0. rewrite Hfr. rewrite Hcs in Hc0.
      apply elem_of_app in Hc0 as [Hc0|Hc0].
      * apply list_elem_of_filter in Hc0 as [_ Hc0].
        pose proof (valid_cid_ids _ HV _ Hc0). lia.
      * apply list_elem_of_singleton in Hc0 as ->. simpl. lia.
  - unfold links. rewrite Hcs. fold cs.
    rewrite (filter_cid_perm cs c) at 2 by (apply HV || done).
    rewrite map_app. cbn [map].
    assert (pymunk.endpoints c' = pymunk.endpoints c) as ->
      by (unfold pymunk.endpoints; cbn; by rewrite Ha, Hb).
    symmetry. apply Permutation_cons_append.
  - intros u. unfold own_link. destruct (decide (u = a)) as [->|Hua].
    + rewrite Hown, Hc. cbn. unfold pymunk.endpoints. cbn. by rewrite Ha, Hb.
    + by rewrite (Hother _ Hua).
Qed.

(** ** Release re-creates the links around the grabbed ball *)

Lemma valid_set_attached (bd sp : option nat) (v : MyView) :
  valid v → valid (set_attached bd sp v).
Proof. intros []. by split. Qed.

Lemma release_valid (x y button modifiers : Z) (v : MyView) (bd s : nat) :
  valid v → attached v = Some bd → attached_sprite v = Some s →
  s ∈ balls v → s ≠ center_pin v →
  ∃ v',
    on_mouse_release x y button modifiers v = Ok v'
    ∧ valid v' ∧ balls v' = balls v ∧ links v' ≡ₚ links v
    ∧ (∀ u, own_link v' u = own_link v u)
    ∧ attached v' = None ∧ attached_sprite v' = None.
Proof.
  intros HV Hatt Hats Hs Hpin.
  apply list_elem_of_lookup in Hs as [i Hi].
  destruct i as [|j].
  { pose proof (valid_anchor _ HV) as Hh. rewrite head_lookup in Hh. congruence. }
  destruct (balls v !! j) as [p|] eqn:Hj.
  2:{ apply lookup_ge_None in Hj. apply lookup_lt_Some in Hi. lia. }
  unfold on_mouse_release. rewrite Hatt, Hats.
  rewrite (index_nodup_lookup _ _ _ (valid_nodup _ HV) Hi). cbn [bind].
  replace (Z.of_nat (S j) - 1) with (Z.of_nat j) by lia.
  rewrite (getitem_nonneg _ _ _ Hj). cbn [bind].
  destruct (relink_valid v j p s (IsBall s) HV Hj Hi (or_introl eq_refl))
    as (c & sp & v1 & Hc & _ & Hrm & Hjoin & HV1 & Hb1 & Hl1 & Ho1 & Ha1 & As1
        & _).
  rewrite Hc, Hrm. cbn [bind]. rewrite Hjoin. cbn [bind].
  assert (balls v1 !! S j = Some s) as Hi1 by (by rewrite Hb1).
  destruct (balls v !! S (S j)) as [t|] eqn:Hnext.
  - assert (balls v1 !! S (S j) = Some t) as Hn1 by (by rewrite Hb1).
    destruct (relink_valid v1 (S j) s t (IsBody t) HV1 Hi1 Hn1
                (or_intror eq_refl))
      as (c2 & sp2 & v2 & Hc2 & Hbc2 & Hrm2 & Hjoin2 & HV2 & Hb2 & Hl2 & Ho2
          & _).
    rewrite Hc2, Hrm2. cbn [bind]. rewrite Hbc2, Hjoin2. cbn [bind].
    eexists. split; [reflexivity|].
    split; [by apply valid_set_attached|].
    split; [cbn; congruence|].
    split; [unfold links in *; cbn; by rewrite Hl2|].
    split; [|done]. intros u. unfold own_link in *.
    change (obj (set_attached None None v2) u) with (obj v2 u).
    by rewrite Ho2.
  - pose proof (valid_links _ HV1 (S j) s Hi1) as Hnone.
    rewrite Hb1, Hnext in Hnone. rewrite Hnone. cbn [bind].
    eexists. split; [reflexivity|].
    split; [by apply valid_set_attached|].
    split; [done|]. split; [done|]. split; [|done]. done.
Qed.

Lemma run_app (es es' : list Event) (v : MyView) :
  run (es ++ es') v = let! v1 := run es v in run es' v1.
Proof.
  revert v. induction es as [|e es IH]; intros v; [done|].
  cbn [app run]. destruct (dispatch e v) as [v1|]; [|done]. cbn [bind].
  apply IH.
Qed.

Lemma press_left_on_first_hit (x y modifiers : Z) (collides : nat -> bool)
  (v : MyView) :
  (∀ s, s ∈ balls v → registered_in v s) →
  ∃ v1,
    on_mouse_press x y arcade.MOUSE_BUTTON_LEFT modifiers collides v = Ok v1
    ∧ same_chain (set_attached (attached v1) (attached_sprite v1) v) v1
    ∧ objects v1 = objects v
    ∧ col_detector v1 = (x, y)
    ∧ ∀ s rest,
        arcade.check_for_collision_with_list collides (balls v) = s :: rest →
        attached v1 = Some s ∧ attached_sprite v1 = Some s.
Proof.
  intros Hreg. destruct (press_left_Ok x y collides v Hreg)
    as (v1 & Hp & Hsc & Hobj & Hcol & Hm).
  exists v1. split; [done|]. split; [done|]. split; [done|]. split; [done|].
  intros s rest E. by rewrite E in Hm.
Qed.

(** ** Press, drag, release *)

(** C2, amended.  In every reachable state a left press succeeds and only
    records what was grabbed (the first sprite under the cursor, if any): it
    touches no ball and no constraint.  Through the motion and update events
    of the drag the sprite list, the space with all its constraints and the
    link stored on every ball stay as they were before the press, while each
    motion event puts the grabbed sprite at the cursor and each update (of a
    paused simulation) puts the grabbed body there. *)
Theorem left_press_keeps_links (es : list Event) (v : MyView)
  (x y modifiers : Z) (collides : nat -> bool) (drag : list Event) :
  run es init_view = Ok v → forallb is_drag drag = true →
  ∃ v1 v2,
    on_mouse_press x y arcade.MOUSE_BUTTON_LEFT modifiers collides v = Ok v1
    ∧ objects v1 = objects v ∧ balls v1 = balls v
    ∧ physics_engine v1 = physics_engine v
    ∧ (∀ s rest,
         arcade.check_for_collision_with_list collides (balls v) = s :: rest →
         attached v1 = Some s ∧ attached_sprite v1 = Some s)
    ∧ run drag v1 = Ok v2
    ∧ balls v2 = balls v ∧ the_space v2 = the_space v ∧ links v2 = links v
    ∧ (∀ u, constraint (obj v2 u) = constraint (obj v u))
    ∧ attached v2 = attached v1 ∧ attached_sprite v2 = attached_sprite v1
    ∧ (∀ s x1 y1 dx dy,
         attached_sprite v2 = Some s →
         position (obj (on_mouse_motion x1 y1 dx dy v2) s) = (x1, y1))
    ∧ (∀ bd solve resynced,
         attached v2 = Some bd → running v2 = false →
         body_position (obj (on_update solve resynced v2) bd)
         = col_detector v2).
Proof.
  intros Hrun Hdrag. pose proof (Inv_reachable _ _ Hrun) as HI.
  destruct (press_left_on_first_hit x y modifiers collides v
              (inv_balls_registered _ HI))
    as (v1 & Hp & Hsc1 & Hobj & _ & Hhit).
  destruct (same_chain_drag drag v1 Hdrag) as (v2 & Hr & Hsc2).
  exists v1, v2.
  destruct Hsc1 as [Hb1 He1 _ _ _ _ Hc1]. destruct Hsc2 as [Hb2 He2 _ _ Ha2 As2 Hc2].
  cbn [balls physics_engine set_attached] in Hb1, He1.
  change (∀ s, constraint (obj v1 s) = constraint (obj v s)) in Hc1.
  split; [done|]. split; [done|]. split; [done|]. split; [done|].
  split; [done|]. split; [done|].
  split; [congruence|].
  split; [unfold the_space; congruence|].
  split; [unfold links, the_space; congruence|].
  split; [intros u; by rewrite Hc2, Hc1|].
  split; [done|]. split; [done|]. split.
  - intros s x1 y1 dx dy Hs. unfold on_mouse_motion.
    cbn [attached_sprite set_col_detector]. rewrite Hs.
    by rewrite obj_mutate, decide_True.
  - intros bd solve resynced Hbd Hrunning. unfold on_update. rewrite Hbd.
    cbn [running mutate set_objects]. rewrite Hrunning.
    by rewrite obj_mutate, decide_True.
Qed.

Lemma left_press_keeps_links_witness :
  ∃ v1 v2,
    on_mouse_press 600 300 arcade.MOUSE_BUTTON_LEFT 0 (only 2%nat) init_view
    = Ok v1
    ∧ run [MouseMotion 610 290 10 (-10); Update (λ _, (0, 0)) (λ _, true)] v1 = Ok v2
    ∧ links v2 = links init_view
    ∧ attached_sprite v2 = attached_sprite v1.
Proof.
  assert (run [] init_view = Ok init_view) as Hrun by reflexivity.
  assert (forallb is_drag [MouseMotion 610 290 10 (-10); Update (λ _, (0, 0)) (λ _, true)]
          = true) as Hdrag by reflexivity.
  destruct (left_press_keeps_links [] init_view 600 300 0 (only 2%nat) _
              Hrun Hdrag)
    as (v1 & v2 & Hp & _ & _ & _ & _ & Hr & _ & _ & Hl & _ & _ & Hs & _).
  exists v1, v2. by repeat split.
Defined.

(** C4.  On a valid chain, a left press whose first hit is a ball other than
    the pin, any motion and update events while the button is held, and the
    release all succeed, and the final state has the same sprite list, the
    same link endpoints in the space (the constraints around the ball are new
    objects between the same bodies), the same link endpoints stored on every
    ball, and is again a valid chain with nothing grabbed. *)
Theorem drag_release_restores_chain (v : MyView) (x y modifiers : Z)
  (collides : nat -> bool) (drag : list Event)
  (x' y' button' modifiers' : Z) (s : nat) (rest : list nat) :
  valid v →
  arcade.check_for_collision_with_list collides (balls v) = s :: rest →
  s ≠ center_pin v →
  forallb is_drag drag = true →
  ∃ v',
    run (MousePress x y arcade.MOUSE_BUTTON_LEFT modifiers collides
           :: drag ++ [MouseRelease x' y' button' modifiers']) v = Ok v'
    ∧ balls v' = balls v
    ∧ links v' ≡ₚ links v
    ∧ (∀ u, own_link v' u = own_link v u)
    ∧ valid v'
    ∧ attached v' = None ∧ attached_sprite v' = None.
Proof.
  intros HV Hhit Hpin Hdrag.
  destruct (press_left_on_first_hit x y modifiers collides v
              (valid_registered _ HV))
    as (v1 & Hp & Hsc1 & _ & _ & Hgrab).
  destruct (Hgrab _ _ Hhit) as [Ha1 As1].
  destruct (same_chain_drag drag v1 Hdrag) as (v2 & Hr & Hsc2).
  assert (valid v2) as HV2.
  { eapply same_chain_valid; [exact Hsc2|].
    eapply same_chain_valid; [exact Hsc1|]. by apply valid_set_attached. }
  destruct (same_chain_links _ _ Hsc1) as [Hl1 Ho1].
  destruct (same_chain_links _ _ Hsc2) as [Hl2 Ho2].
  assert (balls v2 = balls v) as Hb2.
  { rewrite (sc_balls _ _ Hsc2). exact (sc_balls _ _ Hsc1). }
  assert (s ∈ balls v) as Hs.
  { assert (s ∈ s :: rest) as Hin by (by left). rewrite <- Hhit in Hin.
    by apply list_elem_of_filter in Hin as [_ Hin]. }
  destruct (release_valid x' y' button' modifiers' v2 s s HV2)
    as (v' & Hrel & HV' & Hb' & Hl' & Ho' & Ha' & As').
  { by rewrite (sc_attached _ _ Hsc2). }
  { by rewrite (sc_attached_sprite _ _ Hsc2). }
  { by rewrite Hb2. }
  { rewrite (sc_center_pin _ _ Hsc2), (sc_center_pin _ _ Hsc1). exact Hpin. }
  exists v'. split.
  { cbn [run dispatch]. rewrite Hp. cbn [bind]. rewrite run_app, Hr.
    cbn [bind run dispatch]. by rewrite Hrel. }
  split; [congruence|].
  split; [rewrite Hl', Hl2; by rewrite Hl1|].
  split; [|done]. intros u. by rewrite Ho', Ho2, Ho1.
Qed.

Lemma drag_release_restores_chain_witness :
  ∃ v',
    run (MousePress 500 300 arcade.MOUSE_BUTTON_LEFT 0 (only 1%nat)
           :: [MouseMotion 520 280 20 (-20); Update (λ _, (0, 0)) (λ _, true)]
           ++ [MouseRelease 520 280 arcade.MOUSE_BUTTON_LEFT 0]) init_view
    = Ok v'
    ∧ balls v' = balls init_view
    ∧ links v' ≡ₚ links init_view
    ∧ (∀ u, own_link v' u = own_link init_view u)
    ∧ valid v'
    ∧ attached v' = None ∧ attached_sprite v' = None.
Proof.
  apply (drag_release_restores_chain init_view 500 300 0 (only 1%nat)
           [MouseMotion 520 280 20 (-20); Update (λ _, (0, 0)) (λ _, true)]
           520 280 arcade.MOUSE_BUTTON_LEFT 0 1%nat []).
  - apply valid_b_sound. vm_compute. reflexivity.
  - vm_compute. reflexivity.
  - vm_compute. discriminate.
  - reflexivity.
Defined.

(** ** Appending *)

Lemma zip_tail_snoc (l : list nat) (t n : nat) :
  last l = Some t →
  zip (l ++ [n]) (tail (l ++ [n])) = zip l (tail l) ++ [(t, n)].
Proof.
  induction l as [|a l IH]; intros Hlast; [discriminate|].
  destruct l as [|b l'].
  - injection Hlast as ->. done.
  - change (last (b :: l') = Some t) in Hlast. specialize (IH Hlast).
    cbn [app tail zip zip_with] in IH |- *. by rewrite IH.
Qed.

Lemma zip_tail_lookup (l : list nat) (i a b : nat) :
  zip l (tail l) !! i = Some (a, b) → l !! i = Some a ∧ l !! S i = Some b.
Proof.
  intros H. apply lookup_zip_with_Some in H as (a' & b' & [= <- <-] & Ha & Hb).
  split; [done|]. by rewrite <- lookup_tail.
Qed.

Lemma zip_tail_length (l : list nat) :
  length (zip l (tail l)) = pred (length l).
Proof.
  rewrite length_zip. destruct l as [|a l]; [done|]. cbn [tail length]. lia.
Qed.

Lemma anchor_only_appendable (v : MyView) : anchor_only v → appendable v.
Proof.
  intros [Hb Hl Hr Hf]. split; [|by unfold links, chain_links; rewrite Hl, Hb].
  exists (center_pin v). by rewrite Hb.
Qed.

(** A right click that returns, on a chain whose links are those of its
    list. *)
Lemma press_right_appendable (x y : Z) (v v' : MyView) :
  appendable v → press_right x y v = Ok v' →
  appendable v' ∧ balls v' = balls v ++ [fresh v]
  ∧ ∃ t, last (balls v) = Some t ∧ links v' = links v ++ [(t, fresh v)].
Proof.
  intros [(t & Hlast & Hreg) Hl] Hp'.
  destruct (press_right_Ok x y v t (press_right_mass _ _ _ _ Hp') Hlast Hreg)
    as (bl & w & _ & Hp & Hb & Hcs & Hsp & _).
  rewrite Hp in Hp'. injection Hp' as <-.
  split; [|split; [done|]].
  - split.
    + exists (fresh v). rewrite Hb, last_snoc. split; [done|].
      unfold registered_in. rewrite Hsp. apply elem_of_app. right.
      by apply list_elem_of_singleton.
    + unfold links, chain_links in *. rewrite Hcs, map_app, Hl, Hb.
      by rewrite (zip_tail_snoc _ t).
  - exists t. split; [done|]. unfold links. by rewrite Hcs, map_app.
Qed.

Lemma run_right_presses (clicks : list Event) (v v' : MyView) :
  appendable v → forallb is_right_press clicks = true →
  run clicks v = Ok v' →
  appendable v'
  ∧ length (balls v') = (length (balls v) + length clicks)%nat
  ∧ head (balls v') = head (balls v).
Proof.
  revert v. induction clicks as [|e clicks IH]; intros v Hap Hall Hrun.
  - injection Hrun as <-. split; [done|]. split; [simpl; lia | done].
  - cbn [forallb] in Hall. apply andb_true_iff in Hall as [He Hall].
    destruct e; try discriminate. cbn [is_right_press] in He.
    apply Z.eqb_eq in He. subst button.
    cbn [run dispatch] in Hrun. inv_bind Hrun as v1 Hv1.
    change (on_mouse_press x y arcade.MOUSE_BUTTON_RIGHT modifiers collides v)
      with (press_right x y v) in Hv1.
    destruct (press_right_appendable x y v v1 Hap Hv1) as (Hap1 & Hb1 & _).
    destruct (IH v1 Hap1 Hall Hrun) as (Hap' & Hlen & Hh).
    split; [done|]. split.
    + rewrite Hlen, Hb1, length_app. simpl. lia.
    + rewrite Hh, Hb1. destruct Hap as [(t & Hlast & _) _].
      destruct (balls v); [discriminate | done].
Qed.

(** Bulk creation. *)

Lemma create_each_Ok (mps : list (Z * pos)) (bt : pymunk.BodyType)
  (v v' : MyView) :
  create_each mps bt v = Ok v' →
  balls v' = balls v ++ seq (fresh v) (length mps)
  ∧ arcade.sprites (physics_engine v') =
    arcade.sprites (physics_engine v) ++ seq (fresh v) (length mps)
  ∧ pymunk.constraints (the_space v') = pymunk.constraints (the_space v)
  ∧ center_pin v' = center_pin v.
Proof.
  revert v. induction mps as [|[m p] mps IH]; intros v Hc.
  - injection Hc as <-. simpl. by rewrite !app_nil_r.
  - cbn [create_each] in Hc. inv_bind Hc as v1 Hv1.
    unfold create_ball, new_Ball in Hv1. inv_bind Hv1 as sv Hsv.
    inv_bind Hsv as bl Hbl. injection Hsv as <-. injection Hv1 as <-.
    destruct (IH _ Hc) as (Hb & Hs & Hcs & Hp).
    cbn [balls set_balls set_physics_engine set_fresh set_objects fresh
         physics_engine arcade.sprites arcade.add_sprite the_space
         arcade.space pymunk.add_body_shape pymunk.constraints center_pin]
      in Hb, Hs, Hcs, Hp.
    cbn [length seq]. rewrite Hb, Hs, <- !(assoc_L (++)). done.
Qed.

Lemma join_loop_Ok (l : list nat) (last_ball : nat) (v : MyView) :
  (∀ s, s ∈ l → s ≠ center_pin v ∧ registered_in v s) →
  registered_in v last_ball →
  ∃ v', join_loop l last_ball v = Ok v'
        ∧ balls v' = balls v
        ∧ links v' = links v ++ zip (last_ball :: l) l.
Proof.
  revert last_ball v. induction l as [|s l IH]; intros last_ball v Hl Hlast.
  - exists v. split; [done|]. split; [done|]. simpl. by rewrite app_nil_r.
  - destruct (Hl s ltac:(by left)) as [Hne Hs].
    cbn [join_loop]. apply Nat.eqb_neq in Hne. rewrite Hne.
    destruct (join_balls_Ok last_ball s (IsBall s) v Hlast (conj eq_refl Hs))
      as (v1 & Hj & Hb1 & _ & Hcs1 & Hsp1 & _ & Hp1 & _).
    rewrite Hj. cbn [bind].
    destruct (IH s v1) as (v' & Hjl & Hb' & Hl').
    { intros u Hu. destruct (Hl u ltac:(by right)) as [Hu1 Hu2].
      split; [by rewrite Hp1 | by unfold registered_in; rewrite Hsp1]. }
    { unfold registered_in. by rewrite Hsp1. }
    exists v'. split; [done|]. split; [congruence|].
    rewrite Hl'. unfold links. rewrite Hcs1, map_app.
    cbn [zip zip_with map]. by rewrite <- (assoc_L (++)).
Qed.

(** A bulk creation that returns was given as many positions as masses. *)
Lemma create_balls_Ok (masses : list Z) (positions : list pos)
  (bt : pymunk.BodyType) (v v' : MyView) :
  create_balls masses positions bt v = Ok v' →
  length masses = length positions
  ∧ ∃ v1, create_each (zip masses positions) bt v = Ok v1
          ∧ join_loop (balls v1) (center_pin v1) v1 = Ok v'.
Proof.
  unfold create_balls.
  destruct (Nat.eqb_spec (length masses) (length positions)) as [Hlen|Hne];
    [|discriminate].
  cbn [negb]. intros H. inv_bind H as v1 Hv1. split; [done|]. eauto.
Qed.

(** What [create_balls] does to a list that starts with the pin and holds
    it once, the listed balls being registered: it appends the new balls and
    joins every pair of consecutive balls of the whole list. *)
Lemma create_balls_joins_list (masses : list Z) (positions : list pos)
  (bt : pymunk.BodyType) (v v' : MyView) :
  head (balls v) = Some (center_pin v) → NoDup (balls v) →
  (∀ s, s ∈ balls v → registered_in v s ∧ (s < fresh v)%nat) →
  create_balls masses positions bt v = Ok v' →
  balls v' = balls v ++ seq (fresh v) (length masses)
  ∧ links v' = links v ++ chain_links v'.
Proof.
  intros Hhead Hnd Hreg Hc.
  apply create_balls_Ok in Hc as (Hlen & v1 & Hc & Hj').
  destruct (create_each_Ok _ _ _ _ Hc) as (Hb1 & Hs1 & Hcs1 & Hp1).
  assert (length (zip masses positions) = length masses) as Hz
    by (rewrite length_zip; lia).
  rewrite Hz in Hb1, Hs1.
  destruct (balls v) as [|pin rest] eqn:Eb; [done|].
  injection Hhead as Hpin. subst pin.
  rewrite Hb1, Hp1 in Hj'. cbn [app join_loop] in Hj'.
  rewrite Hp1, Nat.eqb_refl in Hj'.
  apply NoDup_cons in Hnd as [Hnotin Hnd].
  destruct (join_loop_Ok (rest ++ seq (fresh v) (length masses))
              (center_pin v) v1) as (w & Hj & Hb' & Hl').
  { intros s Hs. apply elem_of_app in Hs as [Hs|Hs].
    - split; [rewrite Hp1; by intros -> |].
      unfold registered_in. rewrite Hs1. apply elem_of_app. left.
      apply Hreg. by right.
    - split.
      + apply elem_of_seq in Hs. rewrite Hp1.
        destruct (Hreg (center_pin v) ltac:(by left)) as [_ Hlt]. lia.
      + unfold registered_in. rewrite Hs1. apply elem_of_app. by right. }
  { unfold registered_in. rewrite Hs1. apply elem_of_app. left.
    apply Hreg. by left. }
  rewrite Hj in Hj'. injection Hj' as <-.
  split; [by rewrite Hb', Hb1|].
  rewrite Hl'. unfold links, chain_links. by rewrite Hcs1, Hb', Hb1.
Qed.

Lemma create_balls_anchor_only (masses : list Z) (positions : list pos)
  (v v' : MyView) :
  anchor_only v →
  create_balls masses positions pymunk.DYNAMIC v = Ok v' →
  balls v' = center_pin v :: seq (fresh v) (length masses)
  ∧ links v' = chain_links v'.
Proof.
  intros [Hb Hl Hr Hf] Hc.
  destruct (create_balls_joins_list masses positions pymunk.DYNAMIC v v')
    as [Hb' Hl'];
    [by rewrite Hb | rewrite Hb; apply NoDup_singleton | | done |].
  { intros s Hs. rewrite Hb in Hs. apply list_elem_of_singleton in Hs as ->.
    by split. }
  rewrite Hb in Hb'. split; [done|].
  rewrite Hl'. unfold links at 1. by rewrite Hl.
Qed.

(** C6, as stated, fails for bulk creation on a chain that already has
    links: [create_balls] joins every ball of the list, so on the
    constructed chain of four balls one more mass gives four more links,
    not one. *)
Lemma bulk_creation_relinks_populated_chain :
  MyView_init = Ok init_view ∧ ¬ bulk_creation_adds_one_link_each.
Proof.
  split; [exact init_Ok|]. intros H.
  assert (match create_balls [5] [(100, 100)] pymunk.DYNAMIC init_view with
          | Ok v' => Some (length (links v'))
          | Raise _ => None
          end = Some 7%nat) as Hev by (vm_compute; reflexivity).
  destruct (create_balls [5] [(100, 100)] pymunk.DYNAMIC init_view)
    as [v'|e] eqn:Hc; [|discriminate].
  injection Hev as Hev.
  destruct (H init_view v' [5] [(100, 100)] valid_init_view Hc) as [_ Hl].
  rewrite Hev in Hl.
  replace (length (links init_view)) with 3%nat in Hl
    by (vm_compute; reflexivity).
  simpl in Hl. lia.
Qed.

(** C6, amended.  Every right click that returns has added the new ball at
    the tail and exactly one link, from the previous tail to the new ball:
    on a chain holding only the anchor the link is anchor-ball, and this
    holds in every state reached from the constructed view.  [N] right
    clicks on a chain holding only the anchor, or one bulk creation of [N]
    balls on it, when they return, give a list of [N] balls after the anchor
    with exactly [N] links in the space, the link at position [i] joining
    the balls at indices [i] and [i + 1]. *)
Theorem append_links_consecutive (v : MyView) (clicks : list Event)
  (masses : list Z) (positions : list pos) :
  anchor_only v →
  forallb is_right_press clicks = true →
  (∀ x y modifiers collides v1,
     on_mouse_press x y arcade.MOUSE_BUTTON_RIGHT modifiers collides v
     = Ok v1 →
     balls v1 = [center_pin v; fresh v]
     ∧ links v1 = [(center_pin v, fresh v)])
  ∧ (∀ v',
       run clicks v = Ok v' →
       length (balls v') = S (length clicks)
       ∧ length (links v') = length clicks
       ∧ head (balls v') = Some (center_pin v)
       ∧ (∀ i a b, links v' !! i = Some (a, b) →
                   balls v' !! i = Some a ∧ balls v' !! S i = Some b)
       ∧ (∀ x y modifiers collides v'',
            on_mouse_press x y arcade.MOUSE_BUTTON_RIGHT modifiers
              collides v' = Ok v'' →
            ∃ t,
              last (balls v') = Some t
              ∧ balls v'' = balls v' ++ [fresh v']
              ∧ links v'' = links v' ++ [(t, fresh v')]))
  ∧ (∀ v',
       create_balls masses positions pymunk.DYNAMIC v = Ok v' →
       length (balls v') = S (length masses)
       ∧ length (links v') = length masses
       ∧ head (balls v') = Some (center_pin v)
       ∧ (∀ i a b, links v' !! i = Some (a, b) →
                   balls v' !! i = Some a ∧ balls v' !! S i = Some b))
  ∧ (∀ es w x y modifiers collides w',
       run es init_view = Ok w →
       on_mouse_press x y arcade.MOUSE_BUTTON_RIGHT modifiers collides w
       = Ok w' →
       ∃ t,
         last (balls w) = Some t
         ∧ balls w' = balls w ++ [fresh w]
         ∧ links w' = links w ++ [(t, fresh w)]).
Proof.
  intros Hao Hclicks.
  pose proof (anchor_only_appendable _ Hao) as Hap.
  assert (∀ w t w', last (balls w) = Some t → registered_in w t →
            ∀ x y modifiers collides,
              on_mouse_press x y arcade.MOUSE_BUTTON_RIGHT modifiers
                collides w = Ok w' →
              ∃ t,
                last (balls w) = Some t
                ∧ balls w' = balls w ++ [fresh w]
                ∧ links w' = links w ++ [(t, fresh w)]) as Hany.
  { intros w t w' Hlast Hreg x y modifiers collides Hp'.
    change (on_mouse_press x y arcade.MOUSE_BUTTON_RIGHT modifiers collides w)
      with (press_right x y w) in Hp'.
    destruct (press_right_Ok x y w t (press_right_mass _ _ _ _ Hp')
                Hlast Hreg)
      as (bl & w1 & _ & Hp & Hb & Hcs & _).
    rewrite Hp in Hp'. injection Hp' as <-.
    exists t. split; [done|]. split; [done|].
    unfold links. by rewrite Hcs, map_app. }
  assert (∀ w w', appendable w → ∀ x y modifiers collides,
            on_mouse_press x y arcade.MOUSE_BUTTON_RIGHT modifiers
              collides w = Ok w' →
            ∃ t,
              last (balls w) = Some t
              ∧ balls w' = balls w ++ [fresh w]
              ∧ links w' = links w ++ [(t, fresh w)]) as Hstep.
  { intros w w' [(t & Hlast & Hreg) _]. by eapply Hany. }
  split; [|split; [|split]].
  - intros x y modifiers collides v1 Hp.
    destruct (Hstep v v1 Hap x y modifiers collides Hp) as (t & Hl & Hb & Hk).
    rewrite (ao_balls _ Hao) in Hl, Hb. injection Hl as <-.
    split; [done|].
    rewrite Hk. unfold links. by rewrite (ao_links _ Hao).
  - intros v' Hr.
    destruct (run_right_presses clicks v v' Hap Hclicks Hr)
      as (Hap' & Hl & Hh).
    rewrite (ao_balls _ Hao) in Hl, Hh. cbn [length head] in Hl, Hh.
    split; [lia|].
    split.
    { rewrite (ap_links _ Hap'). unfold chain_links.
      rewrite zip_tail_length. lia. }
    split; [done|]. split.
    + intros i a b. rewrite (ap_links _ Hap'). apply zip_tail_lookup.
    + intros x y modifiers collides v''. by apply Hstep.
  - intros v' Hc.
    destruct (create_balls_anchor_only masses positions v v' Hao Hc)
      as (Hb & Hl).
    split; [by rewrite Hb; cbn [length]; rewrite length_seq|].
    split.
    { rewrite Hl. unfold chain_links. rewrite zip_tail_length, Hb.
      cbn [length]. by rewrite length_seq. }
    split; [by rewrite Hb|].
    intros i a b. rewrite Hl. apply zip_tail_lookup.
  - intros es w x y modifiers collides w' Hrun Hp.
    pose proof (Inv_reachable _ _ Hrun) as HI.
    destruct (Inv_last _ HI) as (t & Hlast & Hreg).
    by eapply Hany.
Qed.

Lemma append_links_consecutive_witness :
  MyView_anchor_only = Ok anchor_view
  ∧ create_balls [10; 15; 20] [(500, 300); (600, 300); (650, 300)]
      pymunk.DYNAMIC anchor_view = Ok init_view
  ∧ length (balls init_view) = 4%nat
  ∧ length (links init_view) = 3%nat
  ∧ head (balls init_view) = Some (center_pin anchor_view)
  ∧ (∀ i a b, links init_view !! i = Some (a, b) →
              balls init_view !! i = Some a
              ∧ balls init_view !! S i = Some b).
Proof.
  split; [exact anchor_only_Ok|].
  assert (create_balls [10; 15; 20] [(500, 300); (600, 300); (650, 300)]
            pymunk.DYNAMIC anchor_view = Ok init_view) as Hc
    by (vm_compute; reflexivity).
  split; [exact Hc|].
  refine (proj1 (proj2 (proj2
            (append_links_consecutive anchor_view
               [MousePress 500 300 arcade.MOUSE_BUTTON_RIGHT 0 (only 0%nat);
                MousePress 600 300 arcade.MOUSE_BUTTON_RIGHT 0 (only 0%nat)]
               [10; 15; 20] [(500, 300); (600, 300); (650, 300)]
               _ _))) init_view Hc).
  - split.
    + vm_compute. reflexivity.
    + vm_compute. reflexivity.
    + unfold registered_in. vm_compute. left.
    + vm_compute. lia.
  - reflexivity.
Defined.

(** ** What a middle click does to a valid chain *)

Lemma remove_of_elem (x : nat) (l : list nat) :
  x ∈ l → ∃ r, pylist.remove x l = Ok r.
Proof.
  induction l as [|y l IH]; intros Hin.
  - by apply elem_of_nil in Hin.
  - cbn [pylist.remove]. destruct (Nat.eqb_spec y x) as [->|Hne]; [eauto|].
    apply elem_of_cons in Hin as [->|Hin]; [done|].
    destruct (IH Hin) as [r ->]. cbn [bind]. eauto.
Qed.

Lemma remove_sprite_registered (s : nat) (pe : arcade.PymunkPhysicsEngine) :
  s ∈ arcade.sprites pe →
  s ∈ pymunk.bodies (arcade.space pe) →
  s ∈ pymunk.shapes (arcade.space pe) →
  ∃ pe', arcade.remove_sprite s pe = Ok pe'
         ∧ (s ∉ pymunk.bodies (arcade.space pe'))
         ∧ (s ∉ arcade.sprites pe')
         ∧ pymunk.constraints (arcade.space pe')
           = pymunk.constraints (arcade.space pe).
Proof.
  intros Hs Hb Hsh. unfold arcade.remove_sprite.
  rewrite (proj2 (registered_elem _ _) Hs).
  unfold pymunk.remove_body, pymunk.has_body.
  rewrite (proj2 (existsb_eqb_elem _ _) Hb). cbn [bind].
  unfold pymunk.remove_shape, pymunk.has_shape. cbn [pymunk.shapes].
  rewrite (proj2 (existsb_eqb_elem _ _) Hsh). cbn [bind].
  eexists. split; [reflexivity|]. cbn.
  split; [|split; [|done]]; intros Hin;
    apply list_elem_of_filter in Hin as [Hne _]; by apply Hne.
Qed.

(** Removing the last ball of a valid chain: no link is created and none is
    destroyed, so the link from its predecessor stays in the space, ending in
    a body that is no longer there. *)
Lemma press_middle_tail (x y : Z) (collides : nat -> bool) (v : MyView)
  (j p s : nat) (rest : list nat) :
  valid v →
  balls v !! j = Some p → balls v !! S j = Some s → balls v !! S (S j) = None →
  arcade.check_for_collision_with_list collides (balls v) = s :: rest →
  s ∈ pymunk.bodies (the_space v) → s ∈ pymunk.shapes (the_space v) →
  ∃ c v',
    press_middle x y collides v = Ok v'
    ∧ length (balls v) = S (length (balls v'))
    ∧ (s ∉ balls v')
    ∧ (s ∉ pymunk.bodies (the_space v'))
    ∧ pymunk.constraints (the_space v') = pymunk.constraints (the_space v)
    ∧ constraint (obj v' p) = Some c
    ∧ pymunk.endpoints c = (p, s)
    ∧ c ∈ pymunk.constraints (the_space v').
Proof.
  intros HV Hj HSj Hend Hhit Hbody Hshape.
  pose proof (valid_links _ HV j p Hj) as Hp. rewrite HSj in Hp.
  destruct Hp as (c & Hc & Ha & Hb & Hin).
  pose proof (valid_links _ HV (S j) s HSj) as Hs. rewrite Hend in Hs.
  assert (s ∈ balls v) as Hsin by (apply list_elem_of_lookup; eauto).
  destruct (remove_of_elem s (balls v) Hsin) as [l' Hl'].
  destruct (remove_nodup _ _ _ (valid_nodup _ HV) Hl') as [_ Hmem].
  destruct (remove_sprite_registered s (physics_engine v)
              (valid_registered _ HV _ Hsin) Hbody Hshape)
    as (pe & Hpe & Hnb & _ & Hcs).
  exists c. eexists. unfold press_middle.
  cbn [balls set_col_detector]. rewrite Hhit.
  rewrite (index_nodup_lookup _ _ _ (valid_nodup _ HV) HSj). cbn [bind].
  replace (negb (Z.of_nat (S j) =? 0)) with true
    by (symmetry; apply negb_true_iff, Z.eqb_neq; lia).
  change (obj (set_col_detector (x, y) v) s) with (obj v s). rewrite Hs.
  cbn [bind balls set_col_detector]. rewrite Hl'.
  cbn [bind physics_engine set_balls set_col_detector]. rewrite Hpe.
  cbn [bind]. split; [reflexivity|].
  split; [by apply remove_length in Hl'|].
  split; [cbn; rewrite Hmem; tauto|].
  split; [exact Hnb|]. split; [exact Hcs|].
  split; [exact Hc|]. split; [by unfold pymunk.endpoints; rewrite Ha, Hb|].
  change (the_space (set_physics_engine pe ?w)) with (arcade.space pe).
  rewrite Hcs. exact Hin.
Qed.

(** Removing a ball of a valid chain that has a successor: the bridging link
    is added and the ball's own link to its successor is taken out of the
    space, but the link from its predecessor stays there. *)
Lemma press_middle_interior (x y : Z) (collides : nat -> bool) (v : MyView)
  (j p s t : nat) (rest : list nat) :
  valid v →
  balls v !! j = Some p → balls v !! S j = Some s →
  balls v !! S (S j) = Some t →
  arcade.check_for_collision_with_list collides (balls v) = s :: rest →
  s ∈ pymunk.bodies (the_space v) → s ∈ pymunk.shapes (the_space v) →
  ∃ c_ps c_st v',
    constraint (obj v p) = Some c_ps ∧ pymunk.endpoints c_ps = (p, s)
    ∧ constraint (obj v s) = Some c_st ∧ pymunk.endpoints c_st = (s, t)
    ∧ press_middle x y collides v = Ok v'
    ∧ length (balls v) = S (length (balls v'))
    ∧ (s ∉ balls v')
    ∧ (s ∉ pymunk.bodies (the_space v'))
    ∧ pymunk.constraints (the_space v')
      = filter (λ c, pymunk.cid c ≠ pymunk.cid c_st)
          (pymunk.constraints (the_space v))
        ++ [pymunk.PinJoint (fresh v) p t]
    ∧ (c_st ∉ pymunk.constraints (the_space v'))
    ∧ c_ps ∈ pymunk.constraints (the_space v').
Proof.
  intros HV Hj HSj HSSj Hhit Hbody Hshape.
  pose proof (valid_links _ HV j p Hj) as Hp. rewrite HSj in Hp.
  destruct Hp as (c_ps & Hcp & Hap & Hbp & Hinp).
  pose proof (valid_links _ HV (S j) s HSj) as Hs. rewrite HSSj in Hs.
  destruct Hs as (c_st & Hcs & Has & Hbs & Hins).
  assert (s ∈ balls v) as Hsin by (apply list_elem_of_lookup; eauto).
  assert (p ∈ balls v) as Hpin by (apply list_elem_of_lookup; eauto).
  assert (p ≠ s) as Hps.
  { intros ->. pose proof (NoDup_lookup _ _ _ _ (valid_nodup _ HV) Hj HSj).
    lia. }
  destruct (remove_of_elem s (balls v) Hsin) as [l' Hl'].
  destruct (remove_nodup _ _ _ (valid_nodup _ HV) Hl') as [_ Hmem].
  set (v1 := set_col_detector (x, y) v).
  destruct (join_balls_Ok p t (IsBody (pymunk.b c_st)) v1)
    as (vj & Hjoin & Hbj & Hoj & Hcj & Hsj & _).
  { exact (valid_registered _ HV _ Hpin). }
  { exact Hbs. }
  change (fresh v1) with (fresh v) in Hoj, Hcj.
  change (obj v1 p) with (obj v p) in Hoj.
  change (the_space v1) with (the_space v) in Hcj.
  assert (constraint (obj vj s) = Some c_st) as Hcsj.
  { unfold obj. rewrite Hoj, lookup_total_insert_ne by done. exact Hcs. }
  assert (pymunk.cid c_st ≠ fresh v) as Hfr.
  { pose proof (valid_cid_ids _ HV _ Hins). lia. }
  assert (pymunk.has_constraint c_st (the_space vj) = true) as Hhas.
  { apply has_constraint_elem. rewrite Hcj. apply elem_of_app. by left. }
  destruct (remove_sprite_registered s (physics_engine v)
              (valid_registered _ HV _ Hsin) Hbody Hshape)
    as (pe & Hpe & Hnb & _ & Hcspe).
  exists c_ps, c_st.
  assert (∃ pe',
            arcade.remove_sprite s
              {| arcade.space :=
                   {| pymunk.bodies := pymunk.bodies (the_space vj);
                      pymunk.shapes := pymunk.shapes (the_space vj);
                      pymunk.constraints :=
                        filter (λ c, pymunk.cid c ≠ pymunk.cid c_st)
                          (pymunk.constraints (the_space vj)) |};
                 arcade.sprites := arcade.sprites (physics_engine vj) |}
            = Ok pe'
            ∧ (s ∉ pymunk.bodies (arcade.space pe'))
            ∧ pymunk.constraints (arcade.space pe')
              = filter (λ c, pymunk.cid c ≠ pymunk.cid c_st)
                  (pymunk.constraints (the_space vj))) as (pe' & Hpe' & Hnb' & Hcs').
  { join_inv Hjoin.
    destruct (remove_sprite_registered s
                {| arcade.space :=
                     {| pymunk.bodies := pymunk.bodies (the_space v);
                        pymunk.shapes := pymunk.shapes (the_space v);
                        pymunk.constraints :=
                          filter (λ c, pymunk.cid c ≠ pymunk.cid c_st)
                            (pymunk.constraints (the_space v)
                             ++ [pymunk.PinJoint (fresh v) p bd0]) |};
                   arcade.sprites := arcade.sprites (physics_engine v) |})
      as (pe' & Hpe' & Hnb' & _ & Hcs'); cbn; try done.
    { exact (valid_registered _ HV _ Hsin). }
    exists pe'. split; [exact Hpe'|]. split; [exact Hnb'|]. exact Hcs'. }
  eexists. split; [exact Hcp|].
  split; [by unfold pymunk.endpoints; rewrite Hap, Hbp|].
  split; [exact Hcs|].
  split; [by unfold pymunk.endpoints; rewrite Has, Hbs|].
  unfold press_middle. fold v1. cbn [balls set_col_detector v1]. rewrite Hhit.
  rewrite (index_nodup_lookup _ _ _ (valid_nodup _ HV) HSj). cbn [bind].
  replace (negb (Z.of_nat (S j) =? 0)) with true
    by (symmetry; apply negb_true_iff, Z.eqb_neq; lia).
  change (obj v1 s) with (obj v s). rewrite Hcs.
  replace (Z.of_nat (S j) - 1) with (Z.of_nat j) by lia.
  rewrite (getitem_nonneg _ _ _ Hj). cbn [bind]. rewrite Hjoin. cbn [bind].
  rewrite Hcsj. cbn [pymunk.remove_constraint]. rewrite Hhas. cbn [bind].
  cbn [balls set_space set_physics_engine]. rewrite Hbj.
  change (balls v1) with (balls v). rewrite Hl'. cbn [bind].
  cbn [physics_engine set_balls set_space set_physics_engine].
  rewrite Hpe'. cbn [bind]. split; [reflexivity|].
  assert (filter (λ c, pymunk.cid c ≠ pymunk.cid c_st)
            (pymunk.constraints (the_space vj))
          = filter (λ c, pymunk.cid c ≠ pymunk.cid c_st)
              (pymunk.constraints (the_space v))
            ++ [pymunk.PinJoint (fresh v) p t]) as Hfilter.
  { rewrite Hcj, filter_app. f_equal.
    rewrite filter_cons_True; [done|]. cbn. lia. }
  split; [by apply remove_length in Hl'|].
  split; [cbn; rewrite Hmem; tauto|].
  split; [exact Hnb'|].
  change (the_space (set_physics_engine pe' ?w)) with (arcade.space pe').
  rewrite Hcs', Hfilter.
  split; [done|]. split.
  - intros Hin. apply elem_of_app in Hin as [Hin|Hin].
    + apply list_elem_of_filter in Hin as [Hne _]. by apply Hne.
    + apply list_elem_of_singleton in Hin. rewrite Hin in Hfr. by apply Hfr.
  - apply elem_of_app. left. apply list_elem_of_filter. split; [|done].
    intros Heq.
    assert (c_ps = c_st) by (eapply nodup_cid_inj; [apply HV|..]; done).
    congruence.
Qed.

(** C1: the scenario of the claim, evaluated.  A middle click on the second
    ball of the constructed chain shortens the list to pin, ball 1, ball 3 and
    adds the bridging link 1-3, but of the two old links only 2-3 is taken
    out: the space then holds 0-1, 1-2 and 1-3, the link 1-2 still ending in
    the body of the removed ball. *)
Theorem interior_removal_keeps_predecessor_link :
  MyView_init = Ok init_view
  ∧ observe init_view
    = ([0; 1; 2; 3]%nat, [(0, 1); (1, 2); (2, 3)]%nat,
       [Some (0, 1); Some (1, 2); Some (2, 3); None]%nat,
       [0; 1; 2; 3]%nat, [0; 1; 2; 3]%nat)
  ∧ observed (on_mouse_press 600 300 arcade.MOUSE_BUTTON_MIDDLE 0
                (only 2%nat) init_view)
    = Ok ([0; 1; 3]%nat, [(0, 1); (1, 2); (1, 3)]%nat,
          [Some (0, 1); Some (1, 3); None]%nat,
          [0; 1; 3]%nat, [0; 1; 3]%nat).
Proof.
  split; [exact init_Ok|]. split; vm_compute; reflexivity.
Qed.

(** C7: removing the tail, evaluated.  A middle click on the last ball of the
    constructed chain creates no link and destroys none: the list becomes
    pin, ball 1, ball 2 and body 3 leaves the space, but the link 2-3 stays
    in the space and stays stored on ball 2. *)
Theorem tail_removal_keeps_predecessor_link :
  MyView_init = Ok init_view
  ∧ observed (on_mouse_press 650 300 arcade.MOUSE_BUTTON_MIDDLE 0
                (only 3%nat) init_view)
    = Ok ([0; 1; 2]%nat, [(0, 1); (1, 2); (2, 3)]%nat,
          [Some (0, 1); Some (1, 2); Some (2, 3)]%nat,
          [0; 1; 2]%nat, [0; 1; 2]%nat).
Proof. split; [exact init_Ok | vm_compute; reflexivity]. Qed.

(** * Further properties of the code *)

(** ** The trace buffer is a sliding window *)

Lemma moved_through_cons (p : pos) (ps : list pos) (bl : Ball) :
  moved_through (p :: ps) bl
  = moved_through ps (pymunk_moved (set_position p bl)).
Proof. reflexivity. Qed.

Lemma moved_through_traces (ps : list pos) (bl : Ball) :
  (1 ≤ length (traces bl))%nat →
  traces (moved_through ps bl) = drop (length ps) (traces bl ++ ps)
  ∧ length (traces (moved_through ps bl)) = length (traces bl).
Proof.
  revert bl. induction ps as [|p ps IH]; intros bl Hlen.
  - cbn [moved_through foldl length]. by rewrite app_nil_r, drop_0.
  - rewrite moved_through_cons.
    assert (traces (pymunk_moved (set_position p bl))
            = drop 1 (traces bl) ++ [p]) as Ht by reflexivity.
    destruct (traces bl) as [|q t] eqn:E; [simpl in Hlen; lia|].
    change (drop 1 (q :: t)) with t in Ht.
    destruct (IH (pymunk_moved (set_position p bl))) as [IH1 IH2].
    { rewrite Ht, length_app. simpl. lia. }
    split.
    + rewrite IH1, Ht. cbn [length app drop]. by rewrite <- (assoc_L (++)).
    + rewrite IH2, Ht, length_app. cbn [length]. lia.
Qed.

(** X1.  The trace buffer is a sliding window over the positions of the
    movement callbacks: after the callbacks for the positions [ps] a
    buffer of [TRACE_LENGTH] entries holds the old entries followed by [ps],
    without the first [length ps] of them, so its last entry is the latest
    position, and once [TRACE_LENGTH] or more callbacks have happened it
    holds exactly the last [TRACE_LENGTH] positions and nothing of the
    initial fill. *)
Theorem traces_hold_latest_positions (ps : list pos) (bl : Ball) :
  length (traces bl) = TRACE_LENGTH →
  traces (moved_through ps bl) = drop (length ps) (traces bl ++ ps)
  ∧ length (traces (moved_through ps bl)) = TRACE_LENGTH
  ∧ (∀ p, last ps = Some p → last (traces (moved_through ps bl)) = Some p)
  ∧ ((TRACE_LENGTH ≤ length ps)%nat →
     traces (moved_through ps bl) = drop (length ps - TRACE_LENGTH) ps).
Proof.
  intros Hlen.
  destruct (moved_through_traces ps bl) as [Ht Hl].
  { rewrite Hlen. unfold TRACE_LENGTH. lia. }
  split; [done|]. split; [congruence|]. split.
  - intros p Hp. apply last_Some in Hp as [ps' ->].
    rewrite Ht, length_app, (assoc_L (++)). cbn [length].
    rewrite drop_app_le by (rewrite length_app, Hlen; unfold TRACE_LENGTH; lia).
    apply last_snoc.
  - intros Hge. rewrite Ht, drop_app_ge by lia. by rewrite Hlen.
Qed.

Lemma traces_hold_latest_positions_witness :
  traces (moved_through [(1, 1); (2, 2)] (obj init_view 1%nat))
  = drop 2 (traces (obj init_view 1%nat) ++ [(1, 1); (2, 2)])
  ∧ last (traces (moved_through [(1, 1); (2, 2)] (obj init_view 1%nat)))
    = Some (2, 2).
Proof.
  assert (length (traces (obj init_view 1%nat)) = TRACE_LENGTH) as Hlen
    by (vm_compute; reflexivity).
  destruct (traces_hold_latest_positions [(1, 1); (2, 2)] _ Hlen)
    as (Ht & _ & Hlast & _).
  split; [exact Ht | by apply Hlast].
Defined.

(** ** The pause flag *)

Lemma join_balls_running (ball_a : nat) (ball_b : BallOrBody) (v v' : MyView) :
  join_balls ball_a ball_b v = Ok v' →
  running v' = running v ∧ col_detector v' = col_detector v.
Proof. intros H. join_inv H. by split. Qed.

Lemma create_ball_running (m : Z) (p : pos) (bt : pymunk.BodyType)
  (v v' : MyView) :
  create_ball m p bt v = Ok v' →
  running v' = running v ∧ col_detector v' = col_detector v.
Proof.
  unfold create_ball, new_Ball. intros H. inv_bind H as sv Hsv.
  inv_bind Hsv as bl Hbl. injection Hsv as <-. by injection H as <-.
Qed.

Lemma engine_step_running (solve : nat -> pos) (resynced : nat -> bool)
  (v : MyView) :
  running (engine_step solve resynced v) = running v.
Proof.
  unfold engine_step. generalize (arcade.sprites (physics_engine v)) as l.
  intros l. revert v. induction l as [|t l IH]; intros v; [done|].
  simpl. rewrite IH. by destruct (resynced t).
Qed.

Lemma on_mouse_press_running (x y button modifiers : Z)
  (collides : nat -> bool) (v v' : MyView) :
  on_mouse_press x y button modifiers collides v = Ok v' →
  running v' = running v.
Proof.
  unfold on_mouse_press.
  destruct (button =? arcade.MOUSE_BUTTON_LEFT).
  { unfold press_left.
    destruct (arcade.check_for_collision_with_list _ _);
      [by intros [= <-]|].
    intros H. inv_bind H as bd Hbd. by injection H as <-. }
  destruct (button =? arcade.MOUSE_BUTTON_RIGHT).
  { unfold press_right. intros H. inv_bind H as v1 Hv1.
    inv_bind H as ball_a Ha. inv_bind H as ball_b Hb.
    apply join_balls_running in H as [-> _].
    by apply create_ball_running in Hv1 as [-> _]. }
  destruct (button =? arcade.MOUSE_BUTTON_MIDDLE); [|by intros [= <-]].
  unfold press_middle.
  destruct (arcade.check_for_collision_with_list _ _) as [|s l];
    [by intros [= <-]|].
  intros H. inv_bind H as index Hindex.
  destruct (negb (index =? 0)); [|by injection H as <-].
  inv_bind H as v2 Hv2. inv_bind H as l' Hl'. inv_bind H as pe Hpe.
  injection H as <-.
  destruct (constraint (obj _ s)); [|by injection Hv2 as <-].
  inv_bind Hv2 as previous Hprev. inv_bind Hv2 as vj Hvj.
  inv_bind Hv2 as sp Hsp. injection Hv2 as <-.
  apply join_balls_running in Hvj as [Hr _]. exact Hr.
Qed.

Lemma on_mouse_release_running (x y button modifiers : Z) (v v' : MyView) :
  on_mouse_release x y button modifiers v = Ok v' → running v' = running v.
Proof.
  unfold on_mouse_release. destruct (attached v); [|by intros [= <-]].
  destruct (attached_sprite v) as [sprite|]; [|discriminate].
  intros H. inv_bind H as index Hindex. inv_bind H as previous Hprev.
  inv_bind H as sp Hsp. inv_bind H as v1 Hv1. inv_bind H as v2 Hv2.
  injection H as <-.
  apply join_balls_running in Hv1 as [Hr1 _].
  destruct (constraint (obj v1 sprite)).
  - inv_bind Hv2 as sp' Hsp'. apply join_balls_running in Hv2 as [Hr2 _].
    change (running v2 = running v). rewrite Hr2. exact Hr1.
  - injection Hv2 as <-. exact Hr1.
Qed.

Lemma dispatch_running (e : Event) (v v' : MyView) :
  dispatch e v = Ok v' →
  running v' = xorb (is_space_release e) (running v).
Proof.
  destruct e; cbn [dispatch is_space_release xorb].
  - intros [= <-]. unfold on_mouse_motion.
    by destruct (attached_sprite (set_col_detector (x, y) v)).
  - apply on_mouse_press_running.
  - by intros [= <-].
  - apply on_mouse_release_running.
  - intros [= <-]. unfold on_key_release.
    destruct (symbol =? arcade.key_SPACE); [|done].
    cbn [running set_running]. by destruct (running v).
  - intros [= <-]. unfold on_update.
    destruct (attached v) as [bd|].
    + change (running (mutate bd (set_body_position (col_detector v)) v))
        with (running v).
      destruct (running v) eqn:E; [|done].
      by rewrite engine_step_running.
    + destruct (running v) eqn:E; [|done].
      by rewrite engine_step_running.
Qed.

(** X2.  The simulation starts paused, and only releasing the space bar
    changes the pause flag: after any sequence of events the simulation runs
    exactly when the space bar was released an odd number of times; a key
    other than space changes nothing. *)
Theorem running_counts_space_releases (es : list Event) (v : MyView) :
  run es init_view = Ok v →
  running init_view = false
  ∧ running v = space_toggles es
  ∧ (∀ symbol modifiers,
       symbol ≠ arcade.key_SPACE → on_key_release symbol modifiers v = v)
  ∧ (∀ modifiers,
       running (on_key_release arcade.key_SPACE modifiers v)
       = negb (running v)).
Proof.
  intros Hrun.
  assert (running init_view = false) as H0 by (vm_compute; reflexivity).
  split; [done|]. split.
  - assert (∀ es w w', run es w = Ok w' →
              running w' = xorb (space_toggles es) (running w)) as Hgen.
    { clear. induction es as [|e es IH]; intros w w' H.
      - by injection H as <-.
      - cbn [run] in H. inv_bind H as w1 Hw1. cbn [space_toggles].
        rewrite (IH _ _ H), (dispatch_running _ _ _ Hw1).
        by destruct (is_space_release e), (space_toggles es), (running w). }
    rewrite (Hgen _ _ _ Hrun), H0. by destruct (space_toggles es).
  - split.
    + intros symbol modifiers Hne. unfold on_key_release.
      destruct (Z.eqb_spec symbol arcade.key_SPACE) as [He|He];
        [contradiction | reflexivity].
    + intros modifiers. reflexivity.
Qed.

Lemma running_counts_space_releases_witness :
  running (on_key_release 32 0
             (on_mouse_scroll 0 0 0 3 (on_key_release 32 0
                (on_key_release 32 0 init_view))))
  = true.
Proof.
  assert (run [KeyRelease 32 0; KeyRelease 32 0; MouseScroll 0 0 0 3;
               KeyRelease 32 0] init_view
          = Ok (on_key_release 32 0
                  (on_mouse_scroll 0 0 0 3 (on_key_release 32 0
                     (on_key_release 32 0 init_view))))) as Hrun
    by reflexivity.
  exact (proj1 (proj2 (running_counts_space_releases _ _ Hrun))).
Defined.

(** ** Events that do not edit the chain *)

Lemma keeps_traces_mutate (s : nat) (f : Ball -> Ball) (v : MyView) :
  (∀ bl, traces (f bl) = traces bl) → keeps_traces v (mutate s f v).
Proof.
  intros Hf t bl Ht. rewrite objects_mutate. case_decide; [|eauto].
  subst t. eexists. split; [done|]. by rewrite Hf, (obj_allocated _ _ _ Ht).
Qed.

Lemma keeps_traces_paused (e : Event) (v v' : MyView) :
  Inv v → running v = false → is_space_release e = false →
  dispatch e v = Ok v' → keeps_traces v v'.
Proof.
  intros HI Hr He. destruct e; cbn [dispatch].
  - intros [= <-]. unfold on_mouse_motion.
    destruct (attached_sprite (set_col_detector (x, y) v)) as [s|];
      [|exact (keeps_traces_refl v)].
    apply (keeps_traces_trans _ (set_col_detector (x, y) v));
      [exact (keeps_traces_refl v)|].
    by apply keeps_traces_mutate.
  - by apply keeps_traces_press.
  - intros [= <-]. exact (keeps_traces_refl v).
  - apply keeps_traces_release.
  - intros [= <-]. cbn [is_space_release] in He. unfold on_key_release.
    rewrite He. apply keeps_traces_refl.
  - intros [= <-]. unfold on_update. destruct (attached v) as [bd|].
    + change (running (mutate bd (set_body_position (col_detector v)) v))
        with (running v).
      rewrite Hr. by apply keeps_traces_mutate.
    + rewrite Hr. apply keeps_traces_refl.
Qed.

(** X3.  While the simulation is paused no trace is recorded: from a reachable
    state in which [running] is false, any sequence of events without a
    release of the space bar leaves the simulation paused and every existing
    trace buffer as it was, whatever is created, grabbed, dragged, released
    or removed meanwhile. *)
Theorem paused_events_keep_traces (es0 es : list Event) (v v' : MyView) :
  run es0 init_view = Ok v → running v = false →
  forallb (λ e, negb (is_space_release e)) es = true →
  run es v = Ok v' →
  running v' = false ∧ keeps_traces v v'.
Proof.
  intros H0. apply Inv_reachable in H0. clear es0.
  revert v H0. induction es as [|e es IH]; intros v HI Hr Hes Hrun.
  - injection Hrun as <-. split; [done | apply keeps_traces_refl].
  - cbn [forallb] in Hes. apply andb_true_iff in Hes as [He Hes].
    apply negb_true_iff in He.
    cbn [run] in Hrun. inv_bind Hrun as v1 Hv1.
    assert (running v1 = false) as Hr1.
    { rewrite (dispatch_running _ _ _ Hv1), He, Hr. done. }
    destruct (IH v1 (Inv_dispatch _ _ _ HI Hv1) Hr1 Hes Hrun) as [Hr' Hk].
    split; [done|].
    eapply keeps_traces_trans; [|exact Hk].
    by eapply keeps_traces_paused.
Qed.

Lemma paused_events_keep_traces_witness :
  keeps_traces init_view
    (on_update (λ _, (0, 0)) (λ _, true)
       (on_mouse_motion 7 7 0 0 (on_key_release 65 0 init_view))).
Proof.
  assert (run [KeyRelease 65 0; MouseMotion 7 7 0 0;
               Update (λ _, (0, 0)) (λ _, true)] init_view
          = Ok (on_update (λ _, (0, 0)) (λ _, true)
                  (on_mouse_motion 7 7 0 0 (on_key_release 65 0 init_view))))
    as Hrun by reflexivity.
  assert (run [] init_view = Ok init_view) as H0 by reflexivity.
  assert (running init_view = false) as Hr by (vm_compute; reflexivity).
  assert (forallb (λ e, negb (is_space_release e))
            [KeyRelease 65 0; MouseMotion 7 7 0 0;
             Update (λ _, (0, 0)) (λ _, true)] = true) as Hes
    by (vm_compute; reflexivity).
  exact (proj2 (paused_events_keep_traces _ _ _ _ H0 Hr Hes Hrun)).
Defined.

(** X4.  Cursor motion, scrolling, key releases and frame updates never
    fail and never edit the chain: whatever the state, a sequence of such
    events runs to the end and leaves the sprite list, the engine and its
    space, the links stored on the balls and the grabbed ball as they
    were. *)
Theorem passive_events_keep_chain (es : list Event) (v : MyView) :
  forallb is_passive es = true →
  ∃ v', run es v = Ok v' ∧ same_chain v v'
        ∧ balls v' = balls v ∧ links v' = links v
        ∧ ∀ s, own_link v' s = own_link v s.
Proof.
  intros Hes.
  assert (∃ v', run es v = Ok v' ∧ same_chain v v') as (v' & Hrun & Hsc).
  { revert v. induction es as [|e es IH]; intros v.
    - exists v. split; [done | apply same_chain_refl].
    - cbn [forallb] in Hes. apply andb_true_iff in Hes as [He Hes].
      assert (∃ v1, dispatch e v = Ok v1 ∧ same_chain v v1)
        as (v1 & Hv1 & Hs1).
      { destruct e; try discriminate; cbn [dispatch]; eexists;
          (split; [reflexivity|]).
        - apply same_chain_on_mouse_motion.
        - by split.
        - unfold on_key_release. destruct (symbol =? arcade.key_SPACE);
            by split.
        - apply same_chain_on_update. }
      destruct (IH Hes v1) as (v' & Hr & Hs).
      exists v'. cbn [run]. rewrite Hv1. split; [exact Hr|].
      eapply same_chain_trans; [exact Hs1 | exact Hs]. }
  exists v'. split; [done|]. split; [done|].
  split; [apply Hsc|]. by apply same_chain_links.
Qed.

Lemma passive_events_keep_chain_witness :
  ∃ v', run [MouseScroll 0 0 0 5; KeyRelease 32 0;
             Update (λ _, (1, 1)) (λ _, true); MouseMotion 3 4 1 1]
          init_view = Ok v'
        ∧ links v' = links init_view.
Proof.
  assert (forallb is_passive
            [MouseScroll 0 0 0 5; KeyRelease 32 0;
             Update (λ _, (1, 1)) (λ _, true); MouseMotion 3 4 1 1] = true)
    as Hes by reflexivity.
  destruct (passive_events_keep_chain _ init_view Hes)
    as (v' & Hrun & _ & _ & Hl & _).
  exists v'. split; [exact Hrun | exact Hl].
Defined.

(** ** The cursor *)

(** X5.  Of a series of cursor motions only the last one counts: two motions
    in a row leave the state the second alone would leave.  After a motion
    the cursor circle is at the given place and so is the grabbed sprite,
    while its body stays where it was; the body follows at the next frame
    update, which, the simulation paused, puts it at the cursor. *)
Theorem mouse_motion_last_wins (x1 y1 dx1 dy1 x2 y2 dx2 dy2 : Z) (v : MyView) :
  on_mouse_motion x2 y2 dx2 dy2 (on_mouse_motion x1 y1 dx1 dy1 v)
  = on_mouse_motion x2 y2 dx2 dy2 v
  ∧ col_detector (on_mouse_motion x1 y1 dx1 dy1 v) = (x1, y1)
  ∧ (∀ s, attached_sprite v = Some s →
       position (obj (on_mouse_motion x1 y1 dx1 dy1 v) s) = (x1, y1)
       ∧ body_position (obj (on_mouse_motion x1 y1 dx1 dy1 v) s)
         = body_position (obj v s))
  ∧ (∀ bd solve resynced, attached v = Some bd → running v = false →
       body_position (obj (on_update solve resynced v) bd) = col_detector v).
Proof.
  split; [|split; [|split]].
  - unfold on_mouse_motion.
    change (attached_sprite (set_col_detector (x1, y1) v))
      with (attached_sprite v).
    destruct (attached_sprite v) as [s|] eqn:E.
    + change (attached_sprite
                (set_col_detector (x2, y2)
                   (mutate s (set_position (x1, y1))
                      (set_col_detector (x1, y1) v))))
        with (attached_sprite v).
      change (attached_sprite (set_col_detector (x2, y2) v))
        with (attached_sprite v).
      rewrite E. unfold mutate, obj.
      cbn [objects set_objects set_col_detector].
      rewrite lookup_total_insert_eq, insert_insert_eq. reflexivity.
    + change (attached_sprite
                (set_col_detector (x2, y2) (set_col_detector (x1, y1) v)))
        with (attached_sprite v).
      change (attached_sprite (set_col_detector (x2, y2) v))
        with (attached_sprite v).
      by rewrite E.
  - unfold on_mouse_motion.
    by destruct (attached_sprite (set_col_detector (x1, y1) v)).
  - intros s Hs. unfold on_mouse_motion.
    change (attached_sprite (set_col_detector (x1, y1) v))
      with (attached_sprite v). rewrite Hs.
    rewrite obj_mutate. case_decide; [|done]. by split.
  - intros bd solve resynced Hbd Hr. unfold on_update. rewrite Hbd.
    change (running (mutate bd (set_body_position (col_detector v)) v))
      with (running v). rewrite Hr.
    rewrite obj_mutate. case_decide; [|done]. reflexivity.
Qed.

Lemma mouse_motion_last_wins_witness :
  position (obj (on_mouse_motion 5 6 0 0
                   (set_attached (Some 2%nat) (Some 2%nat) init_view))
              2%nat) = (5, 6).
Proof.
  apply (proj1 (proj2 (proj2 (mouse_motion_last_wins 5 6 0 0 0 0 0 0
                                (set_attached (Some 2%nat) (Some 2%nat)
                                   init_view)))) 2%nat).
  reflexivity.
Defined.

(** ** Bulk creation *)

Lemma create_each_app (l1 l2 : list (Z * pos)) (bt : pymunk.BodyType)
  (v : MyView) :
  create_each (l1 ++ l2) bt v
  = let! v1 := create_each l1 bt v in create_each l2 bt v1.
Proof.
  revert v. induction l1 as [|[m p] l1 IH]; intros v; [done|].
  cbn [app create_each]. destruct (create_ball m p bt v) as [v1|e]; [|done].
  cbn [bind]. apply IH.
Qed.

Lemma create_ball_raises (m : Z) (p : pos) (bt : pymunk.BodyType)
  (v : MyView) :
  (m < 0 → Z.abs m < FLOAT_LIMIT → create_ball m p bt v = Raise ValueError)
  ∧ (FLOAT_LIMIT ≤ Z.abs m → create_ball m p bt v = Raise OverflowError).
Proof.
  unfold create_ball, new_Ball, Ball_init. split.
  - intros Hm Ha. destruct (Z.leb_spec FLOAT_LIMIT (Z.abs m)); [lia|].
    destruct (Z.ltb_spec m 0); [done | lia].
  - intros Ha. destruct (Z.leb_spec FLOAT_LIMIT (Z.abs m)); [done | lia].
Qed.

Lemma small_mass_in_range (m : Z) :
  (0 <? m) && (m <=? 10000) = true → mass_in_range m = true.
Proof.
  intros H. apply andb_true_iff in H as [H0 H1].
  apply Z.ltb_lt in H0. apply Z.leb_le in H1.
  assert (100000000 < FLOAT_LIMIT) as Hbig by (vm_compute; reflexivity).
  unfold mass_in_range. apply andb_true_iff.
  split; apply Z.ltb_lt; [lia | nia].
Qed.

Lemma create_each_small (masses : list Z) (positions : list pos)
  (bt : pymunk.BodyType) (v : MyView) :
  forallb (λ m, (0 <? m) && (m <=? 10000)) masses = true →
  ∃ v', create_each (zip masses positions) bt v = Ok v'.
Proof.
  revert positions v.
  induction masses as [|m ms IH]; intros [|p ps] v Hall;
    try (by exists v).
  cbn [forallb] in Hall. apply andb_true_iff in Hall as [Hm Hall].
  cbn [zip zip_with create_each].
  destruct (Ball_init_in_range m p bt (small_mass_in_range m Hm)) as [bl Hbl].
  unfold create_ball, new_Ball. rewrite Hbl. cbn [bind]. by apply IH.
Qed.

(** X6.  [create_balls] rejects its arguments in these ways: lists of
    different lengths fail the assertion before anything is created; with
    lists of equal length, the masses before index [k] being between 1 and
    10000, a negative mass at index [k] makes the construction of that ball
    raise [ValueError] (the square root in the radius) and a mass too large
    in magnitude for a float makes it raise [OverflowError], so that no ball
    is joined. *)
Theorem create_balls_rejects (masses : list Z) (positions : list pos)
  (bt : pymunk.BodyType) (v : MyView) :
  (length masses ≠ length positions →
   create_balls masses positions bt v = Raise AssertionError)
  ∧ (∀ k m,
       length masses = length positions →
       masses !! k = Some m →
       forallb (λ m', (0 <? m') && (m' <=? 10000)) (take k masses) = true →
       (m < 0 → Z.abs m < FLOAT_LIMIT →
        create_balls masses positions bt v = Raise ValueError)
       ∧ (FLOAT_LIMIT ≤ Z.abs m →
          create_balls masses positions bt v = Raise OverflowError)).
Proof.
  unfold create_balls. split.
  - intros Hne. apply Nat.eqb_neq in Hne. by rewrite Hne.
  - intros k m Hlen Hk Hsmall.
    destruct (create_each_small (take k masses) (take k positions) bt v
                Hsmall) as [v1 Hpre].
    assert (Nat.eqb (length masses) (length positions) = true) as ->
      by (by apply Nat.eqb_eq).
    cbn [negb].
    assert (∃ p, positions !! k = Some p) as [p Hp].
    { apply lookup_lt_is_Some. rewrite <- Hlen.
      by eapply lookup_lt_Some. }
    assert (create_each (zip masses positions) bt v
            = let! v2 := create_ball m p bt v1 in
              create_each (zip (drop (S k) masses) (drop (S k) positions))
                bt v2) as ->.
    { rewrite <- (take_drop k masses) at 1.
      rewrite <- (take_drop k positions) at 1.
      rewrite zip_with_app
        by (rewrite !length_take; lia).
      rewrite create_each_app, Hpre. cbn [bind].
      by rewrite (drop_S _ _ _ Hk), (drop_S _ _ _ Hp). }
    destruct (create_ball_raises m p bt v1) as [Hv Ho].
    split.
    + intros Hm Ha. by rewrite Hv.
    + intros Ha. by rewrite Ho.
Qed.

Lemma create_balls_rejects_witness :
  create_balls [10; 15] [(500, 300)] pymunk.DYNAMIC anchor_view
  = Raise AssertionError
  ∧ create_balls [10; -4; 20] [(500, 300); (600, 300); (650, 300)]
      pymunk.DYNAMIC anchor_view
    = Raise ValueError.
Proof.
  split.
  - apply (proj1 (create_balls_rejects [10; 15] [(500, 300)]
                    pymunk.DYNAMIC anchor_view)).
    simpl. lia.
  - apply (proj1 (proj2 (create_balls_rejects [10; -4; 20]
                           [(500, 300); (600, 300); (650, 300)]
                           pymunk.DYNAMIC anchor_view)
                   1%nat (-4) eq_refl eq_refl eq_refl)).
    + lia.
    + vm_compute. reflexivity.
Defined.

(** X7.  [create_balls] joins every ball of the sprite list, not only the new
    ones: a call on a valid chain that returns has appended the new balls
    and added one link per pair of consecutive balls of the whole resulting
    list, the links already in the space staying there.  So every pair that
    was linked before the call is linked twice after it. *)
Theorem create_balls_relinks_whole_list (masses : list Z)
  (positions : list pos) (v v' : MyView) :
  valid v →
  create_balls masses positions pymunk.DYNAMIC v = Ok v' →
  balls v' = balls v ++ seq (fresh v) (length masses)
  ∧ links v' = links v ++ chain_links v'
  ∧ (∀ ab, ab ∈ chain_links v → ab ∈ links v ∧ ab ∈ chain_links v').
Proof.
  intros HV Hc.
  destruct (create_balls_joins_list masses positions pymunk.DYNAMIC v v')
    as [Hb Hl];
    [apply HV | apply HV | | done |].
  { intros s Hs. split; [by apply (valid_registered _ HV)
                        | by apply (valid_ball_ids _ HV)]. }
  split; [done|]. split; [done|].
  intros [a b] Hab. unfold chain_links in Hab.
  apply list_elem_of_lookup in Hab as [i Hi].
  destruct (zip_tail_lookup _ _ _ _ Hi) as [Ha Hb2].
  split.
  - pose proof (valid_links _ HV i a Ha) as Hsl. rewrite Hb2 in Hsl.
    destruct Hsl as (c & _ & Hca & Hcb & Hin).
    unfold links. apply list_elem_of_fmap. exists c. split; [|done].
    unfold pymunk.endpoints. by rewrite Hca, Hcb.
  - unfold chain_links. rewrite Hb.
    apply list_elem_of_lookup. exists i.
    apply lookup_zip_with_Some. exists a, b. split; [done|]. split.
    + by apply lookup_app_l_Some.
    + rewrite lookup_tail. by apply lookup_app_l_Some.
Qed.

Lemma create_balls_relinks_whole_list_witness :
  ∃ v', create_balls [5] [(100, 100)] pymunk.DYNAMIC init_view = Ok v'
        ∧ links v' = links init_view ++ chain_links v'.
Proof.
  assert (is_ok (create_balls [5] [(100, 100)] pymunk.DYNAMIC init_view)
          = true) as Hok by (vm_compute; reflexivity).
  destruct (create_balls [5] [(100, 100)] pymunk.DYNAMIC init_view)
    as [v'|e] eqn:Hc; [|discriminate].
  exists v'. split; [reflexivity|].
  refine (proj1 (proj2 (create_balls_relinks_whole_list [5] [(100, 100)]
                          init_view v' _ Hc))).
  apply valid_b_sound. vm_compute. reflexivity.
Defined.

(** ** The ball a right click creates *)

(** X8.  In every reachable state a right click creates one new object: a
    dynamic ball of the configured mass whose sprite and body are at the
    click, whose trace buffer is [TRACE_LENGTH] copies of that place and
    which stores no link; it is last in the sprite list, registered with the
    engine and its body is in the space.  The cursor circle is not moved by
    a right click, and no other object changes except for the link stored on
    the previous tail. *)
Theorem right_click_creates_configured_ball (es : list Event) (v v' : MyView)
  (x y modifiers : Z) (collides : nat -> bool) :
  run es init_view = Ok v →
  on_mouse_press x y arcade.MOUSE_BUTTON_RIGHT modifiers collides v = Ok v' →
  objects v !! fresh v = None
  ∧ objects v' !! fresh v
    = Some {| mass := current_ball_mass v; position := (x, y);
              constraint := None; traces := repeat (x, y) TRACE_LENGTH;
              body_type := pymunk.DYNAMIC; body_position := (x, y) |}
  ∧ last (balls v') = Some (fresh v)
  ∧ registered_in v' (fresh v)
  ∧ fresh v ∈ pymunk.bodies (the_space v')
  ∧ col_detector v' = col_detector v
  ∧ (∀ s t, last (balls v) = Some t → s ≠ t → s ≠ fresh v →
            objects v' !! s = objects v !! s).
Proof.
  intros Hrun Hp. pose proof (Inv_reachable _ _ Hrun) as HI.
  destruct (Inv_last _ HI) as (t & Hlast & Hreg).
  assert (objects v !! fresh v = None) as Hnone.
  { destruct (objects v !! fresh v) eqn:E; [|done].
    assert (allocated v (fresh v)) as Ha by (unfold allocated; eauto).
    apply (inv_store _ HI) in Ha. lia. }
  assert (t ≠ fresh v) as Hne.
  { intros ->. apply (inv_sprites _ HI) in Hreg.
    apply (inv_store _ HI) in Hreg. lia. }
  change (on_mouse_press x y arcade.MOUSE_BUTTON_RIGHT modifiers collides v)
    with (press_right x y v) in Hp.
  destruct (press_right_Ok x y v t (press_right_mass _ _ _ _ Hp) Hlast Hreg)
    as (bl & w & Hbl & Hw & Hb & Hcs & Hs & Hf & Ho & Hcp & _).
  rewrite Hw in Hp. injection Hp as <-.
  assert (bl = {| mass := current_ball_mass v; position := (x, y);
                  constraint := None; traces := repeat (x, y) TRACE_LENGTH;
                  body_type := pymunk.DYNAMIC; body_position := (x, y) |})
    as Hbl'.
  { by apply Ball_init_record in Hbl. }
  split; [done|]. split.
  { rewrite Ho, lookup_insert_ne by done.
    by rewrite lookup_insert_eq, Hbl'. }
  split; [by rewrite Hb, last_snoc|].
  split; [unfold registered_in; rewrite Hs; apply elem_of_app; right;
          by left|].
  unfold press_right in Hw. inv_bind Hw as v1 Hv1.
  inv_bind Hw as ball_a Ha. inv_bind Hw as ball_b Hbb.
  pose proof (join_balls_frame _ _ _ _ Hw) as (_ & _ & _ & Hbd & _).
  pose proof (join_balls_running _ _ _ _ Hw) as [_ Hcd].
  pose proof (create_ball_running _ _ _ _ _ Hv1) as [_ Hcd1].
  split.
  { rewrite Hbd. unfold create_ball, new_Ball in Hv1.
    inv_bind Hv1 as sv Hsv. inv_bind Hsv as bl1 Hbl1.
    injection Hsv as <-. injection Hv1 as <-.
    cbn. apply elem_of_app. right. by left. }
  split; [congruence|].
  intros s t' Ht' Hst Hsf. rewrite Hlast in Ht'. injection Ht' as <-.
  rewrite Ho. by rewrite !lookup_insert_ne by done.
Qed.

Lemma right_click_creates_configured_ball_witness :
  ∃ v',
    on_mouse_press 70 80 arcade.MOUSE_BUTTON_RIGHT 0 (only 0%nat)
      (on_mouse_scroll 0 0 0 6 init_view) = Ok v'
    ∧ objects v' !! 7%nat
      = Some {| mass := 16; position := (70, 80);
                constraint := None; traces := repeat (70, 80) TRACE_LENGTH;
                body_type := pymunk.DYNAMIC; body_position := (70, 80) |}.
Proof.
  assert (run [MouseScroll 0 0 0 6] init_view
          = Ok (on_mouse_scroll 0 0 0 6 init_view)) as Hrun by reflexivity.
  destruct (press_right_Ok 70 80 (on_mouse_scroll 0 0 0 6 init_view) 3%nat)
    as (bl & v' & _ & Hp & _).
  { vm_compute. reflexivity. }
  { vm_compute. reflexivity. }
  { unfold registered_in. vm_compute. repeat constructor. }
  exists v'. split; [exact Hp|].
  pose proof (proj1 (proj2 (right_click_creates_configured_ball _ _ _
                              70 80 0 (only 0%nat) Hrun Hp))) as H.
  assert (fresh (on_mouse_scroll 0 0 0 6 init_view) = 7%nat) as Hf
    by (vm_compute; reflexivity).
  assert (current_ball_mass (on_mouse_scroll 0 0 0 6 init_view) = 16) as Hm
    by (vm_compute; reflexivity).
  rewrite Hf, Hm in H. exact H.
Defined.

(** ** Grabbing and letting go *)

Lemma create_ball_attached (m : Z) (p : pos) (bt : pymunk.BodyType)
  (v v' : MyView) :
  create_ball m p bt v = Ok v' →
  attached v' = attached v ∧ attached_sprite v' = attached_sprite v.
Proof.
  unfold create_ball, new_Ball. intros H. inv_bind H as sv Hsv.
  inv_bind Hsv as bl Hbl. injection Hsv as <-. by injection H as <-.
Qed.

Lemma join_balls_attached (ball_a : nat) (ball_b : BallOrBody)
  (v v' : MyView) :
  join_balls ball_a ball_b v = Ok v' →
  attached v' = attached v ∧ attached_sprite v' = attached_sprite v.
Proof.
  intros H. apply join_balls_frame in H as (_ & _ & _ & _ & Ha & Hs & _).
  by split.
Qed.

Lemma on_mouse_press_attached (x y button modifiers : Z)
  (collides : nat -> bool) (v v' : MyView) :
  attached v = attached_sprite v →
  on_mouse_press x y button modifiers collides v = Ok v' →
  attached v' = attached_sprite v'.
Proof.
  intros Heq. unfold on_mouse_press.
  destruct (button =? arcade.MOUSE_BUTTON_LEFT).
  { unfold press_left.
    destruct (arcade.check_for_collision_with_list _ _) as [|s l];
      [by intros [= <-]|].
    intros H. inv_bind H as bd Hbd. injection H as <-.
    apply get_body_Ok in Hbd as [-> _]. reflexivity. }
  destruct (button =? arcade.MOUSE_BUTTON_RIGHT).
  { unfold press_right. intros H. inv_bind H as v1 Hv1.
    inv_bind H as ball_a Ha. inv_bind H as ball_b Hb.
    apply join_balls_attached in H as [-> ->].
    by apply create_ball_attached in Hv1 as [-> ->]. }
  destruct (button =? arcade.MOUSE_BUTTON_MIDDLE); [|by intros [= <-]].
  unfold press_middle.
  destruct (arcade.check_for_collision_with_list _ _) as [|s l];
    [by intros [= <-]|].
  intros H. inv_bind H as index Hindex.
  destruct (negb (index =? 0)); [|by injection H as <-].
  inv_bind H as v2 Hv2. inv_bind H as l' Hl'. inv_bind H as pe Hpe.
  injection H as <-.
  change (attached v2 = attached_sprite v2).
  destruct (constraint (obj _ s)); [|by injection Hv2 as <-].
  inv_bind Hv2 as previous Hprev. inv_bind Hv2 as vj Hvj.
  inv_bind Hv2 as sp Hsp. injection Hv2 as <-.
  apply join_balls_attached in Hvj as [Ha Hs].
  change (attached vj = attached_sprite vj). rewrite Ha, Hs. exact Heq.
Qed.

Lemma on_mouse_release_clears (x y button modifiers : Z) (v v' : MyView) :
  on_mouse_release x y button modifiers v = Ok v' →
  attached v' = None
  ∧ (attached v = attached_sprite v → attached_sprite v' = None).
Proof.
  unfold on_mouse_release. destruct (attached v) eqn:E.
  - destruct (attached_sprite v) as [sprite|]; [|discriminate].
    intros H. inv_bind H as index Hindex. inv_bind H as previous Hprev.
    inv_bind H as sp Hsp. inv_bind H as v1 Hv1. inv_bind H as v2 Hv2.
    by injection H as <-.
  - intros [= <-]. split; [done|]. intros <-. done.
Qed.

Lemma dispatch_attached (e : Event) (v v' : MyView) :
  attached v = attached_sprite v → dispatch e v = Ok v' →
  attached v' = attached_sprite v'.
Proof.
  intros Heq. destruct e; cbn [dispatch].
  - intros [= <-].
    destruct (same_chain_on_mouse_motion x y dx dy v). congruence.
  - by apply on_mouse_press_attached.
  - by intros [= <-].
  - intros H. apply on_mouse_release_clears in H as [-> H].
    by rewrite H.
  - intros [= <-]. unfold on_key_release.
    by destruct (symbol =? arcade.key_SPACE).
  - intros [= <-].
    destruct (same_chain_on_update solve resynced v). congruence.
Qed.

(** X9.  The grabbed body and the grabbed sprite are set and cleared
    together: in every reachable state [attached] is the body of
    [attached_sprite], or both are [None].  A release that succeeds clears
    both, so a second release changes nothing, and a release with nothing
    grabbed changes nothing either. *)
Theorem grab_set_and_cleared_together (es : list Event) (v : MyView) :
  run es init_view = Ok v →
  attached v = attached_sprite v
  ∧ (attached v = None →
     ∀ x y button modifiers, on_mouse_release x y button modifiers v = Ok v)
  ∧ (∀ x y button modifiers v',
       on_mouse_release x y button modifiers v = Ok v' →
       attached v' = None ∧ attached_sprite v' = None
       ∧ ∀ x' y' button' modifiers',
           on_mouse_release x' y' button' modifiers' v' = Ok v').
Proof.
  intros Hrun.
  assert (attached v = attached_sprite v) as Heq.
  { assert (attached init_view = attached_sprite init_view) as H0
      by (vm_compute; reflexivity).
    revert H0 Hrun. generalize init_view as w. clear.
    induction es as [|e es IH]; intros w H0 Hrun.
    - by injection Hrun as <-.
    - cbn [run] in Hrun. inv_bind Hrun as w1 Hw1.
      apply (IH w1); [|done]. by eapply dispatch_attached. }
  split; [done|]. split.
  - intros Hnone x y button modifiers. unfold on_mouse_release.
    by rewrite Hnone.
  - intros x y button modifiers v' Hrel.
    apply on_mouse_release_clears in Hrel as [Ha Hs].
    specialize (Hs Heq). split; [done|]. split; [done|].
    intros x' y' button' modifiers'. unfold on_mouse_release.
    by rewrite Ha.
Qed.

Lemma grab_set_and_cleared_together_witness :
  attached (set_attached (Some 2%nat) (Some 2%nat)
              (set_col_detector (600, 300) init_view))
  = attached_sprite (set_attached (Some 2%nat) (Some 2%nat)
                       (set_col_detector (600, 300) init_view)).
Proof.
  assert (run [MousePress 600 300 arcade.MOUSE_BUTTON_LEFT 0 (only 2%nat)]
            init_view
          = Ok (set_attached (Some 2%nat) (Some 2%nat)
                  (set_col_detector (600, 300) init_view))) as Hrun
    by (vm_compute; reflexivity).
  exact (proj1 (grab_set_and_cleared_together _ _ Hrun)).
Defined.

(** ** A grabbed ball that is removed *)

Lemma index_not_elem (x : nat) (l : list nat) :
  x ∉ l → pylist.index x l = Raise ValueError.
Proof.
  induction l as [|y l IH]; intros Hx; [done|].
  apply not_elem_of_cons in Hx as [Hne Hx]. cbn [pylist.index].
  destruct (Nat.eqb_spec y x); [congruence|]. by rewrite IH.
Qed.

(** X10.  A release while the grabbed sprite is no longer in the sprite list
    raises [ValueError] (from [index], the first thing the handler does);
    this happens when the ball is removed by a middle click while it is
    held. *)
Theorem release_of_removed_ball_raises (x y button modifiers : Z)
  (v : MyView) (bd s : nat) :
  attached v = Some bd → attached_sprite v = Some s → s ∉ balls v →
  on_mouse_release x y button modifiers v = Raise ValueError.
Proof.
  intros Ha Hs Hnot. unfold on_mouse_release. rewrite Ha, Hs.
  by rewrite index_not_elem.
Qed.

Lemma release_of_removed_ball_raises_witness :
  is_ok (run [MousePress 600 300 arcade.MOUSE_BUTTON_LEFT 0 (only 2%nat);
              MousePress 600 300 arcade.MOUSE_BUTTON_MIDDLE 0 (only 2%nat)]
           init_view) = true
  ∧ run [MousePress 600 300 arcade.MOUSE_BUTTON_LEFT 0 (only 2%nat);
         MousePress 600 300 arcade.MOUSE_BUTTON_MIDDLE 0 (only 2%nat);
         MouseRelease 600 300 arcade.MOUSE_BUTTON_LEFT 0] init_view
    = Raise ValueError.
Proof.
  split; [vm_compute; reflexivity|].
  change [MousePress 600 300 arcade.MOUSE_BUTTON_LEFT 0 (only 2%nat);
          MousePress 600 300 arcade.MOUSE_BUTTON_MIDDLE 0 (only 2%nat);
          MouseRelease 600 300 arcade.MOUSE_BUTTON_LEFT 0]
    with ([MousePress 600 300 arcade.MOUSE_BUTTON_LEFT 0 (only 2%nat);
           MousePress 600 300 arcade.MOUSE_BUTTON_MIDDLE 0 (only 2%nat)]
          ++ [MouseRelease 600 300 arcade.MOUSE_BUTTON_LEFT 0]).
  rewrite run_app.
  assert (match run [MousePress 600 300 arcade.MOUSE_BUTTON_LEFT 0
                       (only 2%nat);
                     MousePress 600 300 arcade.MOUSE_BUTTON_MIDDLE 0
                       (only 2%nat)] init_view with
          | Ok v => (attached v, attached_sprite v,
                     bool_decide (2%nat ∈ balls v))
          | Raise _ => (None, None, true)
          end = (Some 2%nat, Some 2%nat, false)) as Hv
    by (vm_compute; reflexivity).
  destruct (run [MousePress 600 300 arcade.MOUSE_BUTTON_LEFT 0 (only 2%nat);
                 MousePress 600 300 arcade.MOUSE_BUTTON_MIDDLE 0
                   (only 2%nat)] init_view) as [v|e]; [|discriminate].
  injection Hv as Ha Hs Hnot. apply bool_decide_eq_false in Hnot.
  cbn [bind run dispatch].
  by rewrite (release_of_removed_ball_raises _ _ _ _ v 2%nat 2%nat Ha Hs Hnot).
Defined.

(** ** [join_balls] *)

(** X11.  [join_balls] fails with [KeyError] when a sprite it is given is not
    registered with the engine (a body given as second argument is not
    looked up).  When it succeeds it creates one new constraint from the
    body of [ball_a], stores it on [ball_a] and appends it to the space; it
    never removes a constraint, so a link [ball_a] stored before stays in the
    space, and it changes no other object, nor the list, nor the bodies. *)
Theorem join_balls_adds_one_link (ball_a : nat) (ball_b : BallOrBody)
  (v : MyView) :
  (¬ registered_in v ball_a → join_balls ball_a ball_b v = Raise KeyError)
  ∧ (∀ s, ball_b = IsBall s → ¬ registered_in v s →
          join_balls ball_a ball_b v = Raise KeyError)
  ∧ (∀ v', join_balls ball_a ball_b v = Ok v' →
       ∃ c, pymunk.constraints (the_space v')
            = pymunk.constraints (the_space v) ++ [c]
            ∧ pymunk.cid c = fresh v ∧ pymunk.a c = ball_a
            ∧ pymunk.b c = match ball_b with IsBall s => s | IsBody bd => bd end
            ∧ constraint (obj v' ball_a) = Some c
            ∧ (∀ s, s ≠ ball_a → objects v' !! s = objects v !! s)
            ∧ balls v' = balls v
            ∧ pymunk.bodies (the_space v') = pymunk.bodies (the_space v)).
Proof.
  split; [|split].
  - intros Hnot. unfold join_balls, arcade.get_physics_object_body.
    destruct (arcade.registered ball_a (physics_engine v)) eqn:E; [|done].
    apply registered_elem in E. contradiction.
  - intros s -> Hnot. unfold join_balls, arcade.get_physics_object_body.
    destruct (arcade.registered ball_a (physics_engine v)); [|done].
    cbn [bind].
    destruct (arcade.registered s (physics_engine v)) eqn:E; [|done].
    apply registered_elem in E. contradiction.
  - intros v' H. unfold join_balls in H.
    inv_bind H as body_a Ha. inv_bind H as body_b Hb.
    apply get_body_Ok in Ha as [-> Ha]. injection H as <-.
    exists (pymunk.PinJoint (fresh v) ball_a body_b).
    split; [reflexivity|]. split; [reflexivity|]. split; [reflexivity|].
    split.
    { destruct ball_b as [s|bd]; [|by injection Hb].
      by apply get_body_Ok in Hb as [-> _]. }
    split.
    { change (obj (set_space ?sp ?w) ball_a) with (obj w ball_a).
      rewrite obj_mutate. by case_decide. }
    split; [|by split].
    intros s Hs. change (objects (set_space ?sp ?w)) with (objects w).
    rewrite objects_mutate. by case_decide.
Qed.

Lemma join_balls_adds_one_link_witness :
  join_balls 9%nat (IsBall 1%nat) init_view = Raise KeyError
  ∧ join_balls 1%nat (IsBall 9%nat) init_view = Raise KeyError
  ∧ ∃ v', join_balls 1%nat (IsBall 3%nat) init_view = Ok v'
          ∧ links v' = links init_view ++ [(1, 3)%nat].
Proof.
  assert (∀ s, s ∈ [0; 1; 2; 3]%nat → registered_in init_view s) as Hin.
  { intros s Hs. unfold registered_in.
    replace (arcade.sprites (physics_engine init_view))
      with [0; 1; 2; 3]%nat by (vm_compute; reflexivity). exact Hs. }
  assert (∀ s, s ∉ [0; 1; 2; 3]%nat → ¬ registered_in init_view s) as Hout.
  { intros s Hs. unfold registered_in.
    replace (arcade.sprites (physics_engine init_view))
      with [0; 1; 2; 3]%nat by (vm_compute; reflexivity). exact Hs. }
  destruct (join_balls_adds_one_link 9%nat (IsBall 1%nat) init_view)
    as (H1 & _).
  destruct (join_balls_adds_one_link 1%nat (IsBall 9%nat) init_view)
    as (_ & H2 & _).
  destruct (join_balls_adds_one_link 1%nat (IsBall 3%nat) init_view)
    as (_ & _ & H4).
  assert (9%nat ∉ [0; 1; 2; 3]%nat) as H9
    by (apply (bool_decide_eq_false_1 (9%nat ∈ [0; 1; 2; 3]%nat));
        reflexivity).
  split; [apply H1, Hout, H9|].
  split; [apply (H2 9%nat eq_refl), Hout, H9|].
  destruct (join_balls_Ok 1%nat 3%nat (IsBall 3%nat) init_view)
    as (v' & Hv' & _).
  { apply Hin. repeat constructor. }
  { split; [done|]. apply Hin. repeat constructor. }
  exists v'. split; [done|].
  destruct (H4 v' Hv') as (c & Hcs & _ & Hca & Hcb & _).
  unfold links. rewrite Hcs, map_app. cbn [map pymunk.endpoints].
  unfold pymunk.endpoints at 2. by rewrite Hca, Hcb.
Defined.

(** ** Removal never shrinks the set of links *)

(** X12.  A middle click on any ball but the anchor of a valid chain whose
    bodies are in the space, tail or not, takes the ball out of the sprite list and its body out of the space
    but leaves as many links in the space as before, among them the link
    from its predecessor to the removed body; so from then on the space
    holds at least as many links as the list has balls. *)
Theorem middle_click_keeps_link_count (x y modifiers : Z)
  (collides : nat -> bool) (v : MyView) (j p s : nat) (rest : list nat) :
  valid v → synced v →
  balls v !! j = Some p → balls v !! S j = Some s →
  arcade.check_for_collision_with_list collides (balls v) = s :: rest →
  ∃ v',
    on_mouse_press x y arcade.MOUSE_BUTTON_MIDDLE modifiers collides v = Ok v'
    ∧ length (balls v) = S (length (balls v'))
    ∧ (s ∉ balls v')
    ∧ (s ∉ pymunk.bodies (the_space v'))
    ∧ (p, s) ∈ links v'
    ∧ length (links v') = length (links v).
Proof.
  intros HV [Hsb Hss] Hp Hs Hhit.
  assert (registered_in v s) as Hreg.
  { apply (valid_registered _ HV). by eapply list_elem_of_lookup_2. }
  assert (s ∈ pymunk.bodies (the_space v)) as Hbd by (by rewrite <- Hsb).
  assert (s ∈ pymunk.shapes (the_space v)) as Hsh by (by rewrite <- Hss).
  change (on_mouse_press x y arcade.MOUSE_BUTTON_MIDDLE modifiers collides v)
    with (press_middle x y collides v).
  destruct (balls v !! S (S j)) as [t|] eqn:Ht.
  - destruct (press_middle_interior x y collides v j p s t rest
                HV Hp Hs Ht Hhit Hbd Hsh)
      as (c_ps & c_st & v' & Hc1 & He1 & Hc2 & He2 & Hpm & Hlen & Hn1 & Hn2
          & Hcs & Hout & Hin).
    exists v'. split; [done|]. split; [done|]. split; [done|].
    split; [done|]. split.
    + unfold links. apply list_elem_of_fmap. by exists c_ps.
    + unfold links. rewrite !length_map, Hcs, length_app. cbn [length].
      assert (c_st ∈ pymunk.constraints (the_space v)) as Hst.
      { pose proof (valid_links _ HV (S j) s Hs) as Hsl. rewrite Ht in Hsl.
        destruct Hsl as (c & Hc & _ & _ & Hcin). congruence. }
      rewrite (Permutation_length
                 (filter_cid_perm _ c_st (valid_cids _ HV) Hst)).
      cbn [length]. lia.
  - destruct (press_middle_tail x y collides v j p s rest
                HV Hp Hs Ht Hhit Hbd Hsh)
      as (c & v' & Hpm & Hlen & Hn1 & Hn2 & Hcs & Hc & He & Hin).
    exists v'. split; [done|]. split; [done|]. split; [done|].
    split; [done|]. split.
    + unfold links. apply list_elem_of_fmap. by exists c.
    + unfold links. by rewrite Hcs.
Qed.

Lemma middle_click_keeps_link_count_witness :
  ∃ v',
    on_mouse_press 500 300 arcade.MOUSE_BUTTON_MIDDLE 0 (only 1%nat)
      init_view = Ok v'
    ∧ length (balls init_view) = S (length (balls v'))
    ∧ (0, 1)%nat ∈ links v'
    ∧ length (links v') = length (links init_view).
Proof.
  destruct (middle_click_keeps_link_count 500 300 0 (only 1%nat) init_view
              0 0 1 [])
    as (v' & Hp & Hlen & _ & _ & Hin & Hl).
  - apply valid_b_sound. vm_compute. reflexivity.
  - split; vm_compute; reflexivity.
  - vm_compute. reflexivity.
  - vm_compute. reflexivity.
  - vm_compute. reflexivity.
  - exists v'. by repeat split.
Defined.

(** ** What is drawn *)

Lemma draw_loop_zip (v : MyView) (p0 : pos) (a : nat) (l : list nat) :
  draw_loop v p0 (a :: l)
  = (p0, position (obj v a)) :: map (segment v) (zip (a :: l) l).
Proof.
  revert p0 a. induction l as [|b l IH]; intros p0 a; [done|].
  cbn [draw_loop] in IH |- *. rewrite IH. reflexivity.
Qed.

(** X13.  [on_draw] draws one white line per ball of the sprite list, in list
    order: the first, for the anchor, runs from the anchor's place to itself,
    and the line at index [i + 1] runs between the balls at indices [i] and
    [i + 1], wherever they are.  The lines follow the list, not the space:
    in a valid chain each of them is backed by a link between the two
    balls. *)
Theorem drawn_lines_follow_list (es : list Event) (v : MyView) :
  run es init_view = Ok v →
  on_draw_lines v
  = (position (obj v (center_pin v)), position (obj v (center_pin v)))
    :: map (segment v) (chain_links v)
  ∧ length (on_draw_lines v) = length (balls v)
  ∧ (∀ i a b, balls v !! i = Some a → balls v !! S i = Some b →
       on_draw_lines v !! S i
       = Some (position (obj v a), position (obj v b))
       ∧ (valid v → (a, b) ∈ links v)).
Proof.
  intros Hrun. pose proof (Inv_reachable _ _ Hrun) as HI.
  pose proof (inv_pin_first _ HI) as Hhead.
  assert (on_draw_lines v
          = (position (obj v (center_pin v)),
             position (obj v (center_pin v)))
            :: map (segment v) (chain_links v)) as Hlines.
  { unfold on_draw_lines, chain_links.
    destruct (balls v) as [|pin rest]; [done|]. injection Hhead as ->.
    apply draw_loop_zip. }
  split; [done|]. split.
  { rewrite Hlines. cbn [length]. rewrite length_map.
    unfold chain_links. rewrite zip_tail_length.
    destruct (balls v); [done | reflexivity]. }
  intros i a b Ha Hb. split.
  - rewrite Hlines.
    change (map (segment v) (chain_links v))
      with (segment v <$> chain_links v).
    rewrite lookup_cons_ne_0 by done. cbn [pred]. rewrite list_lookup_fmap.
    unfold chain_links.
    assert (zip (balls v) (tail (balls v)) !! i = Some (a, b)) as ->; [|done].
    apply lookup_zip_with_Some. exists a, b. split; [done|].
    split; [done|]. by rewrite lookup_tail.
  - intros HV. pose proof (valid_links _ HV i a Ha) as Hsl.
    rewrite Hb in Hsl. destruct Hsl as (c & _ & Hca & Hcb & Hin).
    unfold links. apply list_elem_of_fmap. exists c. split; [|done].
    unfold pymunk.endpoints. by rewrite Hca, Hcb.
Qed.

Lemma drawn_lines_follow_list_witness :
  on_draw_lines init_view
  = [((400, 300), (400, 300)); ((400, 300), (500, 300));
     ((500, 300), (600, 300)); ((600, 300), (650, 300))].
Proof.
  assert (run [] init_view = Ok init_view) as Hrun by reflexivity.
  rewrite (proj1 (drawn_lines_follow_list _ _ Hrun)).
  vm_compute. reflexivity.
Defined.

(** ** The physics step and the traces *)

Lemma resync_sprite_other (solve : nat -> pos) (v : MyView) (s t : nat) :
  s ≠ t → obj (resync_sprite solve v t) s = obj v s.
Proof.
  intros Hne. unfold resync_sprite. rewrite obj_mutate.
  case_decide; [congruence | done].
Qed.

Lemma resync_sprite_recorded (solve : nat -> pos) (v : MyView) (s : nat) :
  recorded_at (stepped_position solve v s) (obj (resync_sprite solve v s) s).
Proof.
  unfold resync_sprite. rewrite obj_mutate. case_decide; [|done].
  fold (stepped_position solve v s). split; [done|]. split; [done|].
  cbn [traces pymunk_moved set_traces position set_position].
  apply last_snoc.
Qed.

Lemma stepped_position_resync (solve : nat -> pos) (v : MyView) (s t : nat) :
  stepped_position solve (resync_sprite solve v t) s
  = stepped_position solve v s.
Proof.
  destruct (decide (s = t)) as [->|Hne].
  - unfold stepped_position at 1.
    destruct (resync_sprite_recorded solve v t) as (_ & Hbp & _).
    rewrite Hbp.
    assert (body_type (obj (resync_sprite solve v t) t)
            = body_type (obj v t)) as ->.
    { unfold resync_sprite. rewrite obj_mutate. by case_decide. }
    unfold stepped_position. by destruct (body_type (obj v t)).
  - unfold stepped_position. by rewrite resync_sprite_other.
Qed.

Lemma resync_fold_recorded (solve : nat -> pos) (resynced : nat -> bool)
  (l : list nat) (v : MyView) (s : nat) :
  let w := foldl (λ w t, if resynced t then resync_sprite solve w t else w)
             v l in
  stepped_position solve w s = stepped_position solve v s
  ∧ (s ∉ l ∨ resynced s = false → obj w s = obj v s)
  ∧ (recorded_at (stepped_position solve v s) (obj v s) →
     recorded_at (stepped_position solve v s) (obj w s))
  ∧ (s ∈ l → resynced s = true →
     recorded_at (stepped_position solve v s) (obj w s)).
Proof.
  revert v. induction l as [|t l IH]; intros v.
  - cbn [foldl]. split; [done|]. split; [done|]. split; [done|].
    intros H. by apply elem_of_nil in H.
  - cbn [foldl].
    destruct (resynced t) eqn:Et.
    + destruct (IH (resync_sprite solve v t)) as (H1 & H2 & H3 & H4).
      cbn zeta in H1, H2, H3, H4. rewrite stepped_position_resync in *.
      cbn zeta. split; [done|]. split; [|split].
      * intros [Hn|Hr].
        -- apply not_elem_of_cons in Hn as [Hne Hn].
           rewrite H2 by (by left). by apply resync_sprite_other.
        -- rewrite H2 by (by right). apply resync_sprite_other.
           intros ->. congruence.
      * intros Hrec. apply H3. destruct (decide (s = t)) as [->|Hne].
        -- apply resync_sprite_recorded.
        -- by rewrite resync_sprite_other.
      * intros Hin Hr. apply elem_of_cons in Hin as [->|Hin].
        -- apply H3, resync_sprite_recorded.
        -- by apply H4.
    + destruct (IH v) as (H1 & H2 & H3 & H4). cbn zeta in *.
      split; [done|]. split; [|split; [done|]].
      * intros [Hn|Hr]; apply H2; [|by right].
        apply not_elem_of_cons in Hn as [_ Hn]. by left.
      * intros Hin Hr. apply elem_of_cons in Hin as [->|Hin];
          [congruence | by apply H4].
Qed.

(** X14.  An update while the simulation runs puts every sprite the engine
    resynchronises where its body is after the step and records that place
    as the newest entry of its trace: a dynamic body is where the solver put
    it (also the grabbed one, set to the cursor before the step), any other
    body where it was.  A ball that is not resynchronised and not grabbed is
    unchanged. *)
Theorem running_update_records_positions (solve : nat -> pos)
  (resynced : nat -> bool) (v : MyView) (s : nat) :
  running v = true →
  (registered_in v s → resynced s = true →
   position (obj (on_update solve resynced v) s)
   = body_position (obj (on_update solve resynced v) s)
   ∧ last (traces (obj (on_update solve resynced v) s))
     = Some (position (obj (on_update solve resynced v) s))
   ∧ (body_type (obj v s) = pymunk.DYNAMIC →
      position (obj (on_update solve resynced v) s) = solve s)
   ∧ (body_type (obj v s) ≠ pymunk.DYNAMIC → attached v ≠ Some s →
      position (obj (on_update solve resynced v) s)
      = body_position (obj v s)))
  ∧ (resynced s = false → attached v ≠ Some s →
     obj (on_update solve resynced v) s = obj v s).
Proof.
  intros Hrun. unfold on_update.
  set (v1 := match attached v with
             | Some bd => mutate bd (set_body_position (col_detector v)) v
             | None => v
             end).
  assert (running v1 = true) as -> by (unfold v1; by destruct (attached v)).
  assert (arcade.sprites (physics_engine v1)
          = arcade.sprites (physics_engine v)) as Hsp
    by (unfold v1; by destruct (attached v)).
  assert (body_type (obj v1 s) = body_type (obj v s)) as Hbt.
  { unfold v1. destruct (attached v) as [bd|]; [|done].
    rewrite obj_mutate. by case_decide; subst. }
  assert (attached v ≠ Some s → obj v1 s = obj v s) as Hsame.
  { unfold v1. destruct (attached v) as [bd|]; [|done]. intros Hne.
    rewrite obj_mutate. case_decide; [congruence | done]. }
  destruct (resync_fold_recorded solve resynced
              (arcade.sprites (physics_engine v1)) v1 s)
    as (_ & H2 & _ & H4).
  cbn zeta in H2, H4. fold (engine_step solve resynced v1) in H2, H4.
  split.
  - intros Hreg Hr. unfold registered_in in Hreg. rewrite <- Hsp in Hreg.
    destruct (H4 Hreg Hr) as (Hp & Hb & Hl).
    split; [congruence|]. split; [congruence|]. split.
    + intros Hd. rewrite Hp. unfold stepped_position. by rewrite Hbt, Hd.
    + intros Hd Hne. rewrite Hp. unfold stepped_position. rewrite Hbt.
      rewrite (Hsame Hne). by destruct (body_type (obj v s)).
  - intros Hr Hne. rewrite H2 by (by right). by apply Hsame.
Qed.

Lemma running_update_records_positions_witness :
  position (obj (on_update (λ _, (9, 9)) (λ _, true)
                   (on_key_release 32 0 init_view)) 1%nat) = (9, 9)
  ∧ last (traces (obj (on_update (λ _, (9, 9)) (λ _, true)
                         (on_key_release 32 0 init_view)) 1%nat))
    = Some (9, 9).
Proof.
  destruct (running_update_records_positions (λ _, (9, 9)) (λ _, true)
              (on_key_release 32 0 init_view) 1%nat) as [H _].
  { vm_compute. reflexivity. }
  destruct H as (_ & Hl & Hd & _).
  { unfold registered_in. vm_compute. repeat constructor. }
  { reflexivity. }
  assert (position (obj (on_update (λ _, (9, 9)) (λ _, true)
                           (on_key_release 32 0 init_view)) 1%nat) = (9, 9))
    as Hp by (apply Hd; vm_compute; reflexivity).
  split; [exact Hp | by rewrite Hl, Hp].
Defined.

(** ** Sprites, bodies and shapes go together *)

Lemma synced_same_engine (v v' : MyView) :
  physics_engine v' = physics_engine v → synced v → synced v'.
Proof. unfold synced, the_space. by intros ->. Qed.

Lemma synced_join_balls (ball_a : nat) (ball_b : BallOrBody)
  (v v' : MyView) :
  join_balls ball_a ball_b v = Ok v' → synced v → synced v'.
Proof. intros H. join_inv H. done. Qed.

Lemma synced_create_ball (m : Z) (p : pos) (bt : pymunk.BodyType)
  (v v' : MyView) :
  create_ball m p bt v = Ok v' → synced v → synced v'.
Proof.
  unfold create_ball, new_Ball. intros H. inv_bind H as sv Hsv.
  inv_bind Hsv as bl Hbl. injection Hsv as <-. injection H as <-.
  intros [Hb Hs]. unfold synced, the_space in *.
  cbn [physics_engine set_balls set_physics_engine arcade.add_sprite
       arcade.sprites arcade.space pymunk.add_body_shape pymunk.bodies
       pymunk.shapes].
  by rewrite <- Hb, <- Hs.
Qed.

Lemma synced_remove_constraint (o : option pymunk.Constraint)
  (sp : pymunk.Space) (v : MyView) :
  pymunk.remove_constraint o (the_space v) = Ok sp →
  synced v → synced (set_space sp v).
Proof.
  intros H [Hb Hs]. apply remove_constraint_Ok in H
    as (c & _ & _ & Hbd & Hsh & _).
  unfold synced, the_space in *.
  cbn [physics_engine set_space set_physics_engine arcade.sprites
       arcade.space].
  by rewrite Hbd, Hsh.
Qed.

Lemma synced_remove_sprite (s : nat) (pe : arcade.PymunkPhysicsEngine)
  (v : MyView) :
  arcade.remove_sprite s (physics_engine v) = Ok pe →
  synced v → synced (set_physics_engine pe v).
Proof.
  intros H [Hb Hs]. apply remove_sprite_Ok in H as (Hsp & Hbd & Hsh & _).
  unfold synced, the_space in *. cbn [physics_engine set_physics_engine].
  by rewrite Hsp, Hbd, Hsh, <- Hb, <- Hs.
Qed.

Lemma synced_on_mouse_press (x y button modifiers : Z)
  (collides : nat -> bool) (v v' : MyView) :
  on_mouse_press x y button modifiers collides v = Ok v' →
  synced v → synced v'.
Proof.
  unfold on_mouse_press. intros H HS.
  destruct (button =? arcade.MOUSE_BUTTON_LEFT).
  { unfold press_left in H.
    destruct (arcade.check_for_collision_with_list _ _);
      [by injection H as <-|].
    inv_bind H as bd Hbd. by injection H as <-. }
  destruct (button =? arcade.MOUSE_BUTTON_RIGHT).
  { unfold press_right in H. inv_bind H as v1 Hv1.
    inv_bind H as ball_a Ha. inv_bind H as ball_b Hb.
    eapply synced_join_balls; [exact H|].
    by eapply synced_create_ball. }
  destruct (button =? arcade.MOUSE_BUTTON_MIDDLE); [|by injection H as <-].
  unfold press_middle in H.
  destruct (arcade.check_for_collision_with_list _ _) as [|s l];
    [by injection H as <-|].
  inv_bind H as index Hindex.
  destruct (negb (index =? 0)); [|by injection H as <-].
  inv_bind H as v2 Hv2. inv_bind H as l' Hl'. inv_bind H as pe Hpe.
  injection H as <-.
  assert (synced v2) as HS2.
  { destruct (constraint (obj _ s)); [|by injection Hv2 as <-].
    inv_bind Hv2 as previous Hprev. inv_bind Hv2 as vj Hvj.
    inv_bind Hv2 as sp Hsp. injection Hv2 as <-.
    eapply synced_remove_constraint; [exact Hsp|].
    eapply synced_join_balls; [exact Hvj|]. exact HS. }
  apply (synced_remove_sprite s pe (set_balls l' v2)); [exact Hpe|].
  exact HS2.
Qed.

Lemma synced_on_mouse_release (x y button modifiers : Z) (v v' : MyView) :
  on_mouse_release x y button modifiers v = Ok v' → synced v → synced v'.
Proof.
  unfold on_mouse_release. intros H HS.
  destruct (attached v); [|by injection H as <-].
  destruct (attached_sprite v) as [sprite|]; [|discriminate].
  inv_bind H as index Hindex. inv_bind H as previous Hprev.
  inv_bind H as sp Hsp. inv_bind H as v1 Hv1. inv_bind H as v2 Hv2.
  injection H as <-.
  assert (synced v1) as HS1.
  { eapply synced_join_balls; [exact Hv1|].
    by eapply synced_remove_constraint. }
  change (synced v2).
  destruct (constraint (obj v1 sprite)); [|by injection Hv2 as <-].
  inv_bind Hv2 as sp' Hsp'.
  eapply synced_join_balls; [exact Hv2|].
  by eapply synced_remove_constraint.
Qed.

Lemma synced_dispatch (e : Event) (v v' : MyView) :
  dispatch e v = Ok v' → synced v → synced v'.
Proof.
  destruct e; cbn [dispatch].
  - intros [= <-]. apply synced_same_engine.
    apply (sc_engine _ _ (same_chain_on_mouse_motion x y dx dy v)).
  - apply synced_on_mouse_press.
  - by intros [= <-].
  - apply synced_on_mouse_release.
  - intros [= <-]. apply synced_same_engine. unfold on_key_release.
    by destruct (symbol =? arcade.key_SPACE).
  - intros [= <-]. apply synced_same_engine.
    apply (sc_engine _ _ (same_chain_on_update solve resynced v)).
Qed.

(** X15.  In every reachable state the sprites registered with the engine,
    the bodies of the space and the shapes of the space are the same: a body
    and its shape enter and leave the space together with the sprite, so
    every listed ball has its body and its shape in the space and the
    engine can always remove a registered sprite. *)
Theorem sprites_bodies_shapes_agree (es : list Event) (v : MyView) :
  run es init_view = Ok v →
  synced v
  ∧ (∀ s, s ∈ balls v →
          s ∈ pymunk.bodies (the_space v) ∧ s ∈ pymunk.shapes (the_space v))
  ∧ (∀ s, registered_in v s →
          is_ok (arcade.remove_sprite s (physics_engine v)) = true).
Proof.
  intros Hrun. pose proof (Inv_reachable _ _ Hrun) as HI.
  assert (synced v) as HS.
  { assert (synced init_view) as H0 by (split; vm_compute; reflexivity).
    revert H0 Hrun. generalize init_view as w. clear.
    induction es as [|e es IH]; intros w H0 Hrun.
    - by injection Hrun as <-.
    - cbn [run] in Hrun. inv_bind Hrun as w1 Hw1.
      apply (IH w1); [|done]. by eapply synced_dispatch. }
  split; [done|]. destruct HS as [Hb Hs]. split.
  - intros s Hin. apply (inv_balls_registered _ HI) in Hin.
    unfold registered_in in Hin. by rewrite <- Hb, <- Hs.
  - intros s Hreg.
    destruct (remove_sprite_registered s (physics_engine v)) as (pe & -> & _).
    + exact Hreg.
    + unfold registered_in in Hreg. unfold the_space in Hb. by rewrite <- Hb.
    + unfold registered_in in Hreg. unfold the_space in Hs. by rewrite <- Hs.
    + reflexivity.
Qed.

Lemma sprites_bodies_shapes_agree_witness :
  synced (on_mouse_motion 1 2 0 0 init_view)
  ∧ 3%nat ∈ pymunk.bodies (the_space (on_mouse_motion 1 2 0 0 init_view)).
Proof.
  assert (run [MouseMotion 1 2 0 0] init_view
          = Ok (on_mouse_motion 1 2 0 0 init_view)) as Hrun by reflexivity.
  destruct (sprites_bodies_shapes_agree _ _ Hrun) as (HS & Hb & _).
  split; [exact HS|]. apply Hb. vm_compute. repeat constructor.
Defined.
